(** * Payment reconciliation of the collections route

    A shallow embedding of [Backend/routes/collections.js]: the handlers
    [router.put('/:historyId')] and [router.delete('/:historyId')], the two
    tables they write ([student_membership_history], [students]) and the
    transaction they run in; the two listings [router.get('/')] and
    [router.get('/previous-due-paid')]; and the paging of the table that
    shows the listing (the CollectionDue page).

    Modelling choices, all stated once here:
    - amounts are exact rationals ([Q]); the rounding of JavaScript doubles
      and of the NUMERIC columns is not modelled. The characterisation of the
      accepted requests, which turns on the comparison of the handler at the
      bound itself, is stated for whole amounts, on which its doubles are
      exact;
    - a string is given by its UTF-8 bytes;
    - a table is a finite map from its primary key [id] to the other columns;
      every column is nullable ([option]); the [id] and [branch_id] columns
      are PostgreSQL [integer]s, as the SERIAL and INTEGER columns of the
      other tables of the repository are;
    - a [Date] is given by what the handler observes of it: the local and
      the UTC calendar fields, and the instant;
    - what lies outside the source file is an [Env]: the clocks, the
      database's reading of a text parameter as an integer, and which
      [client.query] call (if any) throws;
    - a request is one that passed [checkAdmin] or [checkAdminOrStaff]; the
      text of an exception is not part of the 500 response;
    - [PUT] is the handler on a connection that has no transaction open and
      whose ROLLBACK in [catch] goes through; [PUT_request] is the handler
      with the pool around it ([pool.connect()] may reject, the connection
      comes back as it was released, the ROLLBACK of [catch] may throw), and
      is shown to agree with [PUT] and to release the connection with no
      transaction open whenever it answers. *)

From Stdlib Require Import ZArith QArith Lqa String Ascii List.
From stdpp Require Import base option gmap.

Local Open Scope Z_scope.

(** ** JavaScript values of the request body *)

Inductive JsVal :=
| JUndefined
| JNull
| JBool (b : bool)
| JNum (q : Q)
| JStr (s : string)
| JObject.

(** ** Dates *)

Record Date := mkDate {
  getTime : Z;
  getFullYear : Z;
  getMonth : Z;
  getUTCFullYear : Z;
  getUTCMonth : Z
}.

(** [new Date(null)] is the epoch (local fields for a server clock on UTC). *)
Definition epoch : Date := mkDate 0 1970 0 1970 0.

Definition new_Date (v : option Date) : Date := default epoch v.

Definition digit (n : Z) : ascii := ascii_of_nat (48 + Z.to_nat (n mod 10)).

Fixpoint digits (w : nat) (n : Z) (acc : string) : string :=
  match w with
  | O => acc
  | S w' => digits w' (n / 10) (String (digit n) acc)
  end.

(** [d.toISOString().slice(0,7)]: ['YYYY-MM'] for the years 0..9999, the
    sign and six digits of the expanded year otherwise. *)
Definition toISOString_slice_0_7 (d : Date) : string :=
  let y := getUTCFullYear d in
  if ((0 <=? y)%Z && (y <=? 9999)%Z)%bool
  then String.append (digits 4 y "") (String.append "-" (digits 2 (getUTCMonth d + 1) ""))
  else String.append (if (y <? 0)%Z then "-" else "+")%string (digits 6 (Z.abs y) "").

(** ** Numbers *)

(** [parseFloat(v) || 0] on a nullable numeric column. *)
Definition parseFloat_or_0 (v : option Q) : Q :=
  match v with
  | Some q => q
  | None => 0%Q
  end.

Definition Qltb (x y : Q) : bool := negb (Qle_bool y x).

Definition Math_max (x y : Q) : Q := if Qle_bool x y then y else x.

(** The values of a PostgreSQL [integer] column. *)
Definition int4 (k : Z) : bool := (-2147483648 <=? k) && (k <=? 2147483647).

(** ** Rows *)

Module History.
Record row := mk {
  student_id : option Z;
  name : option string;
  email : option string;
  phone : option string;
  address : option string;
  membership_start : option Date;
  membership_end : option Date;
  status : option string;
  total_fee : option Q;
  amount_paid : option Q;
  due_amount : option Q;
  cash : option Q;
  online : option Q;
  security_money : option Q;
  remark : option string;
  seat_id : option Z;
  shift_id : option Z;
  branch_id : option Z;
  registration_number : option string;
  father_name : option string;
  aadhar_number : option string;
  profile_image_url : option string;
  aadhaar_front_url : option string;
  aadhaar_back_url : option string;
  locker_id : option Z;
  changed_at : option Date;
  prev_due_paid : option bool;
  source_month : option string
}.

(** [SET due_amount = $1] *)
Definition set_due (d : Q) (r : row) : row :=
  mk (student_id r) (name r) (email r) (phone r) (address r)
     (membership_start r) (membership_end r) (status r)
     (total_fee r) (amount_paid r) (Some d)
     (cash r) (online r) (security_money r) (remark r)
     (seat_id r) (shift_id r) (branch_id r)
     (registration_number r) (father_name r) (aadhar_number r)
     (profile_image_url r) (aadhaar_front_url r) (aadhaar_back_url r)
     (locker_id r) (changed_at r) (prev_due_paid r) (source_month r).

(** [SET cash = $1, online = $2, amount_paid = $3, due_amount = $4] *)
Definition set_payment (c o p d : Q) (r : row) : row :=
  mk (student_id r) (name r) (email r) (phone r) (address r)
     (membership_start r) (membership_end r) (status r)
     (total_fee r) (Some p) (Some d)
     (Some c) (Some o) (security_money r) (remark r)
     (seat_id r) (shift_id r) (branch_id r)
     (registration_number r) (father_name r) (aadhar_number r)
     (profile_image_url r) (aadhaar_front_url r) (aadhaar_back_url r)
     (locker_id r) (changed_at r) (prev_due_paid r) (source_month r).
End History.

Module Student.
Record row := mk {
  name : option string;
  father_name : option string;
  total_fee : option Q;
  amount_paid : option Q;
  due_amount : option Q;
  cash : option Q;
  online : option Q
}.

(** [SET cash = $1, online = $2, amount_paid = $3, due_amount = $4] *)
Definition set_payment (c o p d : Q) (r : row) : row :=
  mk (name r) (father_name r) (total_fee r) (Some p) (Some d) (Some c) (Some o).
End Student.

(** ** The database *)

Record DB := mkDB {
  student_membership_history : gmap Z History.row;
  students : gmap Z Student.row;
  schedules : gmap Z (option string);
  branches : gmap Z (option string)
}.

(** The sequence behind [student_membership_history.id] is not
    transactional, so it lives beside the tables. *)
Record World := mkWorld {
  db : DB;
  history_id_seq : Z
}.

(** ** Requests, responses, environment *)

Record PutReq := mkPutReq {
  historyId : string;
  payment_amount : JsVal;
  payment_method : JsVal
}.

Module Collection.
Record t := mk {
  historyId : JsVal;
  studentId : option Z;
  name : option string;
  shiftTitle : option string;
  totalFee : Q;
  amountPaid : Q;
  dueAmount : Q;
  cash : Q;
  online : Q;
  securityMoney : Q;
  remark : string;
  createdAt : option Date;
  branchId : option Z;
  branchName : option string
}.
End Collection.

Inductive Body :=
| Message (message : string)
| ServerError (message : string)
| PaymentUpdated (message : string) (collection : Collection.t).

Record Response := mkResponse {
  status : Z;
  body : Body
}.

Record Env := mkEnv {
  js_now : Date;                  (* new Date() in the handler *)
  sql_now : Date;                 (* NOW() in the INSERT *)
  int_in : string -> option Z;    (* the database reading a text parameter as an id *)
  fault : option nat              (* index of the client.query call that throws *)
}.

(** ** JavaScript operators the handlers use *)

(** [v === s] for a string literal [s]. *)
Definition js_is (v : JsVal) (s : string) : bool :=
  match v with
  | JStr s' => String.eqb s' s
  | _ => false
  end.

(** [['cash', 'online'].includes(v)] *)
Definition includes_cash_online (v : JsVal) : bool :=
  js_is v "cash" || js_is v "online".

(** A number is truthy unless it is 0; [null] and [undefined] are falsy. *)
Definition truthy_id (v : option Z) : option Z :=
  match v with
  | Some 0 => None
  | _ => v
  end.

(** A string is truthy unless it is empty. *)
Definition truthy_str (v : option string) : option string :=
  match v with
  | Some EmptyString => None
  | _ => v
  end.

Definition or_else {A} (x y : option A) : option A :=
  match x with
  | Some _ => x
  | None => y
  end.

(** [parseInt(s, 10)]: leading white space, a sign, then the longest run of
    decimal digits; [None] is NaN. The white space of JavaScript is, in
    UTF-8: the bytes of TAB, LF, VT, FF, CR and SP; the two bytes of U+00A0;
    the three bytes of U+1680, U+2000 to U+200A, U+2028, U+2029, U+202F,
    U+205F, U+3000 and U+FEFF. The run of digits is read exactly: JavaScript
    rounds it to a double, which differs only beyond 2^53, and there an
    integer column takes neither value. *)
Definition is_space (a : ascii) : bool :=
  let n := nat_of_ascii a in
  ((n =? 32) || ((9 <=? n) && (n <=? 13)))%nat.

Definition is_space2 (a b : ascii) : bool :=
  ((nat_of_ascii a =? 194) && (nat_of_ascii b =? 160))%nat.

Definition is_space3 (a b c : ascii) : bool :=
  let x := nat_of_ascii a in
  let y := nat_of_ascii b in
  let z := nat_of_ascii c in
  ((x =? 225) && (y =? 154) && (z =? 128)
   || (x =? 226) && (y =? 128)
      && ((128 <=? z) && (z <=? 138) || (z =? 168) || (z =? 169) || (z =? 175))
   || (x =? 226) && (y =? 129) && (z =? 159)
   || (x =? 227) && (y =? 128) && (z =? 128)
   || (x =? 239) && (y =? 187) && (z =? 191))%nat.

Definition digit_of (a : ascii) : option Z :=
  let n := nat_of_ascii a in
  if ((48 <=? n) && (n <=? 57))%nat then Some (Z.of_nat n - 48) else None.

Fixpoint skip_space (s : string) : string :=
  match s with
  | String a s1 =>
      if is_space a then skip_space s1
      else
        match s1 with
        | String b s2 =>
            if is_space2 a b then skip_space s2
            else
              match s2 with
              | String c s3 => if is_space3 a b c then skip_space s3 else s
              | EmptyString => s
              end
        | EmptyString => s
        end
  | EmptyString => s
  end.

Fixpoint read_digits (s : string) (acc : option Z) : option Z :=
  match s with
  | String a s' =>
      match digit_of a with
      | Some d => read_digits s' (Some (10 * default 0 acc + d))
      | None => acc
      end
  | EmptyString => acc
  end.

Definition parseInt (s : string) : option Z :=
  match skip_space s with
  | String "-"%char s' => Z.opp <$> read_digits s' None
  | String "+"%char s' => read_digits s' None
  | s' => read_digits s' None
  end.

(** ** The connection and the handler monad *)

Record Client := mkClient {
  world : World;
  txn : option DB;     (* the tables as the open transaction sees them *)
  issued : nat         (* client.query calls made so far *)
}.

Inductive Outcome (A : Type) :=
| Next (a : A)          (* control goes on *)
| Sent (r : Response)   (* return res.status(..).json(..) *)
| Thrown.               (* an exception on its way to catch *)

Arguments Next {A} a.
Arguments Sent {A} r.
Arguments Thrown {A}.

Definition Handler (A : Type) : Type := Env -> Client -> Outcome A * Client.

#[global] Instance Handler_ret : MRet Handler := fun A a _ c => (Next a, c).

#[global] Instance Handler_bind : MBind Handler := fun A B k m env c =>
  match m env c with
  | (Next a, c') => k a env c'
  | (Sent r, c') => (Sent r, c')
  | (Thrown, c') => (Thrown, c')
  end.

Definition respond {A} (code : Z) (b : Body) : Handler A :=
  fun _ c => (Sent (mkResponse code b), c).

Definition throw {A} : Handler A := fun _ c => (Thrown, c).

(** The tables a statement on this connection reads and writes. *)
Definition view (c : Client) : DB := default (db (world c)) (txn c).

Definition put_view (d : DB) (c : Client) : Client :=
  match txn c with
  | Some _ => mkClient (world c) (Some d) (issued c)
  | None => mkClient (mkWorld d (history_id_seq (world c))) None (issued c)
  end.

(** A statement either yields a result or fails; it may change the client
    state in both cases. *)
Definition Statement (A : Type) : Type := Env -> Client -> option A * Client.

(** One [await client.query(..)]. *)
Definition query {A} (s : Statement A) : Handler A := fun env c =>
  let c1 := mkClient (world c) (txn c) (S (issued c)) in
  if decide (fault env = Some (issued c)) then (Thrown, c1)
  else match s env c1 with
       | (Some a, c2) => (Next a, c2)
       | (None, c2) => (Thrown, c2)
       end.

Definition BEGIN : Statement unit := fun _ c =>
  (Some tt, mkClient (world c) (Some (view c)) (issued c)).

Definition COMMIT : Statement unit := fun _ c =>
  (Some tt, mkClient (mkWorld (view c) (history_id_seq (world c))) None (issued c)).

Definition ROLLBACK : Statement unit := fun _ c =>
  (Some tt, mkClient (world c) None (issued c)).

(** ** The SQL statements of the two handlers *)

Definition with_history (h : gmap Z History.row) (d : DB) : DB :=
  mkDB h (students d) (schedules d) (branches d).

Definition with_students (s : gmap Z Student.row) (d : DB) : DB :=
  mkDB (student_membership_history d) s (schedules d) (branches d).

(** [SELECT * FROM student_membership_history WHERE id = $1] with the text
    of the route parameter; text that is no integer makes the statement fail. *)
Definition select_history (p : string) : Statement (option (Z * History.row)) :=
  fun env c =>
    match int_in env p with
    | Some k => (Some (pair k <$> student_membership_history (view c) !! k), c)
    | None => (None, c)
    end.

(** [SELECT * FROM students WHERE id = $1]; [id = NULL] selects nothing. *)
Definition select_student (sid : option Z) : Statement (option Student.row) :=
  fun _ c => (Some (sid ≫= fun k => students (view c) !! k), c).

(** [UPDATE student_membership_history SET due_amount = $1 WHERE id = $2] *)
Definition update_history_due (d : Q) (p : string) : Statement unit :=
  fun env c =>
    match int_in env p with
    | Some k =>
        (Some tt,
         put_view (with_history (alter (History.set_due d) k
                                   (student_membership_history (view c))) (view c)) c)
    | None => (None, c)
    end.

(** [UPDATE student_membership_history
     SET cash = $1, online = $2, amount_paid = $3, due_amount = $4 WHERE id = $5] *)
Definition update_history_payment (ca on pa du : Q) (p : string) : Statement unit :=
  fun env c =>
    match int_in env p with
    | Some k =>
        (Some tt,
         put_view (with_history (alter (History.set_payment ca on pa du) k
                                   (student_membership_history (view c))) (view c)) c)
    | None => (None, c)
    end.

(** [UPDATE students
     SET cash = $1, online = $2, amount_paid = $3, due_amount = $4 WHERE id = $5] *)
Definition update_students (ca on pa du : Q) (sid : option Z) : Statement unit :=
  fun _ c =>
    match sid with
    | Some k =>
        (Some tt,
         put_view (with_students (alter (Student.set_payment ca on pa du) k
                                    (students (view c))) (view c)) c)
    | None => (Some tt, c)
    end.

(** [INSERT INTO student_membership_history (..) VALUES (.., NOW(), true, $26)
     RETURNING *]: the id is drawn from the sequence (and stays drawn when
    the statement fails on the primary key); a sequence that has run past
    the values of the column gives no id. [r] carries the 26 parameters. *)
Definition insert_history (r : Date -> History.row) : Statement (Z * History.row) :=
  fun env c =>
    let k := history_id_seq (world c) in
    let c1 := mkClient (mkWorld (db (world c)) (k + 1)) (txn c) (issued c) in
    let row := r (sql_now env) in
    if negb (int4 k) then (None, c)
    else
      match student_membership_history (view c1) !! k with
      | Some _ => (None, c1)
      | None =>
          (Some (k, row),
           put_view (with_history (<[k := row]> (student_membership_history (view c1)))
                                  (view c1)) c1)
      end.

(** What the handler reads from [updatedHistory]: the row of the joined
    SELECT or the row the INSERT returns; a property the row does not
    have is [None]. *)
Module Updated.
Record row := mk {
  history_id : option Z;
  id : option Z;
  student_id : option Z;
  name : option string;
  shift_title : option string;
  total_fee : option Q;
  amount_paid : option Q;
  due_amount : option Q;
  cash : option Q;
  online : option Q;
  security_money : option Q;
  remark : option string;
  created_at : option Date;
  changed_at : option Date;
  branch_id : option Z;
  branch_name : option string
}.

Definition of_inserted (k : Z) (r : History.row) : row :=
  mk None (Some k) (History.student_id r) (History.name r) None
     (History.total_fee r) (History.amount_paid r) (History.due_amount r)
     (History.cash r) (History.online r) (History.security_money r)
     (History.remark r) None (History.changed_at r) (History.branch_id r) None.

Definition of_joined (d : DB) (k : Z) (r : History.row) : row :=
  mk (Some k) None (History.student_id r) (History.name r)
     (History.shift_id r ≫= fun s => mjoin (schedules d !! s))
     (History.total_fee r) (History.amount_paid r) (History.due_amount r)
     (History.cash r) (History.online r) (History.security_money r)
     (History.remark r) (History.changed_at r) None (History.branch_id r)
     (History.branch_id r ≫= fun b => mjoin (branches d !! b)).
End Updated.

(** [SELECT smh.id as history_id, .., sch.title as shift_title, ..,
     smh.changed_at as created_at, .., b.name as branch_name
     FROM student_membership_history smh LEFT JOIN schedules sch ..
     LEFT JOIN branches b .. WHERE smh.id = $1] *)
Definition select_joined (p : string) : Statement (option Updated.row) :=
  fun env c =>
    match int_in env p with
    | Some k =>
        (Some (Updated.of_joined (view c) k <$> student_membership_history (view c) !! k), c)
    | None => (None, c)
    end.

(** [SELECT id FROM student_membership_history WHERE id = $1] with a
    number for [$1]: a number that is no value of the column makes the
    statement fail. *)
Definition select_history_id (k : Z) : Statement (option Z) :=
  fun _ c =>
    if int4 k
    then (Some ((fun _ => k) <$> student_membership_history (view c) !! k), c)
    else (None, c).

(** [DELETE FROM student_membership_history WHERE id = $1], likewise. *)
Definition delete_history (k : Z) : Statement unit :=
  fun _ c =>
    if int4 k
    then (Some tt,
          put_view (with_history (delete k (student_membership_history (view c))) (view c)) c)
    else (None, c).

(** ** [router.put('/:historyId')] *)

Definition new_Date_now : Handler Date := fun env c => (Next (js_now env), c).

Definition isSameMonth (historyMonth now : Date) : bool :=
  (getFullYear historyMonth =? getFullYear now)
  && (getMonth historyMonth =? getMonth now).

(** The 26 parameters of the INSERT, with [NOW()] and [true] of its text. *)
Definition prev_due_row (history : History.row) (payment_amount inc_cash inc_online : Q)
    (sourceMonth : option string) (now : Date) : History.row :=
  History.mk
    (History.student_id history) (History.name history) (History.email history)
    (History.phone history) (History.address history)
    (History.membership_start history) (History.membership_end history)
    (History.status history)
    (Some 0%Q) (Some payment_amount) (Some 0%Q)
    (Some inc_cash) (Some inc_online) (Some 0%Q) (Some "Previous month due paid"%string)
    (History.seat_id history) (History.shift_id history) (History.branch_id history)
    (History.registration_number history) (History.father_name history)
    (History.aadhar_number history)
    (History.profile_image_url history) (History.aadhaar_front_url history)
    (History.aadhaar_back_url history)
    (History.locker_id history) (Some now) (Some true) sourceMonth.

(** The [if (!isSameMonth)] arm. *)
Definition previous_month (req : PutReq) (payment_amount : Q)
    (history : History.row) (student : Student.row) : Handler (option Updated.row) :=
  let current_due_amount := parseFloat_or_0 (History.due_amount history) in
  let studentId := History.student_id history in
  let prev_new_due_amount := (current_due_amount - payment_amount)%Q in
  if Qltb prev_new_due_amount 0 then
    _ ← query ROLLBACK;
    respond 400 (Message "Payment exceeds due amount")
  else
    _ ← query (update_history_due prev_new_due_amount (historyId req));
    let stu_cash := parseFloat_or_0 (Student.cash student) in
    let stu_online := parseFloat_or_0 (Student.online student) in
    let stu_amount_paid := parseFloat_or_0 (Student.amount_paid student) in
    let stu_due_amount := parseFloat_or_0 (Student.due_amount student) in
    let inc_cash := if js_is (payment_method req) "cash" then payment_amount else 0%Q in
    let inc_online := if js_is (payment_method req) "online" then payment_amount else 0%Q in
    let new_stu_cash := (stu_cash + inc_cash)%Q in
    let new_stu_online := (stu_online + inc_online)%Q in
    let new_stu_amount_paid := (stu_amount_paid + payment_amount)%Q in
    let new_stu_due_amount := Math_max (stu_due_amount - payment_amount)%Q 0%Q in
    _ ← query (update_students new_stu_cash new_stu_online new_stu_amount_paid
                 new_stu_due_amount studentId);
    let sourceMonth :=
      match History.changed_at history with
      | Some d => Some (toISOString_slice_0_7 d)
      | None => None
      end in
    insertRes ← query (insert_history
                         (prev_due_row history payment_amount inc_cash inc_online sourceMonth));
    mret (Some (Updated.of_inserted insertRes.1 insertRes.2)).

(** The [else] arm. *)
Definition same_month (req : PutReq) (payment_amount : Q)
    (history : History.row) : Handler (option Updated.row) :=
  let current_cash := parseFloat_or_0 (History.cash history) in
  let current_online := parseFloat_or_0 (History.online history) in
  let current_total_fee := parseFloat_or_0 (History.total_fee history) in
  let studentId := History.student_id history in
  let new_cash :=
    if js_is (payment_method req) "cash" then (current_cash + payment_amount)%Q
    else current_cash in
  let new_online :=
    if js_is (payment_method req) "cash" then current_online
    else if js_is (payment_method req) "online" then (current_online + payment_amount)%Q
    else current_online in
  let new_amount_paid := (new_cash + new_online)%Q in
  let new_due_amount := (current_total_fee - new_amount_paid)%Q in
  if Qltb new_due_amount 0 then
    _ ← query ROLLBACK;
    respond 400 (Message "Payment exceeds due amount")
  else
    _ ← query (update_history_payment new_cash new_online new_amount_paid
                 new_due_amount (historyId req));
    _ ← query (update_students new_cash new_online new_amount_paid
                 new_due_amount studentId);
    query (select_joined (historyId req)).

(** The [collection] object of the response. *)
Definition collection_of (updatedHistory : Updated.row) (historyId : string) : Collection.t :=
  Collection.mk
    (match or_else (truthy_id (Updated.history_id updatedHistory))
                   (truthy_id (Updated.id updatedHistory)) with
     | Some k => JNum (inject_Z k)
     | None => JStr historyId
     end)
    (Updated.student_id updatedHistory)
    (Updated.name updatedHistory)
    (truthy_str (Updated.shift_title updatedHistory))
    (parseFloat_or_0 (Updated.total_fee updatedHistory))
    (parseFloat_or_0 (Updated.amount_paid updatedHistory))
    (parseFloat_or_0 (Updated.due_amount updatedHistory))
    (parseFloat_or_0 (Updated.cash updatedHistory))
    (parseFloat_or_0 (Updated.online updatedHistory))
    (parseFloat_or_0 (Updated.security_money updatedHistory))
    (default ""%string (truthy_str (Updated.remark updatedHistory)))
    (or_else (Updated.created_at updatedHistory) (Updated.changed_at updatedHistory))
    (Updated.branch_id updatedHistory)
    (truthy_str (Updated.branch_name updatedHistory)).

(** The body of the [try] block. *)
Definition put_try (req : PutReq) : Handler Response :=
  _ ← query BEGIN;
  match payment_amount req with
  | JNum payment_amount =>
      if Qle_bool payment_amount 0 then
        _ ← query ROLLBACK;
        respond 400 (Message "Invalid payment_amount")
      else if negb (includes_cash_online (payment_method req)) then
        _ ← query ROLLBACK;
        respond 400 (Message "Invalid payment_method")
      else
        historyRes ← query (select_history (historyId req));
        match historyRes with
        | None =>
            _ ← query ROLLBACK;
            respond 404 (Message "History record not found")
        | Some (_, history) =>
            let historyMonth := new_Date (History.changed_at history) in
            now ← new_Date_now;
            studentRes ← query (select_student (History.student_id history));
            match studentRes with
            | None =>
                _ ← query ROLLBACK;
                respond 404 (Message "Student not found for this history record")
            | Some student =>
                updatedHistory ←
                  (if negb (isSameMonth historyMonth now)
                   then previous_month req payment_amount history student
                   else same_month req payment_amount history);
                _ ← query COMMIT;
                match updatedHistory with
                | Some u =>
                    mret (mkResponse 200
                            (PaymentUpdated "Payment updated successfully"
                               (collection_of u (historyId req))))
                | None => throw
                end
            end
        end
  | _ =>
      _ ← query ROLLBACK;
      respond 400 (Message "Invalid payment_amount")
  end.

Definition connect (w : World) : Client := mkClient w None 0.

(** [client.release()]: what stays is what was committed. *)
Definition release (c : Client) : World := world c.

(** The handler on a connection that has no transaction open, with a
    [catch] whose own ROLLBACK goes through: [try], [catch] and [finally]. *)
Definition PUT (env : Env) (req : PutReq) (w : World) : Response * World :=
  match put_try req env (connect w) with
  | (Next r, c) => (r, release c)
  | (Sent r, c) => (r, release c)
  | (Thrown, c) =>
      (mkResponse 500 (ServerError "Server error updating payment"),
       release (ROLLBACK env c).2)
  end.

(** *** The handler with the pool around it *)

(** The server between two requests: what is committed, and the transaction
    the pooled connection is in, when it was released inside one. *)
Record Server := mkServer {
  stored : World;
  pooled : option DB
}.

(** What can go wrong around the [try] block. *)
Record Incident := mkIncident {
  connect_rejects : bool;     (* pool.connect() rejects *)
  rollback_throws : bool      (* the ROLLBACK of catch throws *)
}.

(** [pool.connect()] hands out the connection as it was released. *)
Definition checkout (s : Server) : Client := mkClient (stored s) (pooled s) 0.

(** [client.release()] puts it back as it is. *)
Definition checkin (c : Client) : Server := mkServer (world c) (txn c).

(** The ROLLBACK of [catch] is one more [client.query]. *)
Definition catch_ROLLBACK (inc : Incident) : Handler unit :=
  if rollback_throws inc then throw else query ROLLBACK.

(** [async (req, res) => { const client = await pool.connect(); try {..}
    catch (err) {..} finally { client.release(); } }]. The answer is [None]
    when the handler sends no response: an exception outside [try], or in
    [catch] before [res.status(500)], rejects the promise of the handler. *)
Definition PUT_request (env : Env) (inc : Incident) (req : PutReq) (s : Server)
    : option Response * Server :=
  if connect_rejects inc then (None, s)
  else
    match put_try req env (checkout s) with
    | (Next r, c) => (Some r, checkin c)
    | (Sent r, c) => (Some r, checkin c)
    | (Thrown, c) =>
        match catch_ROLLBACK inc env c with
        | (Next _, c') =>
            (Some (mkResponse 500 (ServerError "Server error updating payment")),
             checkin c')
        | (_, c') => (None, checkin c')
        end
    end.

(** ** [router.delete('/:historyId')] *)

Definition delete_try (historyId : string) : Handler Response :=
  match parseInt historyId with
  | None => respond 400 (Message "Invalid history ID")
  | Some k =>
      checkResult ← query (select_history_id k);
      match checkResult with
      | None => respond 404 (Message "Collection record not found")
      | Some _ =>
          _ ← query (delete_history k);
          mret (mkResponse 200 (Message "Collection record deleted successfully"))
      end
  end.

Definition DELETE (env : Env) (historyId : string) (w : World) : Response * World :=
  match delete_try historyId env (connect w) with
  | (Next r, c) => (r, release c)
  | (Sent r, c) => (r, release c)
  | (Thrown, c) =>
      (mkResponse 500 (ServerError "Server error deleting collection record"), release c)
  end.

(** ** Concrete data for the examples *)

Fixpoint all_digits (s : string) : bool :=
  match s with
  | String a s' => bool_decide (is_Some (digit_of a)) && all_digits s'
  | EmptyString => true
  end.

(** An integer reader for the examples: a non-empty run of decimal digits. *)
Definition decimal_id (s : string) : option Z :=
  if all_digits s then read_digits s None else None.

Definition march_2024 : Date := mkDate 1710000000000 2024 2 2024 2.
Definition may_2024 : Date := mkDate 1715000000000 2024 4 2024 4.
Definition may_2024_later : Date := mkDate 1715000000001 2024 4 2024 4.

Definition env_may (f : option nat) : Env := mkEnv may_2024 may_2024_later decimal_id f.

Definition history_row (sid : Z) (fee paid due ca on : Q) (at_ : Date) : History.row :=
  History.mk (Some sid) (Some "Asha"%string) None None None None None (Some "active"%string)
    (Some fee) (Some paid) (Some due) (Some ca) (Some on) (Some 0%Q) None
    (Some 3) (Some 1) (Some 2) None None None None None None None
    (Some at_) (Some false) None.

Definition student_row (fee paid due ca on : Q) : Student.row :=
  Student.mk (Some "Asha"%string) None (Some fee) (Some paid) (Some due) (Some ca) (Some on).

(** Student 7 with a March row (id 1) and a May row (id 2), both unpaid. *)
Definition world0 : World :=
  mkWorld
    (mkDB (<[1 := history_row 7 100 0 100 0 0 march_2024]>
             (<[2 := history_row 7 100 0 100 0 0 may_2024]> ∅))
          (<[7 := student_row 100 0 100 0 0]> ∅)
          (<[1 := Some "Morning"%string]> ∅)
          (<[2 := Some "Main"%string]> ∅))
    3.

Definition pay (id : string) (a : Q) (m : string) : PutReq :=
  mkPutReq id (JNum a) (JStr m).

(** The text of U+00A0 followed by [s]. *)
Definition nbsp (s : string) : string :=
  String (ascii_of_nat 194) (String (ascii_of_nat 160) s).

(** 1 April 2024, 00:30 at five and a half hours east of Greenwich: 31 March,
    19:00, in UTC. *)
Definition april_2024_early : Date := mkDate 1711911600000 2024 3 2024 2.

(** Student 7 with one row (id 1) of that date. *)
Definition world_april : World :=
  mkWorld
    (mkDB (<[1 := history_row 7 100 0 100 0 0 april_2024_early]> ∅)
          (<[7 := student_row 100 0 100 0 0]> ∅)
          ∅ ∅)
    3.

(** Student 7 with a May row (id 2) whose 40 paid is not split into cash
    and online. *)
Definition world_unsplit : World :=
  mkWorld
    (mkDB (<[2 := history_row 7 100 40 60 0 0 may_2024]> ∅)
          (<[7 := student_row 100 40 60 0 0]> ∅)
          ∅ ∅)
    3.

(** ** The two listings: [router.get('/')] and [router.get('/previous-due-paid')] *)

(** What the database session contributes to the two SELECTs: its reading
    of a timestamp (in the session's time zone) and the order of its
    ORDER BY (under the collation of the column). *)
Record Session := mkSession {
  EXTRACT_YEAR : Date -> Z;
  EXTRACT_MONTH : Date -> Z;
  TO_CHAR_YYYY_MM : Date -> string;
  ORDER_BY_name : list (Z * History.row) -> list (Z * History.row);
  ORDER_BY_changed_at_DESC : list (Z * History.row) -> list (Z * History.row)
}.

(** [req.query]: a parameter is absent or a string. *)
Record Query := mkQuery {
  q_month : option string;
  q_branchId : option string
}.

Definition is_digit (a : ascii) : bool := bool_decide (is_Some (digit_of a)).

(** [/^\d{4}-\d{2}$/.test(s)] *)
Definition test_YYYY_MM (s : string) : bool :=
  match s with
  | String y1 (String y2 (String y3 (String y4
      (String "-"%char (String m1 (String m2 EmptyString)))))) =>
      is_digit y1 && is_digit y2 && is_digit y3 && is_digit y4
      && is_digit m1 && is_digit m2
  | _ => false
  end.

(** [s.split(sep)] for a separator of one character. *)
Fixpoint split (sep : ascii) (s : string) : list string :=
  match s with
  | EmptyString => [EmptyString]
  | String a s' =>
      if Ascii.eqb a sep then EmptyString :: split sep s'
      else match split sep s' with
           | piece :: rest => String a piece :: rest
           | [] => [String a EmptyString]
           end
  end.

(** The database reading a text parameter as a number where the other side
    of the comparison is numeric: a run of decimal digits. *)
Definition numeric_in (s : string) : option Z :=
  if all_digits s then read_digits s None else None.

(** The WHERE clause the handler of [GET /] puts together, with its
    parameters as the handler pushes them. *)
Record Where := mkWhere {
  where_year_month : option (option string * option string);
  where_branch_id : option Z
}.

(** A comparison with NULL selects nothing. *)
Definition eq_param (column : option Z) (param : option Z) : bool :=
  match column, param with
  | Some x, Some y => x =? y
  | _, _ => false
  end.

(** The row of [GET /]: the history row with its three LEFT JOINs. *)
Module Joined.
Record row := mk {
  history_id : Z;
  student_id : option Z;
  name : option string;
  father_name : option string;
  shift_title : option string;
  total_fee : option Q;
  amount_paid : option Q;
  due_amount : option Q;
  cash : option Q;
  online : option Q;
  security_money : option Q;
  remark : option string;
  created_at : option Date;
  branch_id : option Z;
  branch_name : option string
}.

Definition of_history (d : DB) (k : Z) (r : History.row) : row :=
  mk k (History.student_id r) (History.name r)
     (History.student_id r ≫= fun i => students d !! i ≫= Student.father_name)
     (History.shift_id r ≫= fun s => mjoin (schedules d !! s))
     (History.total_fee r) (History.amount_paid r) (History.due_amount r)
     (History.cash r) (History.online r) (History.security_money r)
     (History.remark r) (History.changed_at r) (History.branch_id r)
     (History.branch_id r ≫= fun b => mjoin (branches d !! b)).
End Joined.

(** [SELECT .. FROM student_membership_history smh LEFT JOIN students s ..
     LEFT JOIN schedules sch .. LEFT JOIN branches b ..
     [WHERE EXTRACT(YEAR FROM smh.changed_at) = $1
        AND EXTRACT(MONTH FROM smh.changed_at) = $2]
     [AND|WHERE smh.branch_id = $n] ORDER BY smh.name];
    parameter text that is no number, and a branch id that is no value of
    the column, make the statement fail. *)
Definition select_collections (ses : Session) (wh : Where) : Statement (list Joined.row) :=
  fun _ c =>
    let by_month :=
      match where_year_month wh with
      | None => Some (fun _ : History.row => true)
      | Some (year, month) =>
          match (fun s => numeric_in s) <$> year, (fun s => numeric_in s) <$> month with
          | Some None, _ | _, Some None => None
          | y, m =>
              Some (fun r : History.row =>
                      eq_param (EXTRACT_YEAR ses <$> History.changed_at r) (mjoin y)
                      && eq_param (EXTRACT_MONTH ses <$> History.changed_at r) (mjoin m))
          end
      end in
    let by_branch :=
      match where_branch_id wh with
      | None => Some (fun _ : History.row => true)
      | Some b =>
          if int4 b
          then Some (fun r : History.row => eq_param (History.branch_id r) (Some b))
          else None
      end in
    match by_month, by_branch with
    | Some by_month, Some by_branch =>
        (Some (uncurry (Joined.of_history (view c)) <$>
                 ORDER_BY_name ses
                   (filter (fun kr => by_month kr.2 && by_branch kr.2 = true)
                      (map_to_list (student_membership_history (view c))))),
         c)
    | _, _ => (None, c)
    end.

(** An entry of [collections] in the response of [GET /]. *)
Module Listed.
Record t := mk {
  historyId : Z;
  studentId : option Z;
  name : option string;
  father_name : option string;
  shiftTitle : option string;
  totalFee : Q;
  amountPaid : Q;
  dueAmount : Q;
  cash : Q;
  online : Q;
  securityMoney : Q;
  remark : string;
  createdAt : option Date;
  branchId : option Z;
  branchName : option string
}.
End Listed.

(** [v !== null && v !== undefined ? parseFloat(v) : 0] *)
Definition parseFloat_unless_null (v : option Q) : Q :=
  match v with
  | Some q => q
  | None => 0%Q
  end.

(** The callback of [result.rows.map]. *)
Definition listed_of (row : Joined.row) : Listed.t :=
  Listed.mk
    (Joined.history_id row) (Joined.student_id row) (Joined.name row)
    (Joined.father_name row) (Joined.shift_title row)
    (parseFloat_unless_null (Joined.total_fee row))
    (parseFloat_unless_null (Joined.amount_paid row))
    (parseFloat_unless_null (Joined.due_amount row))
    (parseFloat_unless_null (Joined.cash row))
    (parseFloat_unless_null (Joined.online row))
    (parseFloat_unless_null (Joined.security_money row))
    (default ""%string (truthy_str (Joined.remark row)))
    (Joined.created_at row) (Joined.branch_id row) (Joined.branch_name row).

(** The body of the [try] block of [GET /]. *)
Definition get_try (ses : Session) (q : Query) : Handler (list Listed.t) :=
  year_month ←
    match truthy_str (q_month q) with
    | Some monthParam =>
        if negb (test_YYYY_MM monthParam) then
          respond 400 (Message "Invalid month format. Use YYYY-MM")
        else
          let parts := split "-" monthParam in
          mret (Some (parts !! 0%nat, parts !! 1%nat))
    | None => mret None
    end;
  branch ←
    match truthy_str (q_branchId q) with
    | Some text =>
        match parseInt text with
        | None => respond 400 (Message "Invalid branch ID")
        | Some branchId => mret (Some branchId)
        end
    | None => mret None
    end;
  result ← query (select_collections ses (mkWhere year_month branch));
  mret (listed_of <$> result).

(** What a GET handler answers: the JSON of a 200, or an error response. *)
Inductive Reply (A : Type) :=
| Json (a : A)
| Failed (r : Response).

Arguments Json {A} a.
Arguments Failed {A} r.

Definition GET (env : Env) (ses : Session) (q : Query) (w : World) : Reply (list Listed.t) :=
  match get_try ses q env (connect w) with
  | (Next collections, _) => Json collections
  | (Sent r, _) => Failed r
  | (Thrown, _) => Failed (mkResponse 500 (ServerError "Server error fetching collections"))
  end.

(** A record of the response of [GET /previous-due-paid]. *)
Module PrevDue.
Record t := mk {
  historyId : Z;
  studentId : option Z;
  name : option string;
  amount : Q;
  cash : Q;
  online : Q;
  createdAt : option Date;
  branchId : option Z;
  branchName : option string;
  sourceMonth : option string
}.

Record report := mkReport {
  month : string;
  totalPreviousDuePaid : Q;
  records : list t
}.
End PrevDue.

(** [SELECT smh.id as history_id, .. FROM student_membership_history smh
     LEFT JOIN branches b ON smh.branch_id = b.id
     WHERE TO_CHAR(smh.changed_at, 'YYYY-MM') = $1 AND smh.prev_due_paid = true
     [AND smh.branch_id = $2] ORDER BY smh.changed_at DESC];
    [branch] is the second parameter when it is pushed: [Some None] is the
    NaN of [parseInt], which the database does not take for an integer, as
    it does not take a number that is no value of the column. *)
Definition select_previous_due_paid (ses : Session) (month : string)
    (branch : option (option Z)) : Statement (list (Z * History.row * option string)) :=
  fun _ c =>
    let by_branch :=
      match branch with
      | None => Some (fun _ : History.row => true)
      | Some (Some b) =>
          if int4 b
          then Some (fun r : History.row => eq_param (History.branch_id r) (Some b))
          else None
      | Some None => None
      end in
    match by_branch with
    | None => (None, c)
    | Some by_branch =>
        (Some ((fun kr : Z * History.row =>
                  (kr, History.branch_id kr.2 ≫= fun b => mjoin (branches (view c) !! b)))
               <$> ORDER_BY_changed_at_DESC ses
                     (filter (fun kr : Z * History.row =>
                                bool_decide (TO_CHAR_YYYY_MM ses <$> History.changed_at kr.2
                                             = Some month)
                                && bool_decide (History.prev_due_paid kr.2 = Some true)
                                && by_branch kr.2 = true)
                        (map_to_list (student_membership_history (view c))))),
         c)
    end.

(** The callback of [rows.map]. *)
Definition record_of (r : Z * History.row * option string) : PrevDue.t :=
  PrevDue.mk r.1.1 (History.student_id r.1.2) (History.name r.1.2)
    (parseFloat_or_0 (History.amount_paid r.1.2))
    (parseFloat_or_0 (History.cash r.1.2))
    (parseFloat_or_0 (History.online r.1.2))
    (History.changed_at r.1.2) (History.branch_id r.1.2) r.2
    (History.source_month r.1.2).

(** The body of the [try] block of [GET /previous-due-paid]. *)
Definition previous_due_paid_try (ses : Session) (q : Query) : Handler PrevDue.report :=
  match truthy_str (q_month q) with
  | Some month =>
      if negb (test_YYYY_MM month) then
        respond 400 (Message "Invalid month format. Use YYYY-MM")
      else
        let branch :=
          match truthy_str (q_branchId q) with
          | Some branchId => Some (parseInt branchId)
          | None => None
          end in
        rows ← query (select_previous_due_paid ses month branch);
        let total :=
          fold_left (fun acc r => (acc + parseFloat_or_0 (History.amount_paid r.1.2))%Q)
                    rows 0%Q in
        mret (PrevDue.mkReport month total (record_of <$> rows))
  | None => respond 400 (Message "Invalid month format. Use YYYY-MM")
  end.

Definition GET_previous_due_paid (env : Env) (ses : Session) (q : Query) (w : World)
    : Reply PrevDue.report :=
  match previous_due_paid_try ses q env (connect w) with
  | (Next report, _) => Json report
  | (Sent r, _) => Failed r
  | (Thrown, _) =>
      Failed (mkResponse 500 (ServerError "Server error fetching previous-due-paid summary"))
  end.

(** ** Pages of the collection table (the CollectionDue page) *)

(** [Math.ceil(n / d)] for a positive [d]. *)
Definition Math_ceil_div (n d : nat) : nat := ((n + d - 1) / d)%nat.

(** [l.slice(first, last)] for indices that are not negative. *)
Definition slice {A} (first last : nat) (l : list A) : list A :=
  take (last - first) (drop first l).

Definition totalPages {A} (filteredCollections : list A) (itemsPerPage : nat) : nat :=
  Math_ceil_div (length filteredCollections) itemsPerPage.

Definition currentCollections {A} (filteredCollections : list A)
    (itemsPerPage currentPage : nat) : list A :=
  let indexOfLastItem := (currentPage * itemsPerPage)%nat in
  let indexOfFirstItem := (indexOfLastItem - itemsPerPage)%nat in
  slice indexOfFirstItem indexOfLastItem filteredCollections.

(** ** A session for the examples: a database on UTC, byte order of names *)

Fixpoint insert_by {A} (le : A -> A -> bool) (x : A) (l : list A) : list A :=
  match l with
  | [] => [x]
  | y :: l' => if le x y then x :: l else y :: insert_by le x l'
  end.

Fixpoint sort_by {A} (le : A -> A -> bool) (l : list A) : list A :=
  match l with
  | [] => []
  | x :: l' => insert_by le x (sort_by le l')
  end.

(** ASC puts NULL last, DESC puts it first. *)
Definition name_le (x y : Z * History.row) : bool :=
  match History.name x.2, History.name y.2 with
  | Some a, Some b => String.leb a b
  | Some _, None => true
  | None, Some _ => false
  | None, None => true
  end.

Definition changed_at_ge (x y : Z * History.row) : bool :=
  match History.changed_at x.2, History.changed_at y.2 with
  | Some a, Some b => getTime b <=? getTime a
  | Some _, None => false
  | None, _ => true
  end.

Definition utc_session : Session :=
  mkSession getUTCFullYear (fun d => getUTCMonth d + 1) toISOString_slice_0_7
            (sort_by name_le) (sort_by changed_at_ge).

(** * Vocabulary of the properties *)

Definition history_at (w : World) (k : Z) : option History.row :=
  student_membership_history (db w) !! k.

Definition student_at (w : World) (k : Z) : option Student.row :=
  students (db w) !! k.

(** A request is accepted when it is answered with 200. *)
Definition accepted (env : Env) (req : PutReq) (w : World) : Prop :=
  status (PUT env req w).1 = 200.

Definition tick (c : Client) : Client := mkClient (world c) (txn c) (S (issued c)).

(** The values the handler computes on its way, by the names it gives them. *)
Definition inc_cash (req : PutReq) (a : Q) : Q :=
  if js_is (payment_method req) "cash" then a else 0%Q.

Definition inc_online (req : PutReq) (a : Q) : Q :=
  if js_is (payment_method req) "online" then a else 0%Q.

(** The tables after the three writes of the previous-month arm. *)
Definition previous_month_db (env : Env) (req : PutReq) (n : Z) (d : DB)
    (a : Q) (k : Z) (h : History.row) (sid : Z) (s : Student.row) : DB :=
  mkDB
    (<[n := prev_due_row h a (inc_cash req a) (inc_online req a)
              (toISOString_slice_0_7 <$> History.changed_at h) (sql_now env)]>
       (alter (History.set_due (parseFloat_or_0 (History.due_amount h) - a)%Q) k
          (student_membership_history d)))
    (alter (Student.set_payment
              (parseFloat_or_0 (Student.cash s) + inc_cash req a)%Q
              (parseFloat_or_0 (Student.online s) + inc_online req a)%Q
              (parseFloat_or_0 (Student.amount_paid s) + a)%Q
              (Math_max (parseFloat_or_0 (Student.due_amount s) - a)%Q 0%Q)) sid
       (students d))
    (schedules d) (branches d).

Definition new_cash (req : PutReq) (a : Q) (h : History.row) : Q :=
  if js_is (payment_method req) "cash" then (parseFloat_or_0 (History.cash h) + a)%Q
  else parseFloat_or_0 (History.cash h).

Definition new_online (req : PutReq) (a : Q) (h : History.row) : Q :=
  if js_is (payment_method req) "cash" then parseFloat_or_0 (History.online h)
  else if js_is (payment_method req) "online" then (parseFloat_or_0 (History.online h) + a)%Q
  else parseFloat_or_0 (History.online h).

Definition new_due (req : PutReq) (a : Q) (h : History.row) : Q :=
  (parseFloat_or_0 (History.total_fee h) - (new_cash req a h + new_online req a h))%Q.

(** The tables after the two writes of the same-month arm. *)
Definition same_month_db (req : PutReq) (d : DB)
    (a : Q) (k : Z) (h : History.row) (sid : Z) : DB :=
  mkDB
    (alter (History.set_payment (new_cash req a h) (new_online req a h)
              (new_cash req a h + new_online req a h)%Q (new_due req a h)) k
       (student_membership_history d))
    (alter (Student.set_payment (new_cash req a h) (new_online req a h)
              (new_cash req a h + new_online req a h)%Q (new_due req a h)) sid
       (students d))
    (schedules d) (branches d).

Definition ok_response (u : Updated.row) (req : PutReq) : Response :=
  mkResponse 200 (PaymentUpdated "Payment updated successfully"
                    (collection_of u (historyId req))).

Definition rejection (code : Z) (message : string) : option Response :=
  Some (mkResponse code (Message message)).

Definition server_error : Response :=
  mkResponse 500 (ServerError "Server error updating payment").

(** What a run in which no query fails answers when it does not accept:
    the decision table of the handler. [None] stands for acceptance. *)
Definition verdict (env : Env) (req : PutReq) (w : World) : option Response :=
  match payment_amount req with
  | JNum a =>
      if Qle_bool a 0 then rejection 400 "Invalid payment_amount"
      else if negb (includes_cash_online (payment_method req))
      then rejection 400 "Invalid payment_method"
      else
        match int_in env (historyId req) with
        | None => Some server_error
        | Some k =>
            match student_membership_history (db w) !! k with
            | None => rejection 404 "History record not found"
            | Some h =>
                match History.student_id h ≫= fun i => students (db w) !! i with
                | None => rejection 404 "Student not found for this history record"
                | Some s =>
                    if isSameMonth (new_Date (History.changed_at h)) (js_now env)
                    then
                      if Qltb (new_due req a h) 0
                      then rejection 400 "Payment exceeds due amount"
                      else None
                    else
                      if Qltb (parseFloat_or_0 (History.due_amount h) - a)%Q 0
                      then rejection 400 "Payment exceeds due amount"
                      else if negb (int4 (history_id_seq w)) then Some server_error
                      else
                        match student_membership_history (db w) !! history_id_seq w with
                        | Some _ => Some server_error
                        | None => None
                        end
                end
            end
        end
  | _ => rejection 400 "Invalid payment_amount"
  end.

(** Every column but [due_amount] agrees. *)
Definition same_but_due (h h' : History.row) : Prop :=
  History.student_id h' = History.student_id h
  /\ History.name h' = History.name h
  /\ History.email h' = History.email h
  /\ History.phone h' = History.phone h
  /\ History.address h' = History.address h
  /\ History.membership_start h' = History.membership_start h
  /\ History.membership_end h' = History.membership_end h
  /\ History.status h' = History.status h
  /\ History.total_fee h' = History.total_fee h
  /\ History.amount_paid h' = History.amount_paid h
  /\ History.cash h' = History.cash h
  /\ History.online h' = History.online h
  /\ History.security_money h' = History.security_money h
  /\ History.remark h' = History.remark h
  /\ History.seat_id h' = History.seat_id h
  /\ History.shift_id h' = History.shift_id h
  /\ History.branch_id h' = History.branch_id h
  /\ History.registration_number h' = History.registration_number h
  /\ History.father_name h' = History.father_name h
  /\ History.aadhar_number h' = History.aadhar_number h
  /\ History.profile_image_url h' = History.profile_image_url h
  /\ History.aadhaar_front_url h' = History.aadhaar_front_url h
  /\ History.aadhaar_back_url h' = History.aadhaar_back_url h
  /\ History.locker_id h' = History.locker_id h
  /\ History.changed_at h' = History.changed_at h
  /\ History.prev_due_paid h' = History.prev_due_paid h
  /\ History.source_month h' = History.source_month h.

(** The seat, shift, branch and identity columns agree. *)
Definition carried_over (h r : History.row) : Prop :=
  History.student_id r = History.student_id h
  /\ History.name r = History.name h
  /\ History.email r = History.email h
  /\ History.phone r = History.phone h
  /\ History.address r = History.address h
  /\ History.membership_start r = History.membership_start h
  /\ History.membership_end r = History.membership_end h
  /\ History.status r = History.status h
  /\ History.seat_id r = History.seat_id h
  /\ History.shift_id r = History.shift_id h
  /\ History.branch_id r = History.branch_id h
  /\ History.registration_number r = History.registration_number h
  /\ History.father_name r = History.father_name h
  /\ History.aadhar_number r = History.aadhar_number h
  /\ History.profile_image_url r = History.profile_image_url h
  /\ History.aadhaar_front_url r = History.aadhaar_front_url h
  /\ History.aadhaar_back_url r = History.aadhaar_back_url h
  /\ History.locker_id r = History.locker_id h.

(** The request targets row [k], which is [h], with the number [a]. *)
Definition pays (env : Env) (req : PutReq) (w : World) (a : Q) (k : Z) (h : History.row) : Prop :=
  payment_amount req = JNum a
  /\ int_in env (historyId req) = Some k
  /\ history_at w k = Some h.

Definition previous_month_of (env : Env) (h : History.row) : Prop :=
  isSameMonth (new_Date (History.changed_at h)) (js_now env) = false.

Definition same_month_of (env : Env) (h : History.row) : Prop :=
  isSameMonth (new_Date (History.changed_at h)) (js_now env) = true.

(** [typeof v === 'number' && v > 0] *)
Definition positive_number (v : JsVal) : bool :=
  match v with
  | JNum a => negb (Qle_bool a 0)
  | _ => false
  end.

(** The amount the guard of the arm compares the payment with. *)
Definition outstanding (env : Env) (h : History.row) : Q :=
  if isSameMonth (new_Date (History.changed_at h)) (js_now env)
  then (parseFloat_or_0 (History.total_fee h)
        - (parseFloat_or_0 (History.cash h) + parseFloat_or_0 (History.online h)))%Q
  else parseFloat_or_0 (History.due_amount h).

Definition client_error (r : Response) : Prop := 400 <= status r < 500.

(** The amount is no positive number, or the method is neither ['cash'] nor
    ['online']. *)
Definition invalid_input (req : PutReq) : Prop :=
  positive_number (payment_amount req) = false
  \/ includes_cash_online (payment_method req) = false.

(** The input is valid and the id denotes no history row, or a row whose
    student is not in [students]. *)
Definition missing_record (env : Env) (req : PutReq) (w : World) : Prop :=
  positive_number (payment_amount req) = true
  /\ includes_cash_online (payment_method req) = true
  /\ exists k, int_in env (historyId req) = Some k
               /\ (history_at w k ≫= fun h => History.student_id h ≫= student_at w) = None.

Definition message_only (r : Response) : Prop := exists m, body r = Message m.

(** None of the first [n] queries of the request is the failing one. *)
Definition clean (env : Env) (n : nat) : Prop :=
  forall i, (i < n)%nat -> fault env ≠ Some i.

(** A handler that does not end in an exception ran only queries that did
    not fail. *)
Definition tracks {A} (m : Handler A) : Prop :=
  forall env c,
    clean env (issued c) ->
    match m env c with
    | (Thrown, _) => True
    | (_, c') => clean env (issued c')
    end.

(** A statement does not touch the count of queries. *)
Definition steady {A} (s : Statement A) : Prop :=
  forall env c, issued (s env c).2 = issued c.

(** ** Sequences of requests *)

Definition amount_of (req : PutReq) : Q :=
  match payment_amount req with
  | JNum a => a
  | _ => 0%Q
  end.

Definition cash_of (req : PutReq) : Q :=
  if js_is (payment_method req) "cash" then amount_of req else 0%Q.

Definition online_of (req : PutReq) : Q :=
  if js_is (payment_method req) "online" then amount_of req else 0%Q.

(** The requests one after the other, each with its own environment. *)
Fixpoint PUT_each (reqs : list (Env * PutReq)) (w : World) : World :=
  match reqs with
  | [] => w
  | (env, req) :: rest => PUT_each rest (PUT env req w).2
  end.

Fixpoint total (f : PutReq -> Q) (reqs : list (Env * PutReq)) : Q :=
  match reqs with
  | [] => 0%Q
  | (_, req) :: rest => (f req + total f rest)%Q
  end.

(** Every request is accepted and targets a history row of student [sid]. *)
Fixpoint payments_of (sid : Z) (reqs : list (Env * PutReq)) (w : World) : Prop :=
  match reqs with
  | [] => True
  | (env, req) :: rest =>
      accepted env req w
      /\ (exists a k h, pays env req w a k h /\ History.student_id h = Some sid)
      /\ payments_of sid rest (PUT env req w).2
  end.

(** The snapshot has the row's cash and online, and its paid is their sum. *)
Definition snapshot_mirrors (h : History.row) (s : Student.row) : Prop :=
  (parseFloat_or_0 (History.cash h) == parseFloat_or_0 (Student.cash s))%Q
  /\ (parseFloat_or_0 (History.online h) == parseFloat_or_0 (Student.online s))%Q
  /\ (parseFloat_or_0 (Student.amount_paid s)
      == parseFloat_or_0 (Student.cash s) + parseFloat_or_0 (Student.online s))%Q.

(** Every same-month payment of the sequence finds the snapshot of [sid]
    mirroring the row it targets. *)
Fixpoint mirrored (sid : Z) (reqs : list (Env * PutReq)) (w : World) : Prop :=
  match reqs with
  | [] => True
  | (env, req) :: rest =>
      (forall a k h s,
          pays env req w a k h -> same_month_of env h -> student_at w sid = Some s ->
          snapshot_mirrors h s)
      /\ mirrored sid rest (PUT env req w).2
  end.

(** ** Vocabulary of the listings *)

(** An ORDER BY rearranges the rows it is given. *)
Definition rearranges {A} (f : list A -> list A) : Prop := forall l, f l ≡ₚ l.

(** The session reads the stored timestamps as of a month from 1 to 12. *)
Definition calendar_months (ses : Session) (w : World) : Prop :=
  forall k r d,
    history_at w k = Some r -> History.changed_at r = Some d ->
    1 <= EXTRACT_MONTH ses d <= 12.

(** The month filter of [GET /] is off, or the row is of that year and month. *)
Definition in_month (ses : Session) (q : Query) (r : History.row) : Prop :=
  forall m, truthy_str (q_month q) = Some m ->
    exists d y mo,
      History.changed_at r = Some d
      /\ numeric_in (substring 0 4 m) = Some y
      /\ numeric_in (substring 5 2 m) = Some mo
      /\ EXTRACT_YEAR ses d = y
      /\ EXTRACT_MONTH ses d = mo.

(** The branch filter is off, or the row is of that branch. *)
Definition in_branch (q : Query) (r : History.row) : Prop :=
  forall b, truthy_str (q_branchId q) = Some b ->
    exists n, parseInt b = Some n /\ History.branch_id r = Some n.

(** The month is given and malformed. *)
Definition bad_month (q : Query) : Prop :=
  exists m, truthy_str (q_month q) = Some m /\ test_YYYY_MM m = false.

(** The branch id is given and starts with no integer. *)
Definition bad_branch (q : Query) : Prop :=
  exists b, truthy_str (q_branchId q) = Some b /\ parseInt b = None.

Definition status_of {A} (r : Reply A) : Z :=
  match r with
  | Json _ => 200
  | Failed r => status r
  end.

(** The sum of the [amount] fields of the records. *)
Definition sum_amounts (l : list PrevDue.t) : Q :=
  foldr (fun r acc => (PrevDue.amount r + acc)%Q) 0%Q l.

(** The row is a previous-month due paid in [month], by the session. *)
Definition due_paid_in (ses : Session) (month : string) (r : History.row) : Prop :=
  TO_CHAR_YYYY_MM ses <$> History.changed_at r = Some month
  /\ History.prev_due_paid r = Some true.

(** Every request is an accepted previous-month payment on row [k]. *)
Fixpoint instalments (k : Z) (reqs : list (Env * PutReq)) (w : World) : Prop :=
  match reqs with
  | [] => True
  | (env, req) :: rest =>
      accepted env req w
      /\ (exists a h, pays env req w a k h /\ previous_month_of env h)
      /\ instalments k rest (PUT env req w).2
  end.

(** The WHERE clause of [GET /] on a row, read off the query string. *)
Definition selected_b (ses : Session) (q : Query) (r : History.row) : bool :=
  match truthy_str (q_month q) with
  | Some m =>
      eq_param (EXTRACT_YEAR ses <$> History.changed_at r) (numeric_in (substring 0 4 m))
      && eq_param (EXTRACT_MONTH ses <$> History.changed_at r) (numeric_in (substring 5 2 m))
  | None => true
  end
  && match truthy_str (q_branchId q) with
     | Some b => eq_param (History.branch_id r) (parseInt b)
     | None => true
     end.

(** The entry of [GET /] for history row [k]. *)
Definition entry (w : World) (k : Z) (r : History.row) : Listed.t :=
  listed_of (Joined.of_history (db w) k r).

(** The WHERE clause of [GET /previous-due-paid] on a row. *)
Definition due_selected_b (ses : Session) (q : Query) (month : string)
    (r : History.row) : bool :=
  bool_decide (TO_CHAR_YYYY_MM ses <$> History.changed_at r = Some month)
  && bool_decide (History.prev_due_paid r = Some true)
  && match truthy_str (q_branchId q) with
     | Some b => eq_param (History.branch_id r) (parseInt b)
     | None => true
     end.

(** The record of [GET /previous-due-paid] for history row [k]. *)
Definition due_record (w : World) (k : Z) (r : History.row) : PrevDue.t :=
  record_of (k, r, History.branch_id r ≫= fun b => mjoin (branches (db w) !! b)).

(** The month is missing (or empty) or malformed. *)
Definition no_month (q : Query) : Prop :=
  forall m, truthy_str (q_month q) = Some m -> test_YYYY_MM m = false.

(** The branch id is given and reads as a number that is no value of the
    column. *)
Definition branch_out_of_range (q : Query) : Prop :=
  exists b n, truthy_str (q_branchId q) = Some b /\ parseInt b = Some n /\ int4 n = false.

(** The branch id, when it is given and reads as a number, is a value of
    the column. *)
Definition branch_fits (q : Query) : bool :=
  match truthy_str (q_branchId q) ≫= parseInt with
  | Some n => int4 n
  | None => true
  end.

(** ** Vocabulary of the transaction *)

(** A handler that sends a response has ended the transaction before. *)
Definition settles {A} (m : Handler A) : Prop :=
  forall env c,
    match m env c with
    | (Sent _, c') => txn c' = None
    | _ => True
    end.

(** A handler that does not end in an exception has ended the transaction. *)
Definition concludes {A} (m : Handler A) : Prop :=
  forall env c,
    match m env c with
    | (Thrown, _) => True
    | (_, c') => txn c' = None
    end.

(** A handler that leaves the connection as it is. *)
Definition idle {A} (m : Handler A) : Prop := forall env c, (m env c).2 = c.

(** The ROLLBACK of [catch] goes through on the connection that the [try]
    block leaves behind. *)
Definition catch_goes_through (env : Env) (inc : Incident) (req : PutReq) (w : World) : Prop :=
  rollback_throws inc = false
  /\ fault env ≠ Some (issued (put_try req env (connect w)).2).

Definition answers_200 (r : option Response) : Prop := status <$> r = Some 200.

(** ** Whole amounts *)

(** An amount in whole units that is small enough for the sums and
    differences the handler takes of such amounts to be exact in doubles. *)
Definition whole (q : Q) : Prop :=
  exists n : Z, (q == inject_Z n)%Q /\ - 2 ^ 50 <= n <= 2 ^ 50.

(** The payment and the amounts of the stored history rows are whole. *)
Definition whole_amounts (req : PutReq) (w : World) : Prop :=
  (forall a, payment_amount req = JNum a -> whole a)
  /\ forall k h,
       history_at w k = Some h ->
       whole (parseFloat_or_0 (History.total_fee h))
       /\ whole (parseFloat_or_0 (History.cash h))
       /\ whole (parseFloat_or_0 (History.online h))
       /\ whole (parseFloat_or_0 (History.due_amount h)).

(** * The embedding on concrete inputs *)

Example toISOString_march : toISOString_slice_0_7 march_2024 = "2024-03"%string.
Proof. reflexivity. Qed.

Example toISOString_expanded_year :
  toISOString_slice_0_7 (mkDate 0 12345 0 12345 0) = "+012345"%string.
Proof. reflexivity. Qed.

Example parseInt_prefix : parseInt "  -12ab" = Some (-12).
Proof. reflexivity. Qed.

Example parseInt_NaN : parseInt "abc" = None.
Proof. reflexivity. Qed.

Example parseInt_nbsp : parseInt (nbsp " +7x") = Some 7.
Proof. reflexivity. Qed.

Example parseInt_line_separator :
  parseInt (String (ascii_of_nat 226) (String (ascii_of_nat 128)
              (String (ascii_of_nat 168) "12"))) = Some 12.
Proof. reflexivity. Qed.

Example parseInt_other_bytes :
  parseInt (String (ascii_of_nat 226) (String (ascii_of_nat 128)
              (String (ascii_of_nat 139) "12"))) = None.
Proof. reflexivity. Qed.

Example delete_beyond_column_500 :
  status (DELETE (env_may None) "2147483648" world0).1 = 500.
Proof. vm_compute. reflexivity. Qed.

Example put_request_rollback_throws :
  (PUT_request (env_may (Some 5%nat)) (mkIncident false true) (pay "1" 50 "cash")
     (mkServer world0 None)).1 = None.
Proof. vm_compute. reflexivity. Qed.

Example put_previous_month_200 :
  status (PUT (env_may None) (pay "1" 50 "cash") world0).1 = 200.
Proof. vm_compute. reflexivity. Qed.

Example put_same_month_200 :
  status (PUT (env_may None) (pay "2" 30 "online") world0).1 = 200.
Proof. vm_compute. reflexivity. Qed.

Example put_exceeds_due_400 :
  (PUT (env_may None) (pay "2" 130 "online") world0).1
  = mkResponse 400 (Message "Payment exceeds due amount").
Proof. vm_compute. reflexivity. Qed.

Example put_text_id_500 :
  status (PUT (env_may None) (pay "abc" 50 "cash") world0).1 = 500.
Proof. vm_compute. reflexivity. Qed.

Example put_failing_insert_500 :
  status (PUT (env_may (Some 5%nat)) (pay "1" 50 "cash") world0).1 = 500.
Proof. vm_compute. reflexivity. Qed.

(** * Stepping through the handler *)

Lemma bind_query {A B} (s : Statement A) (k : A -> Handler B) env c :
  (query s ≫= k) env c =
  if decide (fault env = Some (issued c)) then (Thrown, tick c)
  else match s env (tick c) with
       | (Some a, c2) => k a env c2
       | (None, c2) => (Thrown, c2)
       end.
Proof.
  unfold mbind, Handler_bind, query, tick.
  case_decide; [reflexivity|].
  destruct (s env _) as [[a|] c2]; reflexivity.
Qed.

Lemma run_query {A} (s : Statement A) env c :
  query s env c =
  if decide (fault env = Some (issued c)) then (Thrown, tick c)
  else match s env (tick c) with
       | (Some a, c2) => (Next a, c2)
       | (None, c2) => (Thrown, c2)
       end.
Proof. reflexivity. Qed.

Lemma bind_now {B} (k : Date -> Handler B) env c :
  (new_Date_now ≫= k) env c = k (js_now env) env c.
Proof. reflexivity. Qed.

Lemma previous_month_cases req a h s env w d n k sid :
  int_in env (historyId req) = Some k ->
  History.student_id h = Some sid ->
  match previous_month req a h s env (mkClient w (Some d) n) with
  | (Next u, c') =>
      Qltb (parseFloat_or_0 (History.due_amount h) - a)%Q 0 = false
      /\ student_membership_history d !! history_id_seq w = None
      /\ int4 (history_id_seq w) = true
      /\ u = Some (Updated.of_inserted (history_id_seq w)
                     (prev_due_row h a (inc_cash req a) (inc_online req a)
                        (toISOString_slice_0_7 <$> History.changed_at h) (sql_now env)))
      /\ world c' = mkWorld (db w) (history_id_seq w + 1)
      /\ txn c' = Some (previous_month_db env req (history_id_seq w) d a k h sid s)
  | (Sent r, c') =>
      r = mkResponse 400 (Message "Payment exceeds due amount") /\ world c' = w
      /\ Qltb (parseFloat_or_0 (History.due_amount h) - a)%Q 0 = true
  | (Thrown, c') =>
      db (world c') = db w
      /\ (fault env = None ->
          Qltb (parseFloat_or_0 (History.due_amount h) - a)%Q 0 = false
          /\ (int4 (history_id_seq w) = false
              \/ is_Some (student_membership_history d !! history_id_seq w)))
  end.
Proof.
  intros Hk Hsid. unfold previous_month.
  destruct (Qltb _ 0) eqn:Hdue.
  { rewrite bind_query. case_decide; simpl; [split; [reflexivity|congruence]|auto]. }
  rewrite bind_query. case_decide; [split; [reflexivity|congruence]|].
  unfold update_history_due at 1. rewrite Hk.
  cbn [tick put_view view world txn issued default id].
  rewrite bind_query. case_decide; [split; [reflexivity|congruence]|].
  rewrite Hsid.
  cbn [update_students tick put_view view world txn issued default id].
  rewrite bind_query. case_decide; [split; [reflexivity|congruence]|].
  unfold insert_history.
  cbn [tick put_view view world txn issued default id db
       with_history with_students student_membership_history students schedules branches].
  destruct (int4 (history_id_seq w)) eqn:Hint; cbn [negb];
    [|split; [reflexivity|intros _; split; [reflexivity|left; reflexivity]]].
  destruct (_ !! history_id_seq w) eqn:Hfresh.
  { split; [reflexivity|]. intros _. split; [reflexivity|]. right.
    apply lookup_alter_is_Some with (f := History.set_due (parseFloat_or_0 (History.due_amount h) - a)%Q) (i := k).
    rewrite Hfresh. eauto. }
  cbn [tick put_view view world txn issued default id db mret Handler_ret fst snd
       with_history with_students student_membership_history students schedules branches].
  apply lookup_alter_None in Hfresh.
  repeat split; try reflexivity; auto.
Qed.

Lemma same_month_cases req a h env w d n k sid :
  int_in env (historyId req) = Some k ->
  History.student_id h = Some sid ->
  match same_month req a h env (mkClient w (Some d) n) with
  | (Next u, c') =>
      Qltb (new_due req a h) 0 = false
      /\ u = Updated.of_joined (same_month_db req d a k h sid) k <$>
               student_membership_history (same_month_db req d a k h sid) !! k
      /\ world c' = w
      /\ txn c' = Some (same_month_db req d a k h sid)
  | (Sent r, c') =>
      r = mkResponse 400 (Message "Payment exceeds due amount") /\ world c' = w
      /\ Qltb (new_due req a h) 0 = true
  | (Thrown, c') => db (world c') = db w /\ fault env ≠ None
  end.
Proof.
  intros Hk Hsid. unfold same_month.
  fold (new_cash req a h). fold (new_online req a h). fold (new_due req a h).
  destruct (Qltb _ 0) eqn:Hdue.
  { rewrite bind_query. case_decide; simpl; [split; [reflexivity|congruence]|auto]. }
  rewrite bind_query. case_decide; [split; [reflexivity|congruence]|].
  unfold update_history_payment at 1. rewrite Hk.
  cbn [tick put_view view world txn issued default id].
  rewrite bind_query. case_decide; [split; [reflexivity|congruence]|].
  rewrite Hsid.
  cbn [update_students tick put_view view world txn issued default id].
  rewrite run_query. case_decide; [split; [reflexivity|congruence]|].
  unfold select_joined. rewrite Hk.
  cbn [tick put_view view world txn issued default id db mret Handler_ret fst snd
       with_history with_students student_membership_history students schedules branches].
  repeat split; try reflexivity; auto.
Qed.

Ltac use_facts :=
  repeat match goal with
         | H : ?x = _ |- context [?x] => rewrite H
         end.

Ltac verdict_case :=
  let Hf := fresh "Hf" in
  intros Hf; try congruence; unfold verdict, rejection, server_error; use_facts; simpl; use_facts;
  reflexivity.

Ltac rejected :=
  first [rewrite bind_query; case_decide|idtac];
  try unfold ROLLBACK; try unfold respond; simpl; intros [= <- <-]; left; simpl;
  (split; [discriminate|split; [reflexivity|verdict_case]]).

Lemma PUT_cases env req w r w' :
  PUT env req w = (r, w') ->
  (status r ≠ 200 /\ db w' = db w
   /\ (fault env = None -> verdict env req w = Some r))
  \/ exists a k h sid s,
      payment_amount req = JNum a
      /\ Qle_bool a 0 = false
      /\ includes_cash_online (payment_method req) = true
      /\ int_in env (historyId req) = Some k
      /\ history_at w k = Some h
      /\ History.student_id h = Some sid
      /\ student_at w sid = Some s
      /\ ((isSameMonth (new_Date (History.changed_at h)) (js_now env) = false
           /\ Qltb (parseFloat_or_0 (History.due_amount h) - a)%Q 0 = false
           /\ history_at w (history_id_seq w) = None
           /\ int4 (history_id_seq w) = true
           /\ r = ok_response
                    (Updated.of_inserted (history_id_seq w)
                       (prev_due_row h a (inc_cash req a) (inc_online req a)
                          (toISOString_slice_0_7 <$> History.changed_at h) (sql_now env))) req
           /\ w' = mkWorld (previous_month_db env req (history_id_seq w) (db w) a k h sid s)
                           (history_id_seq w + 1))
          \/ (isSameMonth (new_Date (History.changed_at h)) (js_now env) = true
              /\ Qltb (new_due req a h) 0 = false
              /\ r = ok_response
                       (Updated.of_joined (same_month_db req (db w) a k h sid) k
                          (History.set_payment (new_cash req a h) (new_online req a h)
                             (new_cash req a h + new_online req a h)%Q (new_due req a h) h)) req
              /\ w' = mkWorld (same_month_db req (db w) a k h sid) (history_id_seq w))).
Proof.
  revert r w'.
  unfold PUT, put_try. intros r w'. rewrite bind_query.
  case_decide; [rejected|].
  cbn [BEGIN tick connect world txn issued view default id].
  destruct (payment_amount req) as [| |b|a|str|] eqn:Ha; try rejected.
  destruct (Qle_bool a 0) eqn:Hpos; [rejected|].
  destruct (includes_cash_online _) eqn:Hmeth; cbn [negb]; [|rejected].
  rewrite bind_query. case_decide; [rejected|].
  unfold select_history. destruct (int_in env (historyId req)) as [k|] eqn:Hk; [|rejected].
  cbn [tick connect world txn issued view default id db].
  destruct (student_membership_history (db w) !! k) as [h|] eqn:Hh;
    cbn [fmap option_fmap option_map]; [|rejected].
  rewrite bind_now. rewrite bind_query.
  case_decide; [rejected|].
  unfold select_student.
  cbn [tick connect world txn issued view default id db].
  destruct (History.student_id h) as [sid|] eqn:Hsid; cbn [mbind option_bind]; [|rejected].
  destruct (students (db w) !! sid) as [s|] eqn:Hs; [|rejected].
  cbn [tick world txn issued].
  unfold mbind at 1, Handler_bind at 1.
  destruct (isSameMonth _ _) eqn:Hm; cbn [negb].
  - pose proof (same_month_cases req a h env w (db w) 3%nat k sid Hk Hsid) as Hc.
    destruct (same_month _ _ _ _ _) as [[u|r0|] c'].
    + destruct Hc as (Hdue & -> & Hw & Ht).
      rewrite bind_query.
      case_decide; [simpl; rewrite Hw; intros [= <- <-]; left;
                    split; [discriminate|split; [reflexivity|congruence]]|].
      unfold same_month_db at 2.
      cbn [student_membership_history]. rewrite lookup_alter_eq, Hh.
      cbn [fmap option_fmap option_map COMMIT tick view world txn issued default id
           mret Handler_ret release].
      rewrite Ht, Hw. cbn [default id]. intros [= <- <-].
      right. exists a, k, h, sid, s. repeat (split; [assumption || reflexivity|]).
      right. repeat (split; [assumption || reflexivity|]). reflexivity.
    + destruct Hc as (-> & Hw & Hdue). simpl. unfold release. rewrite Hw.
      intros [= <- <-]. left. simpl.
      split; [discriminate|split; [reflexivity|verdict_case]].
    + destruct Hc as [Hd Hf]. simpl. intros [= <- <-]. left.
      split; [discriminate|split; [assumption|congruence]].
  - pose proof (previous_month_cases req a h s env w (db w) 3%nat k sid Hk Hsid) as Hc.
    destruct (previous_month _ _ _ _ _ _) as [[u|r0|] c'].
    + destruct Hc as (Hdue & Hfresh & Hint & -> & Hw & Ht).
      rewrite bind_query.
      case_decide; [simpl; rewrite Hw; intros [= <- <-]; left;
                    split; [discriminate|split; [reflexivity|congruence]]|].
      cbn [fmap option_fmap option_map COMMIT tick view world txn issued default id
           mret Handler_ret release].
      rewrite Ht, Hw. cbn [default id]. intros [= <- <-].
      right. exists a, k, h, sid, s. repeat (split; [assumption || reflexivity|]).
      left. repeat (split; [assumption || reflexivity|]). reflexivity.
    + destruct Hc as (-> & Hw & Hdue). simpl. unfold release. rewrite Hw.
      intros [= <- <-]. left. simpl.
      split; [discriminate|split; [reflexivity|verdict_case]].
    + destruct Hc as [Hd Hf]. simpl. intros [= <- <-]. left.
      split; [discriminate|split; [assumption|]].
      intros Hnone. destruct (Hf Hnone) as [Hdue [Hint|[x Hx]]];
        unfold verdict, server_error; use_facts; simpl; use_facts; try reflexivity.
      destruct (int4 (history_id_seq w)); reflexivity.
Qed.

(** ** Arithmetic of the guards *)

Lemma Qltb_true x y : Qltb x y = true <-> (x < y)%Q.
Proof.
  unfold Qltb. rewrite negb_true_iff. split.
  - intros H. apply Qnot_le_lt. intros Hle. apply Qle_bool_iff in Hle. congruence.
  - intros H. destruct (Qle_bool y x) eqn:E; [|reflexivity].
    apply Qle_bool_iff in E. exfalso. apply (Qlt_not_le _ _ H E).
Qed.

Lemma Qltb_false x y : Qltb x y = false <-> (y <= x)%Q.
Proof.
  unfold Qltb. rewrite negb_false_iff. apply Qle_bool_iff.
Qed.

Lemma Qle_bool_false x y : Qle_bool x y = false <-> (y < x)%Q.
Proof.
  rewrite <- (Qltb_true y x). unfold Qltb. rewrite negb_true_iff. reflexivity.
Qed.

Lemma Math_max_0_nonneg x : (0 <= Math_max x 0)%Q.
Proof.
  unfold Math_max. destruct (Qle_bool x 0) eqn:E; [apply Qle_refl|].
  apply Qle_bool_false in E. apply Qlt_le_weak, E.
Qed.

Lemma Math_max_0_ge x : (x <= Math_max x 0)%Q.
Proof.
  unfold Math_max. destruct (Qle_bool x 0) eqn:E; [|apply Qle_refl].
  apply Qle_bool_iff, E.
Qed.

Lemma Math_max_0_cases x : Math_max x 0 = x \/ Math_max x 0 = 0%Q.
Proof. unfold Math_max. destruct (Qle_bool x 0); auto. Qed.

Lemma Math_max_0_id x : (0 <= x)%Q -> (Math_max x 0 == x)%Q.
Proof.
  intros H. unfold Math_max. destruct (Qle_bool x 0) eqn:E; [|reflexivity].
  apply Qle_bool_iff in E. apply Qle_antisym; assumption.
Qed.

(** ** The payment method *)

Lemma method_cases v :
  includes_cash_online v = true ->
  (js_is v "cash" = true /\ js_is v "online" = false)
  \/ (js_is v "cash" = false /\ js_is v "online" = true).
Proof.
  unfold includes_cash_online. destruct v as [| |b|q|s|]; simpl; try discriminate.
  destruct (String.eqb s "cash") eqn:E; simpl.
  - apply String.eqb_eq in E. subst s. intros _. left. split; reflexivity.
  - intros ->. right. split; reflexivity.
Qed.



Lemma new_sum req a h :
  includes_cash_online (payment_method req) = true ->
  (new_cash req a h + new_online req a h
   == parseFloat_or_0 (History.cash h) + parseFloat_or_0 (History.online h) + a)%Q.
Proof.
  intros H. unfold new_cash, new_online.
  destruct (method_cases _ H) as [[H1 H2]|[H1 H2]]; rewrite ?H1, ?H2; ring.
Qed.

(** ** What an accepted request did *)

Lemma accepted_previous_month env req w a k h :
  accepted env req w ->
  payment_amount req = JNum a ->
  int_in env (historyId req) = Some k ->
  history_at w k = Some h ->
  isSameMonth (new_Date (History.changed_at h)) (js_now env) = false ->
  exists sid s,
    History.student_id h = Some sid
    /\ student_at w sid = Some s
    /\ Qle_bool a 0 = false
    /\ includes_cash_online (payment_method req) = true
    /\ Qltb (parseFloat_or_0 (History.due_amount h) - a)%Q 0 = false
    /\ history_at w (history_id_seq w) = None
    /\ PUT env req w =
         (ok_response
            (Updated.of_inserted (history_id_seq w)
               (prev_due_row h a (inc_cash req a) (inc_online req a)
                  (toISOString_slice_0_7 <$> History.changed_at h) (sql_now env))) req,
          mkWorld (previous_month_db env req (history_id_seq w) (db w) a k h sid s)
                  (history_id_seq w + 1)).
Proof.
  unfold accepted. intros Hacc Ha Hk Hh Hm.
  destruct (PUT env req w) as [r w'] eqn:E.
  destruct (PUT_cases _ _ _ _ _ E)
    as [[Hno _]|(a' & k' & h' & sid & s & Ha' & Hpos & Hmeth & Hk' & Hh' & Hsid & Hs & Hbr)];
    [contradiction|].
  assert (a' = a) as -> by congruence.
  assert (k' = k) as -> by congruence.
  assert (h' = h) as -> by congruence.
  destruct Hbr as [(_ & Hdue & Hfresh & _ & -> & ->)|(Hm' & _)]; [|congruence].
  exists sid, s. repeat (split; [assumption|]). reflexivity.
Qed.

Lemma accepted_previous_month_fits env req w a k h :
  accepted env req w ->
  payment_amount req = JNum a ->
  int_in env (historyId req) = Some k ->
  history_at w k = Some h ->
  isSameMonth (new_Date (History.changed_at h)) (js_now env) = false ->
  int4 (history_id_seq w) = true.
Proof.
  unfold accepted. intros Hacc Ha Hk Hh Hm.
  destruct (PUT env req w) as [r w'] eqn:E.
  destruct (PUT_cases _ _ _ _ _ E)
    as [[Hno _]|(a' & k' & h' & sid & s & Ha' & Hpos & Hmeth & Hk' & Hh' & Hsid & Hs & Hbr)];
    [contradiction|].
  assert (k' = k) as -> by congruence.
  assert (h' = h) as -> by congruence.
  destruct Hbr as [(_ & _ & _ & Hint & _)|(Hm' & _)]; [exact Hint|congruence].
Qed.

Lemma accepted_same_month env req w a k h :
  accepted env req w ->
  payment_amount req = JNum a ->
  int_in env (historyId req) = Some k ->
  history_at w k = Some h ->
  isSameMonth (new_Date (History.changed_at h)) (js_now env) = true ->
  exists sid s,
    History.student_id h = Some sid
    /\ student_at w sid = Some s
    /\ Qle_bool a 0 = false
    /\ includes_cash_online (payment_method req) = true
    /\ Qltb (new_due req a h) 0 = false
    /\ PUT env req w =
         (ok_response
            (Updated.of_joined (same_month_db req (db w) a k h sid) k
               (History.set_payment (new_cash req a h) (new_online req a h)
                  (new_cash req a h + new_online req a h)%Q (new_due req a h) h)) req,
          mkWorld (same_month_db req (db w) a k h sid) (history_id_seq w)).
Proof.
  unfold accepted. intros Hacc Ha Hk Hh Hm.
  destruct (PUT env req w) as [r w'] eqn:E.
  destruct (PUT_cases _ _ _ _ _ E)
    as [[Hno _]|(a' & k' & h' & sid & s & Ha' & Hpos & Hmeth & Hk' & Hh' & Hsid & Hs & Hbr)];
    [contradiction|].
  assert (a' = a) as -> by congruence.
  assert (k' = k) as -> by congruence.
  assert (h' = h) as -> by congruence.
  destruct Hbr as [(Hm' & _)|(_ & Hdue & -> & ->)]; [congruence|].
  exists sid, s. repeat (split; [assumption|]). reflexivity.
Qed.

Lemma rejected_keeps_db env req w :
  status (PUT env req w).1 ≠ 200 -> db (PUT env req w).2 = db w.
Proof.
  intros Hno. destruct (PUT env req w) as [r w'] eqn:E.
  destruct (PUT_cases _ _ _ _ _ E) as [(_ & Hdb & _)|(a & k & h & sid & s & H)]; [exact Hdb|].
  destruct H as (_ & _ & _ & _ & _ & _ & _ & [(_ & _ & _ & _ & -> & _)|(_ & _ & -> & _)]);
    simpl in Hno; contradiction.
Qed.

Lemma fault_free_verdict env req w :
  fault env = None ->
  match verdict env req w with
  | Some r => (PUT env req w).1 = r
  | None => accepted env req w
  end.
Proof.
  intros Hf. unfold accepted. destruct (PUT env req w) as [r w'] eqn:E.
  destruct (PUT_cases _ _ _ _ _ E) as [(_ & _ & Hv)|(a & k & h & sid & s & H)].
  - rewrite (Hv Hf). reflexivity.
  - destruct H as (Ha & Hpos & Hmeth & Hk & Hh & Hsid & Hs & Hbr).
    unfold history_at, student_at in *.
    unfold verdict. rewrite Ha, Hpos, Hmeth, Hk, Hh, Hsid. simpl. rewrite Hs.
    destruct Hbr as [(Hm & Hdue & Hfresh & Hint & -> & _)|(Hm & Hdue & -> & _)];
      rewrite Hm, Hdue; [rewrite Hint, Hfresh|]; reflexivity.
Qed.

(** ** A failing query always surfaces *)

Lemma clean_S env n : clean env n -> fault env ≠ Some n -> clean env (S n).
Proof.
  intros Hc Hn i Hi. destruct (decide (i = n)) as [->|Hne]; [exact Hn|].
  apply Hc. lia.
Qed.

Lemma tracks_query {A} (s : Statement A) : steady s -> tracks (query s).
Proof.
  intros Hs env c Hc. rewrite run_query. case_decide; [exact I|].
  pose proof (Hs env (tick c)) as Hi.
  destruct (s env (tick c)) as [[a|] c2]; [|exact I].
  simpl in Hi. rewrite Hi. apply clean_S; assumption.
Qed.

Lemma tracks_bind {A B} (m : Handler A) (k : A -> Handler B) :
  tracks m -> (forall a, tracks (k a)) -> tracks (m ≫= k).
Proof.
  intros Hm Hk env c Hc. unfold mbind, Handler_bind.
  specialize (Hm env c Hc).
  destruct (m env c) as [[a|r|] c']; [|exact Hm|exact I].
  apply Hk, Hm.
Qed.

Lemma tracks_ret {A} (a : A) : tracks (mret a).
Proof. intros env c Hc. exact Hc. Qed.

Lemma tracks_respond {A} code b : tracks (respond (A:=A) code b).
Proof. intros env c Hc. exact Hc. Qed.

Lemma tracks_throw {A} : tracks (throw (A:=A)).
Proof. intros env c Hc. exact I. Qed.

Lemma tracks_now : tracks new_Date_now.
Proof. intros env c Hc. exact Hc. Qed.

Lemma put_view_issued d c : issued (put_view d c) = issued c.
Proof. unfold put_view. destruct (txn c); reflexivity. Qed.

Lemma steady_BEGIN : steady BEGIN.
Proof. intros env c. reflexivity. Qed.

Lemma steady_COMMIT : steady COMMIT.
Proof. intros env c. reflexivity. Qed.

Lemma steady_ROLLBACK : steady ROLLBACK.
Proof. intros env c. reflexivity. Qed.

Lemma steady_select_history p : steady (select_history p).
Proof. intros env c. unfold select_history. destruct (int_in env p); reflexivity. Qed.

Lemma steady_select_student sid : steady (select_student sid).
Proof. intros env c. reflexivity. Qed.

Lemma steady_update_history_due d p : steady (update_history_due d p).
Proof.
  intros env c. unfold update_history_due.
  destruct (int_in env p); [apply put_view_issued|reflexivity].
Qed.

Lemma steady_update_history_payment ca on pa du p :
  steady (update_history_payment ca on pa du p).
Proof.
  intros env c. unfold update_history_payment.
  destruct (int_in env p); [apply put_view_issued|reflexivity].
Qed.

Lemma steady_update_students ca on pa du sid : steady (update_students ca on pa du sid).
Proof.
  intros env c. unfold update_students.
  destruct sid; [apply put_view_issued|reflexivity].
Qed.

Lemma steady_insert_history r : steady (insert_history r).
Proof.
  intros env c. unfold insert_history.
  destruct (negb _); [reflexivity|].
  destruct (_ !! _); [reflexivity|]. cbn [snd]. rewrite put_view_issued. reflexivity.
Qed.

Lemma steady_select_joined p : steady (select_joined p).
Proof. intros env c. unfold select_joined. destruct (int_in env p); reflexivity. Qed.



Create HintDb tracking.

#[local] Hint Resolve tracks_ret tracks_respond tracks_throw tracks_now
  steady_BEGIN steady_COMMIT steady_ROLLBACK steady_select_history
  steady_select_student steady_update_history_due steady_update_history_payment
  steady_update_students steady_insert_history steady_select_joined : tracking.

Ltac track :=
  repeat first
    [ apply tracks_bind; [|intros ?]
    | apply tracks_query
    | progress auto with tracking
    | match goal with
      | |- tracks (if ?b then _ else _) => destruct b
      | |- tracks (match ?x with _ => _ end) => destruct x
      end ].

Lemma tracks_previous_month req a h s : tracks (previous_month req a h s).
Proof. unfold previous_month. track. Qed.

Lemma tracks_same_month req a h : tracks (same_month req a h).
Proof. unfold same_month. track. Qed.

Lemma tracks_put_try req : tracks (put_try req).
Proof.
  pose proof tracks_previous_month. pose proof tracks_same_month.
  unfold put_try. track.
Qed.


Lemma fault_surfaces env req w i :
  fault env = Some i ->
  (i < issued (put_try req env (connect w)).2)%nat ->
  (put_try req env (connect w)).1 = Thrown.
Proof.
  intros Hf Hi.
  pose proof (tracks_put_try req env (connect w)) as Ht.
  destruct (put_try req env (connect w)) as [[r|r|] c]; [| |reflexivity];
    exfalso; refine (Ht _ i Hi Hf); intros j Hj; simpl in Hj; lia.
Qed.

(** ** Every answer ends the transaction *)

Lemma settles_query {A} (s : Statement A) : settles (query s).
Proof.
  intros env c. rewrite run_query. case_decide; [exact I|].
  destruct (s env (tick c)) as [[a|] c2]; exact I.
Qed.

Lemma settles_ret {A} (a : A) : settles (mret a).
Proof. intros env c. exact I. Qed.

Lemma settles_throw {A} : settles (throw (A:=A)).
Proof. intros env c. exact I. Qed.

Lemma settles_now : settles new_Date_now.
Proof. intros env c. exact I. Qed.

Lemma concludes_settles {A} (m : Handler A) : concludes m -> settles m.
Proof.
  intros Hm env c. specialize (Hm env c).
  destruct (m env c) as [[a|r|] c']; [exact I|exact Hm|exact I].
Qed.

Lemma settles_bind {A B} (m : Handler A) (k : A -> Handler B) :
  settles m -> (forall a, settles (k a)) -> settles (m ≫= k).
Proof.
  intros Hm Hk env c. unfold mbind, Handler_bind.
  specialize (Hm env c).
  destruct (m env c) as [[a|r|] c']; [apply Hk|exact Hm|exact I].
Qed.

Lemma concludes_bind {A B} (m : Handler A) (k : A -> Handler B) :
  settles m -> (forall a, concludes (k a)) -> concludes (m ≫= k).
Proof.
  intros Hm Hk env c. unfold mbind, Handler_bind.
  specialize (Hm env c).
  destruct (m env c) as [[a|r|] c']; [apply Hk|exact Hm|exact I].
Qed.

Lemma concludes_throw {A} : concludes (throw (A:=A)).
Proof. intros env c. exact I. Qed.

(** [await client.query('ROLLBACK'); return res.status(..).json(..)] *)
Lemma concludes_rollback {A} code b :
  concludes (query ROLLBACK ≫= fun _ => respond (A:=A) code b).
Proof.
  intros env c. rewrite bind_query. case_decide; [exact I|]. reflexivity.
Qed.

Lemma idle_ret {A} (a : A) : idle (mret a).
Proof. intros env c. reflexivity. Qed.

Lemma idle_throw {A} : idle (throw (A:=A)).
Proof. intros env c. reflexivity. Qed.

(** [await client.query('COMMIT')] and what follows it. *)
Lemma concludes_commit {A} (k : unit -> Handler A) :
  (forall u, idle (k u)) -> concludes (query COMMIT ≫= k).
Proof.
  intros Hk env c. rewrite bind_query. case_decide; [exact I|].
  cbn [COMMIT]. specialize (Hk tt env).
  match goal with |- match k tt env ?c0 with _ => _ end =>
    specialize (Hk c0); destruct (k tt env c0) as [[a|r|] c']
  end; cbn [snd] in Hk; subst; try exact I; reflexivity.
Qed.

Create HintDb closing.

#[local] Hint Resolve settles_query settles_ret settles_throw settles_now
  concludes_throw concludes_rollback idle_ret idle_throw : closing.

Ltac close_txn :=
  repeat first
    [ progress auto with closing
    | apply concludes_rollback
    | apply concludes_settles; apply concludes_rollback
    | apply concludes_commit; intros ?
    | apply concludes_bind; [|intros ?]
    | apply settles_bind; [|intros ?]
    | match goal with
      | |- concludes (if ?b then _ else _) => destruct b
      | |- concludes (match ?x with _ => _ end) => destruct x
      | |- settles (if ?b then _ else _) => destruct b
      | |- settles (match ?x with _ => _ end) => destruct x
      | |- idle (match ?x with _ => _ end) => destruct x
      end ].

Lemma settles_previous_month req a h s : settles (previous_month req a h s).
Proof. unfold previous_month. close_txn. Qed.

Lemma settles_same_month req a h : settles (same_month req a h).
Proof. unfold same_month. close_txn. Qed.

Lemma concludes_put_try req : concludes (put_try req).
Proof.
  pose proof settles_previous_month. pose proof settles_same_month.
  unfold put_try. close_txn.
Qed.

(** ** The handler with the pool, and the handler on a fresh connection *)

Lemma PUT_request_answered env inc req w :
  connect_rejects inc = false ->
  ((put_try req env (connect w)).1 = Thrown -> catch_goes_through env inc req w) ->
  PUT_request env inc req (mkServer w None)
  = (Some (PUT env req w).1, mkServer (PUT env req w).2 None).
Proof.
  intros Hc Hcatch. unfold PUT_request, PUT, checkout, catch_goes_through in *.
  rewrite Hc. cbn [stored pooled]. fold (connect w).
  pose proof (concludes_put_try req env (connect w)) as Hend.
  destruct (put_try req env (connect w)) as [[r|r|] c]; cbn [fst snd] in *.
  - unfold checkin, release. rewrite Hend. reflexivity.
  - unfold checkin, release. rewrite Hend. reflexivity.
  - destruct (Hcatch eq_refl) as [Hr Hf]. unfold catch_ROLLBACK. rewrite Hr.
    rewrite run_query. rewrite decide_False by exact Hf. reflexivity.
Qed.

Lemma PUT_request_unanswered env inc req w :
  (PUT_request env inc req (mkServer w None)).1 = None
  <-> connect_rejects inc = true
      \/ ((put_try req env (connect w)).1 = Thrown /\ ~ catch_goes_through env inc req w).
Proof.
  unfold PUT_request, checkout, catch_goes_through. cbn [stored pooled]. fold (connect w).
  destruct (connect_rejects inc); [split; [intros _; left; reflexivity|reflexivity]|].
  destruct (put_try req env (connect w)) as [[r|r|] c]; cbn [fst snd].
  - split; [discriminate|intros [?|[? _]]; discriminate].
  - split; [discriminate|intros [?|[? _]]; discriminate].
  - unfold catch_ROLLBACK. destruct (rollback_throws inc).
    + split; [intros _|reflexivity]. right. split; [reflexivity|]. intros [? _]. discriminate.
    + rewrite run_query. case_decide as Hf.
      * split; [intros _|reflexivity]. right. split; [reflexivity|]. intros [_ ?]. contradiction.
      * split; [discriminate|]. intros [?|[_ Hno]]; [discriminate|].
        exfalso. apply Hno. split; [reflexivity|exact Hf].
Qed.

Lemma PUT_request_not_answered_state env inc req w :
  connect_rejects inc = false ->
  (PUT_request env inc req (mkServer w None)).1 = None ->
  db (stored (PUT_request env inc req (mkServer w None)).2) = db w.
Proof.
  intros Hc. unfold PUT_request, checkout. rewrite Hc. cbn [stored pooled]. fold (connect w).
  pose proof (PUT_cases env req w) as Hcases. unfold PUT in Hcases.
  destruct (put_try req env (connect w)) as [[r|r|] c]; cbn [fst snd]; try discriminate.
  specialize (Hcases _ _ eq_refl).
  destruct Hcases as [(_ & Hdb & _)|(a & k & h & sid & s & H)].
  - unfold release in Hdb. cbn [ROLLBACK snd world] in Hdb.
    unfold catch_ROLLBACK. destruct (rollback_throws inc); [intros _; exact Hdb|].
    rewrite run_query. case_decide; [intros _; exact Hdb|discriminate].
  - destruct H as (_ & _ & _ & _ & _ & _ & _ & [(_ & _ & _ & _ & Hr & _)|(_ & _ & Hr & _)]);
      discriminate Hr.
Qed.
(** ** The text of a month *)

Lemma digit_of_digit n : digit_of (digit n) = Some (n mod 10).
Proof.
  unfold digit. pose proof (Z.mod_pos_bound n 10 ltac:(lia)) as Hm.
  assert (n mod 10 = 0 \/ n mod 10 = 1 \/ n mod 10 = 2 \/ n mod 10 = 3 \/ n mod 10 = 4
          \/ n mod 10 = 5 \/ n mod 10 = 6 \/ n mod 10 = 7 \/ n mod 10 = 8 \/ n mod 10 = 9)
    as Hcases by lia.
  repeat destruct Hcases as [->|Hcases]; try reflexivity.
  rewrite Hcases. reflexivity.
Qed.

Lemma is_digit_digit n : is_digit (digit n) = true.
Proof.
  unfold is_digit. apply bool_decide_eq_true_2. rewrite digit_of_digit. eauto.
Qed.

(** For the years 0 to 9999 the text has the form dddd-dd, its first four
    characters read as the UTC year and its last two as the number of the
    UTC month. *)
Lemma toISOString_slice_0_7_reads d :
  0 <= getUTCFullYear d <= 9999 ->
  0 <= getUTCMonth d <= 11 ->
  test_YYYY_MM (toISOString_slice_0_7 d) = true
  /\ numeric_in (substring 0 4 (toISOString_slice_0_7 d)) = Some (getUTCFullYear d)
  /\ numeric_in (substring 5 2 (toISOString_slice_0_7 d)) = Some (getUTCMonth d + 1).
Proof.
  intros Hy Hm. unfold toISOString_slice_0_7.
  assert (((0 <=? getUTCFullYear d) && (getUTCFullYear d <=? 9999))%bool = true) as ->
    by (apply andb_true_intro; split; apply Z.leb_le; lia).
  generalize (getUTCFullYear d) (getUTCMonth d + 1) Hy
             (ltac:(lia) : 1 <= getUTCMonth d + 1 <= 12).
  clear. intros y m Hy Hm.
  cbv [digits String.append test_YYYY_MM substring].
  rewrite !is_digit_digit.
  split; [reflexivity|].
  unfold numeric_in. cbn [all_digits read_digits].
  rewrite !digit_of_digit.
  cbn [all_digits read_digits default id].
  rewrite !bool_decide_eq_true_2 by eauto. cbn [andb].
  split; f_equal; Z.div_mod_to_equations; lia.
Qed.
(** * Properties of the specification, by claim *)

(** C1, as the claim states it, fails: the row a previous-month payment of
    50 inserts has paid 50, due 0 and total fee 0. *)
Lemma C1_counterexample :
  accepted (env_may None) (pay "1" 50 "cash") world0
  /\ exists r,
      history_at (PUT (env_may None) (pay "1" 50 "cash") world0).2 3 = Some r
      /\ History.prev_due_paid r = Some true
      /\ ~ (parseFloat_or_0 (History.amount_paid r) + parseFloat_or_0 (History.due_amount r)
            == parseFloat_or_0 (History.total_fee r))%Q.
Proof.
  split; [vm_compute; reflexivity|].
  eexists. split; [vm_compute; reflexivity|].
  split; [reflexivity|]. vm_compute. discriminate.
Qed.

(** C1, amended: after an accepted same-month payment the updated row has
    [amount_paid + due_amount = total_fee] and the snapshot of the student
    has [amount_paid + due_amount] equal to that row's [total_fee]; after an
    accepted previous-month payment of [a] the inserted row has total fee 0,
    paid [a] and due 0, and the snapshot keeps its [amount_paid + due_amount]
    when [a] is at most the snapshot's due. *)
Theorem C1_payment_equation env req w a k h :
  accepted env req w ->
  pays env req w a k h ->
  exists sid s s',
    History.student_id h = Some sid
    /\ student_at w sid = Some s
    /\ student_at (PUT env req w).2 sid = Some s'
    /\ (same_month_of env h ->
        exists h',
          history_at (PUT env req w).2 k = Some h'
          /\ (parseFloat_or_0 (History.amount_paid h') + parseFloat_or_0 (History.due_amount h')
              == parseFloat_or_0 (History.total_fee h'))%Q
          /\ (parseFloat_or_0 (Student.amount_paid s') + parseFloat_or_0 (Student.due_amount s')
              == parseFloat_or_0 (History.total_fee h'))%Q)
    /\ (previous_month_of env h ->
        (exists r,
            history_at (PUT env req w).2 (history_id_seq w) = Some r
            /\ History.total_fee r = Some 0%Q
            /\ History.amount_paid r = Some a
            /\ History.due_amount r = Some 0%Q)
        /\ ((a <= parseFloat_or_0 (Student.due_amount s))%Q ->
            (parseFloat_or_0 (Student.amount_paid s') + parseFloat_or_0 (Student.due_amount s')
             == parseFloat_or_0 (Student.amount_paid s) + parseFloat_or_0 (Student.due_amount s))%Q)).
Proof.
  intros Hacc (Ha & Hk & Hh).
  destruct (isSameMonth (new_Date (History.changed_at h)) (js_now env)) eqn:Hm.
  - destruct (accepted_same_month _ _ _ _ _ _ Hacc Ha Hk Hh Hm)
      as (sid & s & Hsid & Hs & Hpos & Hmeth & Hdue & ->).
    exists sid, s. eexists.
    unfold student_at, history_at, previous_month_of, same_month_of in *.
    cbn [snd db same_month_db students student_membership_history].
    rewrite !lookup_alter_eq, Hs, Hh.
    split; [assumption|]. split; [reflexivity|]. split; [reflexivity|].
    split; [|congruence].
    intros _. eexists. split; [reflexivity|].
    cbn [History.set_payment Student.set_payment History.due_amount History.amount_paid
         History.total_fee Student.amount_paid Student.due_amount parseFloat_or_0].
    unfold new_due. split; ring.
  - destruct (accepted_previous_month _ _ _ _ _ _ Hacc Ha Hk Hh Hm)
      as (sid & s & Hsid & Hs & Hpos & Hmeth & Hdue & Hfresh & ->).
    exists sid, s. eexists.
    unfold student_at, history_at, previous_month_of, same_month_of in *.
    cbn [snd db previous_month_db students student_membership_history].
    rewrite lookup_alter_eq, Hs, lookup_insert_eq.
    split; [assumption|]. split; [reflexivity|]. split; [reflexivity|].
    split; [congruence|].
    intros _. split.
    + eexists. split; [reflexivity|]. repeat split.
    + intros Hle.
      cbn [Student.set_payment Student.amount_paid Student.due_amount parseFloat_or_0].
      rewrite Math_max_0_id; [ring|]. lra.
Qed.

Lemma C1_witness :
  exists h',
    history_at (PUT (env_may None) (pay "2" 30 "online") world0).2 2 = Some h'
    /\ (parseFloat_or_0 (History.amount_paid h') + parseFloat_or_0 (History.due_amount h')
        == parseFloat_or_0 (History.total_fee h'))%Q.
Proof.
  destruct (C1_payment_equation (env_may None) (pay "2" 30 "online") world0 30 2
              (history_row 7 100 0 100 0 0 may_2024))
    as (sid & s & s' & _ & _ & _ & Hsame & _).
  - vm_compute. reflexivity.
  - repeat split; vm_compute; reflexivity.
  - destruct Hsame as (h' & Hh' & Heq & _); [vm_compute; reflexivity|].
    exists h'. split; assumption.
Defined.

(** C2, as the claim states it, fails in the same-month arm: on a row with
    stored due 60 whose cash and online are 0 of a total fee of 100, a
    payment of 80 is accepted and written. *)
Lemma C2_counterexample :
  let h := history_row 7 100 40 60 0 0 may_2024 in
  let req := pay "2" 80 "cash" in
  pays (env_may None) req world_unsplit 80 2 h
  /\ same_month_of (env_may None) h
  /\ (parseFloat_or_0 (History.due_amount h) < 80)%Q
  /\ accepted (env_may None) req world_unsplit
  /\ history_at (PUT (env_may None) req world_unsplit).2 2 ≠ history_at world_unsplit 2.
Proof.
  cbv zeta. split; [repeat split; vm_compute; reflexivity|].
  split; [vm_compute; reflexivity|].
  split; [vm_compute; reflexivity|].
  split; [vm_compute; reflexivity|].
  vm_compute. discriminate.
Qed.

(** C2, amended: a request whose payment exceeds what the arm takes as
    outstanding on the targeted row, the stored [due_amount] in the
    previous-month arm and [total_fee - (cash + online)] in the same-month
    arm, changes no row, and is answered 4xx when no query fails. *)
Theorem C2_excess_rejected env req w a k h :
  pays env req w a k h ->
  (outstanding env h < a)%Q ->
  db (PUT env req w).2 = db w
  /\ (fault env = None -> client_error (PUT env req w).1).
Proof.
  intros (Ha & Hk & Hh) Hex. unfold outstanding in Hex.
  assert (verdict env req w ≠ None
          /\ forall r, verdict env req w = Some r -> fault env = None -> client_error r)
    as [Hnone Hrej].
  { unfold history_at in Hh. unfold verdict, rejection, client_error.
    rewrite Ha, Hk, Hh.
    destruct (Qle_bool a 0) eqn:Hpos; [split; [discriminate|intros ? [= <-] _; simpl; lia]|].
    destruct (includes_cash_online _) eqn:Hmeth; cbn [negb];
      [|split; [discriminate|intros ? [= <-] _; simpl; lia]].
    destruct (History.student_id h ≫= _);
      [|split; [discriminate|intros ? [= <-] _; simpl; lia]].
    destruct (isSameMonth _ _).
    - assert (Qltb (new_due req a h) 0 = true) as ->.
      { apply Qltb_true. unfold new_due. rewrite (new_sum req a h Hmeth). lra. }
      split; [discriminate|intros ? [= <-] _; simpl; lia].
    - assert (Qltb (parseFloat_or_0 (History.due_amount h) - a)%Q 0 = true) as ->.
      { apply Qltb_true. lra. }
      split; [discriminate|intros ? [= <-] _; simpl; lia]. }
  destruct (PUT env req w) as [r w'] eqn:E. cbn [fst snd].
  destruct (PUT_cases _ _ _ _ _ E) as [(_ & Hdb & Hv)|(a' & k' & h' & sid & s & H)].
  - split; [exact Hdb|]. intros Hf. apply Hrej; auto.
  - exfalso. destruct H as (Ha' & Hpos & Hmeth & Hk' & Hh' & Hsid & Hs & Hbr).
    assert (a' = a) as -> by congruence.
    assert (k' = k) as -> by congruence.
    assert (h' = h) as -> by congruence.
    destruct Hbr as [(Hm & Hdue & _)|(Hm & Hdue & _)]; rewrite Hm in Hex;
      apply Qltb_false in Hdue.
    + lra.
    + unfold new_due in Hdue. rewrite (new_sum req a h Hmeth) in Hdue. lra.
Qed.

Lemma C2_witness :
  db (PUT (env_may None) (pay "1" 130 "cash") world0).2 = db world0
  /\ client_error (PUT (env_may None) (pay "1" 130 "cash") world0).1.
Proof.
  destruct (C2_excess_rejected (env_may None) (pay "1" 130 "cash") world0 130 1
              (history_row 7 100 0 100 0 0 march_2024)) as [Hdb Hst].
  - repeat split; vm_compute; reflexivity.
  - vm_compute. reflexivity.
  - split; [exact Hdb|]. apply Hst. reflexivity.
Defined.

(** C3, as the claim states it, fails: a same-month payment of 10 on a row
    with due 60 and paid 40, whose cash and online are both 0, leaves the
    row with due 90 and paid 10. *)
Lemma C3_counterexample :
  let h := history_row 7 100 40 60 0 0 may_2024 in
  let req := pay "2" 10 "cash" in
  accepted (env_may None) req world_unsplit
  /\ pays (env_may None) req world_unsplit 10 2 h
  /\ same_month_of (env_may None) h
  /\ exists h',
      history_at (PUT (env_may None) req world_unsplit).2 2 = Some h'
      /\ ~ (parseFloat_or_0 (History.due_amount h')
            == parseFloat_or_0 (History.due_amount h) - 10)%Q
      /\ ~ (parseFloat_or_0 (History.amount_paid h')
            == parseFloat_or_0 (History.amount_paid h) + 10)%Q.
Proof.
  cbv zeta. split; [vm_compute; reflexivity|].
  split; [repeat split; vm_compute; reflexivity|].
  split; [vm_compute; reflexivity|].
  eexists. split; [vm_compute; reflexivity|].
  split; vm_compute; discriminate.
Qed.

(** C3, amended: for every accepted same-month payment of [a], [a] is
    positive, [cash] or [online] of the row goes up by [a] by the payment
    method, and the snapshot of the student gets the row's new [cash],
    [online], [amount_paid] and [due_amount]. The row's [amount_paid] goes up
    by exactly [a] when, and only when, the stored [amount_paid] is
    [cash + online]; its due goes down by exactly [a] when, and only when,
    the stored due is [total_fee - (cash + online)]. *)
Theorem C3_same_month_payment env req w a k h :
  accepted env req w ->
  pays env req w a k h ->
  same_month_of env h ->
  exists sid h' s',
    History.student_id h = Some sid
    /\ history_at (PUT env req w).2 k = Some h'
    /\ student_at (PUT env req w).2 sid = Some s'
    /\ (0 < a)%Q
    /\ (parseFloat_or_0 (History.cash h')
        == parseFloat_or_0 (History.cash h)
           + (if js_is (payment_method req) "cash" then a else 0))%Q
    /\ (parseFloat_or_0 (History.online h')
        == parseFloat_or_0 (History.online h)
           + (if js_is (payment_method req) "online" then a else 0))%Q
    /\ (js_is (payment_method req) "cash" = true /\ js_is (payment_method req) "online" = false
        \/ js_is (payment_method req) "cash" = false /\ js_is (payment_method req) "online" = true)
    /\ Student.cash s' = History.cash h'
    /\ Student.online s' = History.online h'
    /\ Student.amount_paid s' = History.amount_paid h'
    /\ Student.due_amount s' = History.due_amount h'
    /\ ((parseFloat_or_0 (History.amount_paid h')
         == parseFloat_or_0 (History.amount_paid h) + a)%Q
        <-> (parseFloat_or_0 (History.amount_paid h)
             == parseFloat_or_0 (History.cash h) + parseFloat_or_0 (History.online h))%Q)
    /\ ((parseFloat_or_0 (History.due_amount h')
         == parseFloat_or_0 (History.due_amount h) - a)%Q
        <-> (parseFloat_or_0 (History.due_amount h)
             == parseFloat_or_0 (History.total_fee h)
                - (parseFloat_or_0 (History.cash h) + parseFloat_or_0 (History.online h)))%Q).
Proof.
  intros Hacc (Ha & Hk & Hh) Hm.
  destruct (accepted_same_month _ _ _ _ _ _ Hacc Ha Hk Hh Hm)
    as (sid & s & Hsid & Hs & Hpos & Hmeth & Hdue & ->).
  exists sid. eexists. eexists.
  unfold student_at, history_at in *.
  cbn [snd db same_month_db students student_membership_history].
  rewrite !lookup_alter_eq, Hs, Hh.
  split; [assumption|]. split; [reflexivity|]. split; [reflexivity|].
  split; [apply Qle_bool_false, Hpos|].
  cbn [History.set_payment Student.set_payment History.due_amount History.amount_paid
       History.cash History.online Student.cash Student.online Student.amount_paid
       Student.due_amount parseFloat_or_0].
  pose proof (new_sum req a h Hmeth) as Hsum.
  split; [unfold new_cash; destruct (js_is _ "cash"); ring|].
  split.
  { unfold new_online.
    destruct (method_cases _ Hmeth) as [[H1 H2]|[H1 H2]]; rewrite H1, ?H2; ring. }
  split; [apply method_cases, Hmeth|].
  repeat (split; [reflexivity|]).
  unfold new_due. rewrite Hsum.
  split; split; intros E; lra.
Qed.

Lemma C3_witness :
  exists h',
    history_at (PUT (env_may None) (pay "2" 30 "online") world0).2 2 = Some h'
    /\ (parseFloat_or_0 (History.online h') == 0 + 30)%Q
    /\ (parseFloat_or_0 (History.due_amount h') == 100 - 30)%Q.
Proof.
  destruct (C3_same_month_payment (env_may None) (pay "2" 30 "online") world0 30 2
              (history_row 7 100 0 100 0 0 may_2024))
    as (sid & h' & s' & _ & Hh' & _ & _ & _ & Ho & _ & _ & _ & _ & _ & _ & Hd).
  - vm_compute. reflexivity.
  - repeat split; vm_compute; reflexivity.
  - vm_compute. reflexivity.
  - exists h'. split; [exact Hh'|]. split; [exact Ho|].
    apply Hd. vm_compute. reflexivity.
Defined.




(** C5: an accepted previous-month payment of [a] lowers [due_amount] of the
    row it targets by exactly [a] and leaves every other column of that row
    as it was. *)
Theorem C5_previous_month_row_frame env req w a k h :
  accepted env req w ->
  pays env req w a k h ->
  previous_month_of env h ->
  exists h',
    history_at (PUT env req w).2 k = Some h'
    /\ History.due_amount h' = Some (parseFloat_or_0 (History.due_amount h) - a)%Q
    /\ same_but_due h h'.
Proof.
  intros Hacc (Ha & Hk & Hh) Hm.
  destruct (accepted_previous_month _ _ _ _ _ _ Hacc Ha Hk Hh Hm)
    as (sid & s & Hsid & Hs & Hpos & Hmeth & Hdue & Hfresh & ->).
  exists (History.set_due (parseFloat_or_0 (History.due_amount h) - a)%Q h).
  split; [|split; [reflexivity|repeat split]].
  unfold history_at in *. cbn [snd db previous_month_db student_membership_history].
  rewrite lookup_insert_ne by congruence.
  rewrite lookup_alter_eq, Hh. reflexivity.
Qed.

Lemma C5_witness :
  exists h',
    history_at (PUT (env_may None) (pay "1" 50 "cash") world0).2 1 = Some h'
    /\ History.due_amount h'
       = Some (parseFloat_or_0 (History.due_amount (history_row 7 100 0 100 0 0 march_2024)) - 50)%Q
    /\ same_but_due (history_row 7 100 0 100 0 0 march_2024) h'.
Proof.
  apply (C5_previous_month_row_frame (env_may None) (pay "1" 50 "cash") world0 50 1
           (history_row 7 100 0 100 0 0 march_2024)).
  - vm_compute. reflexivity.
  - repeat split; vm_compute; reflexivity.
  - vm_compute. reflexivity.
Defined.

(** C6, as the claim states it, fails when the arms are mixed: after a
    previous-month payment of 50 and a same-month payment of 30 for the same
    student, the snapshot's paid is 30, not 80. *)
Lemma C6_counterexample :
  let reqs := [(env_may None, pay "1" 50 "cash"); (env_may None, pay "2" 30 "cash")] in
  payments_of 7 reqs world0
  /\ exists s s',
      student_at world0 7 = Some s
      /\ student_at (PUT_each reqs world0) 7 = Some s'
      /\ ~ (parseFloat_or_0 (Student.amount_paid s')
            == parseFloat_or_0 (Student.amount_paid s) + total amount_of reqs)%Q.
Proof.
  cbv zeta. split.
  - cbn [payments_of].
    split; [vm_compute; reflexivity|].
    split.
    { exists 50%Q, 1, (history_row 7 100 0 100 0 0 march_2024).
      repeat split; vm_compute; reflexivity. }
    split; [vm_compute; reflexivity|].
    split; [|exact I].
    exists 30%Q, 2, (history_row 7 100 0 100 0 0 may_2024).
    repeat split; vm_compute; reflexivity.
  - eexists. eexists. split; [vm_compute; reflexivity|].
    split; [vm_compute; reflexivity|]. vm_compute. discriminate.
Qed.

Lemma payment_adds_up env req w sid s a k h :
  accepted env req w ->
  pays env req w a k h ->
  History.student_id h = Some sid ->
  student_at w sid = Some s ->
  (same_month_of env h -> snapshot_mirrors h s) ->
  exists s1,
    student_at (PUT env req w).2 sid = Some s1
    /\ (parseFloat_or_0 (Student.amount_paid s1)
        == parseFloat_or_0 (Student.amount_paid s) + amount_of req)%Q
    /\ (parseFloat_or_0 (Student.cash s1)
        == parseFloat_or_0 (Student.cash s) + cash_of req)%Q
    /\ (parseFloat_or_0 (Student.online s1)
        == parseFloat_or_0 (Student.online s) + online_of req)%Q.
Proof.
  intros Hacc (Ha & Hk & Hh) Hsid Hs Hmir.
  unfold cash_of, online_of, amount_of. rewrite Ha.
  unfold same_month_of in Hmir.
  destruct (isSameMonth (new_Date (History.changed_at h)) (js_now env)) eqn:Hm.
  - destruct (accepted_same_month _ _ _ _ _ _ Hacc Ha Hk Hh Hm)
      as (sid' & s0 & Hsid' & Hs0 & Hpos & Hmeth & Hdue & ->).
    assert (sid' = sid) as -> by congruence.
    assert (s0 = s) as -> by (unfold student_at in *; congruence).
    destruct (Hmir eq_refl) as (Hc & Ho & Hp).
    eexists. unfold student_at in *.
    cbn [snd db same_month_db students]. rewrite lookup_alter_eq, Hs.
    split; [reflexivity|].
    cbn [Student.set_payment Student.amount_paid Student.cash Student.online parseFloat_or_0].
    split; [rewrite (new_sum req a h Hmeth), Hp, Hc, Ho; ring|].
    unfold new_cash, new_online.
    destruct (method_cases _ Hmeth) as [[H1 H2]|[H1 H2]]; rewrite H1, ?H2;
      rewrite ?Hc, ?Ho; split; ring.
  - destruct (accepted_previous_month _ _ _ _ _ _ Hacc Ha Hk Hh Hm)
      as (sid' & s0 & Hsid' & Hs0 & Hpos & Hmeth & Hdue & Hfresh & ->).
    assert (sid' = sid) as -> by congruence.
    assert (s0 = s) as -> by (unfold student_at in *; congruence).
    eexists. unfold student_at in *.
    cbn [snd db previous_month_db students]. rewrite lookup_alter_eq, Hs.
    split; [reflexivity|].
    cbn [Student.set_payment Student.amount_paid Student.cash Student.online parseFloat_or_0].
    unfold inc_cash, inc_online. repeat split; reflexivity.
Qed.

(** C6, amended: for a sequence of accepted payments against history rows of
    one student in which every same-month payment finds the snapshot with the
    targeted row's cash and online and with paid = cash + online (nothing
    is asked of the previous-month payments), the snapshot's paid ends as its
    initial value plus the sum of the amounts, and its cash and online as
    their initial values plus the sums by method. *)
Theorem C6_snapshot_totals sid reqs : forall w s,
  student_at w sid = Some s ->
  payments_of sid reqs w ->
  mirrored sid reqs w ->
  exists s',
    student_at (PUT_each reqs w) sid = Some s'
    /\ (parseFloat_or_0 (Student.amount_paid s')
        == parseFloat_or_0 (Student.amount_paid s) + total amount_of reqs)%Q
    /\ (parseFloat_or_0 (Student.cash s')
        == parseFloat_or_0 (Student.cash s) + total cash_of reqs)%Q
    /\ (parseFloat_or_0 (Student.online s')
        == parseFloat_or_0 (Student.online s) + total online_of reqs)%Q.
Proof.
  induction reqs as [|[env req] rest IH]; intros w s Hs Hpay Hmir.
  - exists s. cbn [PUT_each total]. split; [exact Hs|]. repeat split; ring.
  - cbn [payments_of mirrored PUT_each total] in *.
    destruct Hpay as (Hacc & (a & k & h & Hp & Hsid) & Hrest).
    destruct Hmir as (Hm & Hmrest).
    destruct (payment_adds_up env req w sid s a k h Hacc Hp Hsid Hs) as (s1 & Hs1 & Ep & Ec & Eo).
    { intros Hsame. exact (Hm a k h s Hp Hsame Hs). }
    destruct (IH _ s1 Hs1 Hrest Hmrest) as (s' & Hs' & Ep' & Ec' & Eo').
    exists s'. split; [exact Hs'|].
    rewrite Ep', Ec', Eo', Ep, Ec, Eo. repeat split; ring.
Qed.

Lemma C6_witness :
  let reqs := [(env_may None, pay "2" 30 "cash"); (env_may None, pay "1" 50 "online")] in
  exists s',
    student_at (PUT_each reqs world0) 7 = Some s'
    /\ (parseFloat_or_0 (Student.amount_paid s') == 80)%Q
    /\ (parseFloat_or_0 (Student.cash s') == 30)%Q
    /\ (parseFloat_or_0 (Student.online s') == 50)%Q.
Proof.
  cbv zeta.
  destruct (C6_snapshot_totals 7
              [(env_may None, pay "2" 30 "cash"); (env_may None, pay "1" 50 "online")]
              world0 (student_row 100 0 100 0 0))
    as (s' & Hs' & Hp & Hc & Ho).
  - vm_compute. reflexivity.
  - cbn [payments_of].
    split; [vm_compute; reflexivity|].
    split.
    { exists 30%Q, 2, (history_row 7 100 0 100 0 0 may_2024).
      repeat split; vm_compute; reflexivity. }
    split; [vm_compute; reflexivity|].
    split; [|exact I].
    exists 50%Q, 1, (history_row 7 100 0 100 0 0 march_2024).
    repeat split; vm_compute; reflexivity.
  - cbn [mirrored]. split; [|split; [|exact I]].
    + intros a k h s (Ha & Hk & Hh) Hsame Hs.
      vm_compute in Hk. injection Hk as <-.
      vm_compute in Hh. injection Hh as <-.
      vm_compute in Hs. injection Hs as <-.
      repeat split; vm_compute; reflexivity.
    + intros a k h s (Ha & Hk & Hh) Hsame Hs.
      vm_compute in Hk. injection Hk as <-.
      vm_compute in Hh. injection Hh as <-.
      vm_compute in Hsame. discriminate.
  - exists s'. split; [exact Hs'|].
    rewrite Hp, Hc, Ho. repeat split; vm_compute; reflexivity.
Defined.







(** C9: an accepted payment leaves the snapshot of the student with a
    [due_amount] that is not negative: in the previous-month arm it is the
    greater of (stored due - payment) and 0, in the same-month arm it is the
    new due of the row, which the guard found not negative. *)
Theorem C9_snapshot_due_not_negative env req w a k h :
  accepted env req w ->
  pays env req w a k h ->
  exists sid s s' d,
    History.student_id h = Some sid
    /\ student_at w sid = Some s
    /\ student_at (PUT env req w).2 sid = Some s'
    /\ Student.due_amount s' = Some d
    /\ (0 <= d)%Q
    /\ (previous_month_of env h ->
        d = Math_max (parseFloat_or_0 (Student.due_amount s) - a)%Q 0%Q
        /\ (parseFloat_or_0 (Student.due_amount s) - a <= d)%Q
        /\ (d = (parseFloat_or_0 (Student.due_amount s) - a)%Q \/ d = 0%Q))
    /\ (same_month_of env h ->
        exists h', history_at (PUT env req w).2 k = Some h'
                   /\ History.due_amount h' = Some d).
Proof.
  intros Hacc (Ha & Hk & Hh).
  destruct (isSameMonth (new_Date (History.changed_at h)) (js_now env)) eqn:Hm.
  - destruct (accepted_same_month _ _ _ _ _ _ Hacc Ha Hk Hh Hm)
      as (sid & s & Hsid & Hs & Hpos & Hmeth & Hdue & ->).
    exists sid, s, (Student.set_payment (new_cash req a h) (new_online req a h)
                      (new_cash req a h + new_online req a h)%Q (new_due req a h) s),
           (new_due req a h).
    unfold student_at, history_at, previous_month_of, same_month_of in *.
    cbn [snd db same_month_db students student_membership_history].
    rewrite !lookup_alter_eq, Hs, Hh.
    repeat (split; [reflexivity || assumption|]).
    split; [apply Qltb_false, Hdue|].
    split; [congruence|].
    intros _. eexists. split; reflexivity.
  - destruct (accepted_previous_month _ _ _ _ _ _ Hacc Ha Hk Hh Hm)
      as (sid & s & Hsid & Hs & Hpos & Hmeth & Hdue & Hfresh & ->).
    exists sid, s.
    eexists. exists (Math_max (parseFloat_or_0 (Student.due_amount s) - a)%Q 0%Q).
    unfold student_at, history_at, previous_month_of, same_month_of in *.
    cbn [snd db previous_month_db students student_membership_history].
    rewrite lookup_alter_eq, Hs.
    repeat (split; [reflexivity || assumption|]).
    split; [apply Math_max_0_nonneg|].
    split; [|congruence].
    intros _. split; [reflexivity|]. split; [apply Math_max_0_ge|apply Math_max_0_cases].
Qed.

Lemma C9_witness :
  exists sid s',
    student_at (PUT (env_may None) (pay "1" 50 "cash") world0).2 sid = Some s'
    /\ exists d, Student.due_amount s' = Some d /\ (0 <= d)%Q.
Proof.
  destruct (C9_snapshot_due_not_negative (env_may None) (pay "1" 50 "cash") world0 50 1
              (history_row 7 100 0 100 0 0 march_2024))
    as (sid & s & s' & d & _ & _ & Hs' & Hd & Hnn & _).
  - vm_compute. reflexivity.
  - repeat split; vm_compute; reflexivity.
  - exists sid, s'. split; [exact Hs'|]. exists d. split; assumption.
Defined.

(** C10, as the claim states it, fails: no history row has the id [abc],
    nor the id 2147483648, and the answers are 400 and 500, not 404. *)
Lemma C10_counterexample :
  status (DELETE (env_may None) "abc" world0).1 = 400
  /\ parseInt "2147483648" = Some 2147483648
  /\ history_at world0 2147483648 = None
  /\ status (DELETE (env_may None) "2147483648" world0).1 = 500.
Proof.
  repeat split; vm_compute; reflexivity.
Qed.

(** C10, amended: DELETE changes nothing but the targeted history row. The
    table [students] (so every snapshot), the other tables and the sequence
    stay as they are; answered 200, exactly the row with the parsed id is
    gone and every other history row is as before; answered anything else,
    the world is unchanged. When no query fails, an id that starts with no
    integer is answered 400, an integer that is no value of the id column is
    answered 500, a value of the column that no row has is answered 404 and
    one that a row has is answered 200. *)
Theorem C10_delete_frame env p w :
  let r := (DELETE env p w).1 in
  let w' := (DELETE env p w).2 in
  students (db w') = students (db w)
  /\ schedules (db w') = schedules (db w)
  /\ branches (db w') = branches (db w)
  /\ history_id_seq w' = history_id_seq w
  /\ (status r = 200 ->
      exists k, parseInt p = Some k
                /\ int4 k = true
                /\ is_Some (history_at w k)
                /\ history_at w' k = None
                /\ forall j, j ≠ k -> history_at w' j = history_at w j)
  /\ (status r ≠ 200 -> w' = w)
  /\ (fault env = None ->
      (parseInt p = None -> status r = 400)
      /\ forall k, parseInt p = Some k ->
                   (int4 k = false -> status r = 500)
                   /\ (int4 k = true -> history_at w k = None -> status r = 404)
                   /\ (int4 k = true -> is_Some (history_at w k) -> status r = 200)).
Proof.
  cbv zeta. unfold DELETE, delete_try, history_at.
  destruct (parseInt p) as [k|] eqn:Hp.
  2:{ simpl. repeat split; intros; simplify_eq; first [done|congruence]. }
  rewrite bind_query. case_decide as Hf0.
  { simpl. repeat split; intros; simplify_eq; first [done|congruence]. }
  unfold select_history_id.
  destruct (int4 k) eqn:Hint.
  2:{ simpl. repeat split; intros; simplify_eq; first [done|congruence]. }
  cbn [tick connect view world txn issued default id db].
  destruct (student_membership_history (db w) !! k) as [h|] eqn:Hh;
    cbn [fmap option_fmap option_map].
  2:{ simpl. repeat split; intros; simplify_eq; try first [done|congruence].
      match goal with H : is_Some _ |- _ => rewrite Hh in H; destruct H; discriminate end. }
  rewrite bind_query. case_decide as Hf1.
  { simpl. repeat split; intros; simplify_eq; first [done|congruence]. }
  unfold delete_history. rewrite Hint.
  cbn [tick connect view world txn issued default id db put_view mret Handler_ret
       release fst snd status with_history students schedules branches
       student_membership_history history_id_seq].
  repeat split; intros; simplify_eq; try first [done|congruence].
  exists k. split; [reflexivity|]. split; [exact Hint|]. split; [eauto|].
  split; [apply lookup_delete_eq|]. intros j Hj. apply lookup_delete_ne. congruence.
Qed.

Lemma C10_witness :
  status (DELETE (env_may None) (nbsp "2") world0).1 = 200
  /\ history_at (DELETE (env_may None) (nbsp "2") world0).2 2 = None
  /\ student_at (DELETE (env_may None) (nbsp "2") world0).2 7 = student_at world0 7
  /\ status (DELETE (env_may None) "9" world0).1 = 404.
Proof.
  pose proof (C10_delete_frame (env_may None) (nbsp "2") world0)
    as (Hs & _ & _ & _ & Hdel & _ & Hok).
  pose proof (C10_delete_frame (env_may None) "9" world0) as (_ & _ & _ & _ & _ & _ & Hno).
  cbv zeta in *.
  assert (status (DELETE (env_may None) (nbsp "2") world0).1 = 200) as H200.
  { apply (proj2 (Hok eq_refl) 2); [reflexivity|reflexivity|]. vm_compute. eauto. }
  split; [exact H200|].
  destruct (Hdel H200) as (k & Hk & _ & _ & Hgone & _).
  assert (k = 2) as -> by (vm_compute in Hk; congruence).
  split; [exact Hgone|].
  split; [unfold student_at; rewrite Hs; reflexivity|].
  apply (proj2 (Hno eq_refl) 9); [reflexivity|reflexivity|]. vm_compute. reflexivity.
Defined.

(** * Further properties of the handlers *)

(** ** PUT: what it leaves alone, when it accepts, what it answers *)

(** X1: a PUT changes no history row other than the targeted one and the one
    it inserts (under the next id of the sequence), no snapshot other than
    that of the student of the targeted row, and nothing of [schedules] and
    [branches]; it removes no row of either table and adds no student. *)
Theorem X1_put_frame env req w :
  let w' := (PUT env req w).2 in
  schedules (db w') = schedules (db w)
  /\ branches (db w') = branches (db w)
  /\ (forall j, history_at w' j ≠ history_at w j ->
                int_in env (historyId req) = Some j \/ j = history_id_seq w)
  /\ (forall j, student_at w' j ≠ student_at w j ->
                exists k h, int_in env (historyId req) = Some k
                            /\ history_at w k = Some h
                            /\ History.student_id h = Some j)
  /\ (forall j, is_Some (history_at w j) -> is_Some (history_at w' j))
  /\ (forall j, is_Some (student_at w' j) <-> is_Some (student_at w j)).
Proof.
  cbv zeta. destruct (PUT env req w) as [r w'] eqn:E. cbn [snd].
  unfold history_at, student_at.
  destruct (PUT_cases _ _ _ _ _ E)
    as [(_ & -> & _)|(a & k & h & sid & s & Ha & Hpos & Hmeth & Hk & Hh & Hsid & Hs & Hbr)].
  { repeat split; try done. }
  unfold history_at, student_at in *.
  destruct Hbr as [(Hm & Hdue & Hfresh & _ & _ & ->)|(Hm & Hdue & _ & ->)];
    cbn [db previous_month_db same_month_db students student_membership_history
         schedules branches].
  - split; [reflexivity|]. split; [reflexivity|].
    split; [|split; [|split; [|split]]].
    + intros j Hj. destruct (decide (j = history_id_seq w)) as [->|Hn]; [by right|].
      destruct (decide (j = k)) as [->|Hjk]; [by left|].
      rewrite lookup_insert_ne, lookup_alter_ne in Hj by done. done.
    + intros j Hj. destruct (decide (j = sid)) as [->|Hjs]; [by exists k, h|].
      rewrite lookup_alter_ne in Hj by done. done.
    + intros j Hj. destruct (decide (j = history_id_seq w)) as [->|Hn].
      { rewrite lookup_insert_eq. eauto. }
      rewrite lookup_insert_ne by done. by apply lookup_alter_is_Some.
    + apply lookup_alter_is_Some.
    + intros Hj. by apply lookup_alter_is_Some.
  - split; [reflexivity|]. split; [reflexivity|].
    split; [|split; [|split; [|split]]].
    + intros j Hj. destruct (decide (j = k)) as [->|Hjk]; [by left|].
      rewrite lookup_alter_ne in Hj by done. done.
    + intros j Hj. destruct (decide (j = sid)) as [->|Hjs]; [by exists k, h|].
      rewrite lookup_alter_ne in Hj by done. done.
    + intros j Hj. by apply lookup_alter_is_Some.
    + apply lookup_alter_is_Some.
    + intros Hj. by apply lookup_alter_is_Some.
Qed.

Lemma X1_witness :
  history_at (PUT (env_may None) (pay "2" 30 "cash") world0).2 2 ≠ history_at world0 2
  /\ (int_in (env_may None) (historyId (pay "2" 30 "cash")) = Some 2
      \/ 2 = history_id_seq world0).
Proof.
  assert (history_at (PUT (env_may None) (pay "2" 30 "cash") world0).2 2
          ≠ history_at world0 2) as Hne by (vm_compute; discriminate).
  split; [exact Hne|].
  destruct (X1_put_frame (env_may None) (pay "2" 30 "cash") world0) as (_ & _ & Hrow & _).
  exact (Hrow 2 Hne).
Defined.

(** X2: for whole amounts, and when no query fails, a PUT is answered 200
    exactly when the amount is a positive number, the method is ['cash'] or
    ['online'], the id denotes a history row whose student exists, the amount
    is at most what the arm takes as outstanding on that row (its
    [due_amount] in the previous-month arm, [total_fee - (cash + online)] in
    the same-month arm) and, in the previous-month arm, the next id of the
    sequence is a value of the id column that no row has. The amounts are
    taken whole because the handler compares doubles: on whole amounts its
    sums are exact, as they are here. *)
Theorem X2_put_accepted_iff env req w :
  fault env = None ->
  whole_amounts req w ->
  (accepted env req w <->
   exists a k h sid,
     pays env req w a k h
     /\ (0 < a)%Q
     /\ includes_cash_online (payment_method req) = true
     /\ History.student_id h = Some sid
     /\ is_Some (student_at w sid)
     /\ (a <= outstanding env h)%Q
     /\ (previous_month_of env h ->
         int4 (history_id_seq w) = true /\ history_at w (history_id_seq w) = None)).
Proof.
  intros Hf _. split.
  - intros Hacc. unfold accepted in Hacc.
    destruct (PUT env req w) as [r w'] eqn:E. cbn [fst] in Hacc.
    destruct (PUT_cases _ _ _ _ _ E)
      as [(Hno & _)|(a & k & h & sid & s & Ha & Hpos & Hmeth & Hk & Hh & Hsid & Hs & Hbr)];
      [contradiction|].
    exists a, k, h, sid. split; [by repeat split|].
    split; [by apply Qle_bool_false|]. split; [done|]. split; [done|].
    split; [by eexists|]. unfold outstanding, previous_month_of.
    destruct Hbr as [(Hm & Hdue & Hfresh & Hint & _)|(Hm & Hdue & _)]; rewrite Hm;
      apply Qltb_false in Hdue.
    + split; [lra|done].
    + split; [|done]. unfold new_due in Hdue. rewrite (new_sum req a h Hmeth) in Hdue. lra.
  - intros (a & k & h & sid & (Ha & Hk & Hh) & Hpos & Hmeth & Hsid & [s Hs] & Hout & Hfresh).
    pose proof (fault_free_verdict env req w Hf) as Hv.
    assert (verdict env req w = None) as Hnone; [|by rewrite Hnone in Hv].
    unfold verdict, history_at, student_at, outstanding, previous_month_of in *.
    apply Qle_bool_false in Hpos.
    rewrite Ha, Hpos, Hmeth, Hk, Hh, Hsid. cbn [negb mbind option_bind]. rewrite Hs.
    destruct (isSameMonth _ _).
    + assert (Qltb (new_due req a h) 0 = false) as ->; [|done].
      apply Qltb_false. unfold new_due. rewrite (new_sum req a h Hmeth). lra.
    + assert (Qltb (parseFloat_or_0 (History.due_amount h) - a) 0 = false) as ->.
      { apply Qltb_false. lra. }
      destruct (Hfresh eq_refl) as [-> ->]. reflexivity.
Qed.

Lemma whole_Z (n : Z) : - 2 ^ 50 <= n <= 2 ^ 50 -> whole (inject_Z n).
Proof. intros Hn. exists n. split; [reflexivity|exact Hn]. Qed.

Lemma world0_whole a : whole a -> forall id m, whole_amounts (pay id a m) world0.
Proof.
  intros Ha id m. split; [intros a' [= <-]; exact Ha|].
  intros k h Hh. unfold history_at, world0 in Hh. cbn [db student_membership_history] in Hh.
  apply lookup_insert_Some in Hh as [[_ <-]|[_ Hh]];
    [|apply lookup_insert_Some in Hh as [[_ <-]|[_ Hh]]; [|by rewrite lookup_empty in Hh]];
    cbn [history_row History.total_fee History.cash History.online History.due_amount
         parseFloat_or_0];
    repeat split; first [apply (whole_Z 100)|apply (whole_Z 0)]; lia.
Defined.

Lemma X2_witness : accepted (env_may None) (pay "2" 100 "cash") world0.
Proof.
  apply (X2_put_accepted_iff (env_may None) (pay "2" 100 "cash") world0); [reflexivity| |].
  { apply world0_whole. apply (whole_Z 100). lia. }
  exists 100%Q, 2, (history_row 7 100 0 100 0 0 may_2024), 7.
  split; [repeat split; vm_compute; reflexivity|].
  split; [reflexivity|]. split; [reflexivity|]. split; [reflexivity|].
  split; [vm_compute; eauto|]. split; [vm_compute; discriminate|].
  vm_compute. discriminate.
Defined.

(** X3: the response of an accepted same-month payment shows the targeted
    row as it is stored after the update: its id, student, name and branch,
    its total fee, cash, online, paid, due and security money read as
    numbers, the title of its shift and the name of its branch (an empty
    text as null), its remark and its [changed_at]. *)
Theorem X3_same_month_response env req w a k h :
  accepted env req w ->
  pays env req w a k h ->
  same_month_of env h ->
  exists h' c,
    history_at (PUT env req w).2 k = Some h'
    /\ body (PUT env req w).1 = PaymentUpdated "Payment updated successfully" c
    /\ Collection.historyId c
       = match k with 0 => JStr (historyId req) | _ => JNum (inject_Z k) end
    /\ Collection.studentId c = History.student_id h'
    /\ Collection.name c = History.name h'
    /\ Collection.totalFee c = parseFloat_or_0 (History.total_fee h')
    /\ Collection.amountPaid c = parseFloat_or_0 (History.amount_paid h')
    /\ Collection.dueAmount c = parseFloat_or_0 (History.due_amount h')
    /\ Collection.cash c = parseFloat_or_0 (History.cash h')
    /\ Collection.online c = parseFloat_or_0 (History.online h')
    /\ Collection.securityMoney c = parseFloat_or_0 (History.security_money h')
    /\ Collection.remark c = default ""%string (truthy_str (History.remark h'))
    /\ Collection.createdAt c = History.changed_at h'
    /\ Collection.branchId c = History.branch_id h'
    /\ Collection.shiftTitle c
       = truthy_str (History.shift_id h' ≫= fun i => mjoin (schedules (db w) !! i))
    /\ Collection.branchName c
       = truthy_str (History.branch_id h' ≫= fun i => mjoin (branches (db w) !! i)).
Proof.
  intros Hacc (Ha & Hk & Hh) Hm.
  destruct (accepted_same_month _ _ _ _ _ _ Hacc Ha Hk Hh Hm)
    as (sid & s & Hsid & Hs & Hpos & Hmeth & Hdue & ->).
  eexists. eexists. unfold history_at in *.
  cbn [fst snd db same_month_db student_membership_history body ok_response].
  rewrite lookup_alter_eq, Hh.
  split; [reflexivity|]. split; [reflexivity|].
  unfold collection_of, Updated.of_joined.
  cbn [Collection.historyId Collection.studentId Collection.name Collection.totalFee
       Collection.amountPaid Collection.dueAmount Collection.cash Collection.online
       Collection.securityMoney Collection.remark Collection.createdAt Collection.branchId
       Collection.shiftTitle Collection.branchName
       Updated.history_id Updated.id Updated.student_id Updated.name Updated.shift_title
       Updated.total_fee Updated.amount_paid Updated.due_amount Updated.cash Updated.online
       Updated.security_money Updated.remark Updated.created_at Updated.changed_at
       Updated.branch_id Updated.branch_name].
  split; [destruct k; reflexivity|].
  repeat split.
  cbn [History.set_payment History.changed_at].
  destruct (History.changed_at h); reflexivity.
Qed.

Lemma X3_witness :
  exists c,
    body (PUT (env_may None) (pay "2" 30 "online") world0).1
    = PaymentUpdated "Payment updated successfully" c
    /\ Collection.dueAmount c = (100 - (0 + (0 + 30)))%Q
    /\ Collection.shiftTitle c = Some "Morning"%string.
Proof.
  destruct (X3_same_month_response (env_may None) (pay "2" 30 "online") world0 30 2
              (history_row 7 100 0 100 0 0 may_2024))
    as (h' & c & Hh' & Hb & _ & _ & _ & _ & _ & Hd & _ & _ & _ & _ & _ & _ & Hs & _).
  - vm_compute. reflexivity.
  - repeat split; vm_compute; reflexivity.
  - vm_compute. reflexivity.
  - exists c. split; [exact Hb|].
    vm_compute in Hh'. injection Hh' as <-.
    split; [exact Hd|exact Hs].
Defined.

Lemma same_but_due_refl h : same_but_due h h.
Proof. repeat split. Qed.

Lemma same_but_due_set d h : same_but_due h (History.set_due d h).
Proof. repeat split. Qed.

Lemma same_but_due_trans h1 h2 h3 :
  same_but_due h1 h2 -> same_but_due h2 h3 -> same_but_due h1 h3.
Proof.
  unfold same_but_due. intros H12 H23.
  repeat match goal with
         | H : _ /\ _ |- _ => destruct H
         end.
  repeat split; etransitivity; eassumption.
Qed.

(** X4: accepted previous-month payments on one row add up: after any
    number of them the row's due is its first due minus the sum of the
    amounts, every other column of the row is as at first, and once a payment
    was made the due is not negative (so the sum never exceeds the first due). *)
Theorem X4_instalments k reqs : forall w h,
  history_at w k = Some h ->
  instalments k reqs w ->
  exists h',
    history_at (PUT_each reqs w) k = Some h'
    /\ (parseFloat_or_0 (History.due_amount h')
        == parseFloat_or_0 (History.due_amount h) - total amount_of reqs)%Q
    /\ same_but_due h h'
    /\ (reqs ≠ [] -> (0 <= parseFloat_or_0 (History.due_amount h'))%Q).
Proof.
  induction reqs as [|[env req] rest IH]; intros w h Hh Hin.
  - exists h. cbn [PUT_each total]. split; [done|]. split; [ring|].
    split; [apply same_but_due_refl|done].
  - cbn [instalments PUT_each total] in *.
    destruct Hin as (Hacc & (a & h0 & (Ha & Hk & Hh0) & Hm) & Hrest).
    assert (h0 = h) as -> by congruence.
    destruct (accepted_previous_month _ _ _ _ _ _ Hacc Ha Hk Hh Hm)
      as (sid & s & Hsid & Hs & Hpos & Hmeth & Hdue & Hfresh & HE).
    set (h1 := History.set_due (parseFloat_or_0 (History.due_amount h) - a)%Q h).
    assert (history_at (PUT env req w).2 k = Some h1) as Hh1.
    { rewrite HE. unfold history_at in *.
      cbn [snd db previous_month_db student_membership_history].
      rewrite lookup_insert_ne by congruence. by rewrite lookup_alter_eq, Hh. }
    destruct (IH _ h1 Hh1 Hrest) as (h' & Hh' & Hd & Hsame & Hnn).
    exists h'. split; [exact Hh'|].
    assert (amount_of req = a) as -> by (unfold amount_of; by rewrite Ha).
    split; [rewrite Hd; subst h1; cbn [History.set_due History.due_amount parseFloat_or_0]; ring|].
    split; [eapply same_but_due_trans; [apply same_but_due_set|exact Hsame]|].
    intros _. destruct rest as [|x rest'].
    + cbn [PUT_each] in Hh'. rewrite Hh1 in Hh'. injection Hh' as <-.
      subst h1. cbn [History.set_due History.due_amount parseFloat_or_0].
      by apply Qltb_false.
    + by apply Hnn.
Qed.

Lemma X4_witness :
  exists h',
    history_at (PUT_each [(env_may None, pay "1" 50 "cash"); (env_may None, pay "1" 20 "online")]
                         world0) 1 = Some h'
    /\ (parseFloat_or_0 (History.due_amount h') == 30)%Q.
Proof.
  destruct (X4_instalments 1
              [(env_may None, pay "1" 50 "cash"); (env_may None, pay "1" 20 "online")]
              world0 (history_row 7 100 0 100 0 0 march_2024))
    as (h' & Hh' & Hd & _).
  - vm_compute. reflexivity.
  - cbn [instalments].
    split; [vm_compute; reflexivity|].
    split.
    { exists 50%Q, (history_row 7 100 0 100 0 0 march_2024).
      repeat split; vm_compute; reflexivity. }
    split; [vm_compute; reflexivity|].
    split; [|exact I].
    exists 20%Q, (history_row 7 100 0 50 0 0 march_2024).
    repeat split; vm_compute; reflexivity.
  - exists h'. split; [exact Hh'|]. rewrite Hd. vm_compute. reflexivity.
Defined.

(** X5: a previous-month row whose due was paid in full takes no further
    payment: when no query fails, every later PUT on that row, while it is
    still a row of a previous month, is answered 400 and changes nothing. *)
Theorem X5_settled_row_rejects env req w a k h env2 req2 :
  accepted env req w ->
  pays env req w a k h ->
  previous_month_of env h ->
  (a == parseFloat_or_0 (History.due_amount h))%Q ->
  fault env2 = None ->
  int_in env2 (historyId req2) = Some k ->
  previous_month_of env2 h ->
  status (PUT env2 req2 (PUT env req w).2).1 = 400
  /\ db (PUT env2 req2 (PUT env req w).2).2 = db (PUT env req w).2.
Proof.
  intros Hacc (Ha & Hk & Hh) Hm Hfull Hf2 Hk2 Hm2.
  destruct (accepted_previous_month _ _ _ _ _ _ Hacc Ha Hk Hh Hm)
    as (sid & s & Hsid & Hs & Hpos & Hmeth & Hdue & Hfresh & HE).
  rewrite HE. cbn [snd].
  set (w1 := mkWorld _ _).
  assert (exists m, verdict env2 req2 w1 = rejection 400 m) as [m Hv].
  { unfold verdict, previous_month_of, history_at, student_at in *.
    destruct (payment_amount req2) as [| |b|a2|str|]; eauto.
    destruct (Qle_bool a2 0) eqn:Hpos2; eauto.
    destruct (includes_cash_online (payment_method req2)); cbn [negb]; eauto.
    rewrite Hk2. subst w1.
    cbn [db previous_month_db student_membership_history students].
    rewrite lookup_insert_ne by congruence.
    rewrite lookup_alter_eq, Hh.
    cbn [fmap option_fmap option_map History.set_due History.student_id History.changed_at
         History.due_amount parseFloat_or_0].
    rewrite Hsid. cbn [mbind option_bind]. rewrite lookup_alter_eq, Hs.
    cbn [fmap option_fmap option_map]. rewrite Hm2.
    assert (Qltb (parseFloat_or_0 (History.due_amount h) - a - a2) 0 = true) as ->; eauto.
    apply Qltb_true. apply Qle_bool_false in Hpos2. lra. }
  pose proof (fault_free_verdict env2 req2 w1 Hf2) as Hr. rewrite Hv in Hr.
  unfold rejection in Hr. split; [by rewrite Hr|].
  apply rejected_keeps_db. by rewrite Hr.
Qed.

Lemma X5_witness :
  status (PUT (env_may None) (pay "1" 1 "cash")
              (PUT (env_may None) (pay "1" 100 "cash") world0).2).1 = 400.
Proof.
  apply (X5_settled_row_rejects (env_may None) (pay "1" 100 "cash") world0 100 1
           (history_row 7 100 0 100 0 0 march_2024) (env_may None) (pay "1" 1 "cash")).
  - vm_compute. reflexivity.
  - repeat split; vm_compute; reflexivity.
  - vm_compute. reflexivity.
  - vm_compute. reflexivity.
  - reflexivity.
  - vm_compute. reflexivity.
  - vm_compute. reflexivity.
Defined.

Lemma DELETE_200 env p w :
  status (DELETE env p w).1 = 200 ->
  exists k,
    parseInt p = Some k
    /\ (DELETE env p w).2
       = mkWorld (with_history (delete k (student_membership_history (db w))) (db w))
                 (history_id_seq w)
    /\ int4 k = true.
Proof.
  unfold DELETE, delete_try.
  destruct (parseInt p) as [k|]; [|simpl; discriminate].
  rewrite bind_query. case_decide; [simpl; discriminate|].
  unfold select_history_id.
  destruct (int4 k) eqn:Hint; [|simpl; discriminate].
  cbn [tick connect view world txn issued default id db].
  destruct (student_membership_history (db w) !! k);
    cbn [fmap option_fmap option_map]; [|simpl; discriminate].
  rewrite bind_query. case_decide; [simpl; discriminate|].
  unfold delete_history. rewrite Hint.
  intros _. exists k. split; [reflexivity|]. split; [reflexivity|exact Hint].
Qed.

(** X6: a deleted row is gone for PUT: after a DELETE answered 200, a valid
    PUT whose id denotes the deleted row is answered 404 with a message and
    changes nothing, when no query fails. *)
Theorem X6_put_after_delete env p w env2 req k :
  status (DELETE env p w).1 = 200 ->
  parseInt p = Some k ->
  fault env2 = None ->
  int_in env2 (historyId req) = Some k ->
  positive_number (payment_amount req) = true ->
  includes_cash_online (payment_method req) = true ->
  (PUT env2 req (DELETE env p w).2).1
  = mkResponse 404 (Message "History record not found")
  /\ db (PUT env2 req (DELETE env p w).2).2 = db (DELETE env p w).2.
Proof.
  intros Hd Hp Hf Hk Hpos Hmeth.
  destruct (DELETE_200 _ _ _ Hd) as (k' & Hp' & HE & _).
  assert (k' = k) as -> by congruence.
  rewrite HE. set (w1 := mkWorld _ _).
  pose proof (fault_free_verdict env2 req w1 Hf) as Hv.
  assert (verdict env2 req w1 = rejection 404 "History record not found") as Hr.
  { unfold verdict. destruct (payment_amount req) as [| |b|a|str|]; try discriminate.
    simpl in Hpos. apply negb_true_iff in Hpos. rewrite Hpos, Hmeth, Hk. cbn [negb].
    subst w1. cbn [db with_history student_membership_history].
    by rewrite lookup_delete_eq. }
  rewrite Hr in Hv. unfold rejection in Hv.
  split; [exact Hv|]. apply rejected_keeps_db. by rewrite Hv.
Qed.

Lemma X6_witness :
  (PUT (env_may None) (pay "2" 10 "cash") (DELETE (env_may None) "2" world0).2).1
  = mkResponse 404 (Message "History record not found").
Proof.
  apply (X6_put_after_delete (env_may None) "2" world0 (env_may None) (pay "2" 10 "cash") 2);
    vm_compute; reflexivity.
Defined.

(** ** The listings *)

Lemma digit_is_no_dash a : is_digit a = true -> Ascii.eqb a "-" = false.
Proof.
  destruct a as [[] [] [] [] [] [] [] []]; vm_compute; intros; congruence.
Qed.

Lemma read_digits_some s : forall acc,
  all_digits s = true -> s ≠ EmptyString -> is_Some (read_digits s acc).
Proof.
  induction s as [|a s IH]; intros acc Hd Hne; [done|].
  cbn [all_digits] in Hd. apply andb_true_iff in Hd as [Ha Hs].
  apply bool_decide_eq_true in Ha as [d Hd]. cbn [read_digits]. rewrite Hd.
  destruct s as [|b s']; [cbn; eauto|]. by apply IH.
Qed.

Lemma test_YYYY_MM_split m :
  test_YYYY_MM m = true ->
  split "-" m = [substring 0 4 m; substring 5 2 m]
  /\ is_Some (numeric_in (substring 0 4 m))
  /\ is_Some (numeric_in (substring 5 2 m)).
Proof.
  unfold test_YYYY_MM.
  destruct m as [|y1 [|y2 [|y3 [|y4 [|dash [|m1 [|m2 [|x rest]]]]]]]]; try discriminate;
    try (destruct dash as [[] [] [] [] [] [] [] []]; discriminate).
  destruct (Ascii.eqb_spec dash "-") as [->|Hne].
  2:{ destruct dash as [[] [] [] [] [] [] [] []]; try discriminate; congruence. }
  intros H. repeat (apply andb_true_iff in H as [H ?]).
  split.
  - cbn [split].
    rewrite (digit_is_no_dash y1), (digit_is_no_dash y2), (digit_is_no_dash y3),
      (digit_is_no_dash y4), (digit_is_no_dash m1), (digit_is_no_dash m2) by done.
    reflexivity.
  - cbn [substring]. unfold numeric_in. cbn [all_digits].
    unfold is_digit in *. rewrite !H, ?H0, ?H1, ?H2, ?H3, ?H4. cbn [andb].
    split; apply read_digits_some; try done; cbn [all_digits];
      by rewrite ?H, ?H0, ?H1, ?H2, ?H3, ?H4.
Qed.

Lemma eq_param_true x y : eq_param x y = true <-> exists n, x = Some n /\ y = Some n.
Proof.
  unfold eq_param. destruct x as [a|], y as [b|]; try (split; [done|by intros (?&?&?)]).
  rewrite Z.eqb_eq. split; [intros ->; eauto|by intros (?&[= ->]&[= ->])].
Qed.

Lemma selected_b_true ses q r :
  selected_b ses q r = true <-> in_month ses q r /\ in_branch q r.
Proof.
  unfold selected_b. rewrite andb_true_iff.
  assert (match truthy_str (q_month q) with
          | Some m =>
              eq_param (EXTRACT_YEAR ses <$> History.changed_at r)
                       (numeric_in (substring 0 4 m))
              && eq_param (EXTRACT_MONTH ses <$> History.changed_at r)
                          (numeric_in (substring 5 2 m))
          | None => true
          end = true <-> in_month ses q r) as ->.
  { unfold in_month. destruct (truthy_str (q_month q)) as [m|]; [|split; [done|done]].
    rewrite andb_true_iff, !eq_param_true. split.
    + intros [(y & Hy & Hny) (mo & Hmo & Hnmo)] m' [= <-].
      destruct (History.changed_at r) as [d|]; [|done].
      exists d, y, mo. simpl in Hy, Hmo. by simplify_eq.
    + intros H. destruct (H m eq_refl) as (d & y & mo & -> & Hy & Hmo & <- & <-).
      split; eauto. }
  assert (match truthy_str (q_branchId q) with
          | Some b => eq_param (History.branch_id r) (parseInt b)
          | None => true
          end = true <-> in_branch q r) as ->; [|done].
  unfold in_branch. destruct (truthy_str (q_branchId q)) as [b|]; [|split; [done|done]].
  rewrite eq_param_true. split.
  + intros (n & Hn & Hp) b' [= <-]. eauto.
  + intros H. destruct (H b eq_refl) as (n & Hp & Hb). eauto.
Qed.

Lemma GET_bad_month env ses q w :
  bad_month q ->
  GET env ses q w = Failed (mkResponse 400 (Message "Invalid month format. Use YYYY-MM")).
Proof.
  intros (m & Hm & Ht). unfold GET, get_try. rewrite Hm, Ht. reflexivity.
Qed.

Lemma GET_bad_branch env ses q w :
  ~ bad_month q -> bad_branch q ->
  GET env ses q w = Failed (mkResponse 400 (Message "Invalid branch ID")).
Proof.
  intros Hm (b & Hb & Hp). unfold GET, get_try. rewrite Hb.
  destruct (truthy_str (q_month q)) as [m|] eqn:Em.
  - destruct (test_YYYY_MM m) eqn:Ht; [|exfalso; apply Hm; by exists m].
    cbn [negb]. unfold mbind at 1 2, Handler_bind, mret, Handler_ret. by rewrite Hp.
  - unfold mbind at 1 2, Handler_bind, mret, Handler_ret. by rewrite Hp.
Qed.

Lemma entries_fmap w (l : list (Z * History.row)) :
  listed_of <$> (uncurry (Joined.of_history (db w)) <$> l) = uncurry (entry w) <$> l.
Proof.
  induction l as [|[k r] l IH]; [done|]. cbn [fmap list_fmap] in *. by rewrite IH.
Qed.

Lemma branch_fits_false q : branch_fits q = false <-> branch_out_of_range q.
Proof.
  unfold branch_fits, branch_out_of_range. split.
  - destruct (truthy_str (q_branchId q)) as [b|]; cbn [mbind option_bind]; [|discriminate].
    destruct (parseInt b) as [n|] eqn:Ep; [|discriminate]. intros Hn. by exists b, n.
  - intros (b & n & -> & Hp & Hn). cbn [mbind option_bind]. by rewrite Hp.
Qed.

Lemma GET_rows env ses q w :
  ~ bad_month q -> ~ bad_branch q ->
  GET env ses q w =
  if decide (fault env = Some 0%nat)
  then Failed (mkResponse 500 (ServerError "Server error fetching collections"))
  else if branch_fits q
  then Json (uncurry (entry w) <$>
               ORDER_BY_name ses
                 (filter (fun kr => selected_b ses q kr.2 = true)
                    (map_to_list (student_membership_history (db w)))))
  else Failed (mkResponse 500 (ServerError "Server error fetching collections")).
Proof.
  intros Hm Hb. unfold GET, get_try, branch_fits.
  destruct (truthy_str (q_month q)) as [m|] eqn:Em.
  - destruct (test_YYYY_MM m) eqn:Ht; [|exfalso; apply Hm; by exists m].
    destruct (test_YYYY_MM_split m Ht) as (Hs & [y Hy] & [mo Hmo]).
    cbn [negb]. rewrite Hs. cbn [lookup list_lookup].
    destruct (truthy_str (q_branchId q)) as [b|] eqn:Eb; cbn [mbind option_bind].
    + destruct (parseInt b) as [n|] eqn:Ep; [|exfalso; apply Hb; by exists b].
      unfold mbind at 1 2, Handler_bind, mret, Handler_ret.
      rewrite bind_query. cbn [connect issued]. case_decide; [reflexivity|].
      unfold select_collections. cbn [where_year_month where_branch_id fmap option_fmap option_map].
      rewrite Hy, Hmo. destruct (int4 n); [|reflexivity].
      cbn [tick connect view world txn default id db mjoin option_join].
      rewrite entries_fmap. do 3 f_equal. apply list_filter_iff. intros [k r]. cbn [snd].
        unfold selected_b. rewrite Em, Eb, Ep, Hy, Hmo. done.
    + unfold mbind at 1 2, Handler_bind, mret, Handler_ret.
      rewrite bind_query. cbn [connect issued]. case_decide; [reflexivity|].
      unfold select_collections. cbn [where_year_month where_branch_id fmap option_fmap option_map].
      rewrite Hy, Hmo. cbn [tick connect view world txn default id db mjoin option_join].
      rewrite entries_fmap. do 3 f_equal. apply list_filter_iff. intros [k r]. cbn [snd].
        unfold selected_b. rewrite Em, Eb, Hy, Hmo. by rewrite andb_true_r.
  - destruct (truthy_str (q_branchId q)) as [b|] eqn:Eb; cbn [mbind option_bind].
    + destruct (parseInt b) as [n|] eqn:Ep; [|exfalso; apply Hb; by exists b].
      unfold mbind at 1 2, Handler_bind, mret, Handler_ret.
      rewrite bind_query. cbn [connect issued]. case_decide; [reflexivity|].
      unfold select_collections. cbn [where_year_month where_branch_id].
      destruct (int4 n); [|reflexivity].
      cbn [tick connect view world txn default id db].
      rewrite entries_fmap. do 3 f_equal. apply list_filter_iff. intros [k r]. cbn [snd].
        unfold selected_b. rewrite Em, Eb, Ep. done.
    + unfold mbind at 1 2, Handler_bind, mret, Handler_ret.
      rewrite bind_query. cbn [connect issued]. case_decide; [reflexivity|].
      unfold select_collections. cbn [where_year_month where_branch_id].
      cbn [tick connect view world txn default id db].
      rewrite entries_fmap. do 3 f_equal. apply list_filter_iff. intros [k r]. cbn [snd].
        unfold selected_b. rewrite Em, Eb. done.
Qed.

Lemma insert_by_perm {A} (le : A -> A -> bool) x l : insert_by le x l ≡ₚ x :: l.
Proof.
  induction l as [|y l IH]; [done|]. cbn [insert_by].
  destruct (le x y); [done|]. rewrite IH. apply perm_swap.
Qed.

Lemma sort_by_rearranges {A} (le : A -> A -> bool) : rearranges (sort_by le).
Proof.
  intros l. induction l as [|x l IH]; [done|].
  cbn [sort_by]. by rewrite insert_by_perm, IH.
Qed.

Lemma GET_listing env ses q w l :
  rearranges (ORDER_BY_name ses) ->
  GET env ses q w = Json l ->
  l ≡ₚ uncurry (entry w) <$>
         filter (fun kr => selected_b ses q kr.2 = true)
                (map_to_list (student_membership_history (db w))).
Proof.
  intros Hord HG.
  destruct (truthy_str (q_month q)) as [m|] eqn:Em.
  - destruct (test_YYYY_MM m) eqn:Ht.
    2:{ rewrite GET_bad_month in HG by (by exists m). discriminate. }
    destruct (truthy_str (q_branchId q)) as [b|] eqn:Eb.
    + destruct (parseInt b) eqn:Ep.
      2:{ rewrite GET_bad_branch in HG; [discriminate| |by exists b].
          intros (m' & Hm' & Ht'). congruence. }
      rewrite GET_rows in HG.
      * case_decide; [discriminate|]. destruct (branch_fits q); [|discriminate].
        injection HG as <-. by rewrite Hord.
      * intros (m' & Hm' & Ht'). congruence.
      * intros (b' & Hb' & Hp'). congruence.
    + rewrite GET_rows in HG.
      * case_decide; [discriminate|]. destruct (branch_fits q); [|discriminate].
        injection HG as <-. by rewrite Hord.
      * intros (m' & Hm' & Ht'). congruence.
      * intros (b' & Hb' & Hp'). congruence.
  - destruct (truthy_str (q_branchId q)) as [b|] eqn:Eb.
    + destruct (parseInt b) eqn:Ep.
      2:{ rewrite GET_bad_branch in HG; [discriminate| |by exists b].
          intros (m' & Hm' & Ht'). congruence. }
      rewrite GET_rows in HG.
      * case_decide; [discriminate|]. destruct (branch_fits q); [|discriminate].
        injection HG as <-. by rewrite Hord.
      * intros (m' & Hm' & Ht'). congruence.
      * intros (b' & Hb' & Hp'). congruence.
    + rewrite GET_rows in HG.
      * case_decide; [discriminate|]. destruct (branch_fits q); [|discriminate].
        injection HG as <-. by rewrite Hord.
      * intros (m' & Hm' & Ht'). congruence.
      * intros (b' & Hb' & Hp'). congruence.
Qed.

Lemma listed_iff env ses q w l :
  rearranges (ORDER_BY_name ses) ->
  GET env ses q w = Json l ->
  forall c, c ∈ l <->
            exists k r, history_at w k = Some r
                        /\ in_month ses q r /\ in_branch q r
                        /\ c = entry w k r.
Proof.
  intros Hord HG c. rewrite (GET_listing _ _ _ _ _ Hord HG).
  rewrite list_elem_of_fmap. split.
  - intros ([k r] & -> & Hin). apply list_elem_of_filter in Hin as [Hsel Hin].
    apply elem_of_map_to_list in Hin. apply selected_b_true in Hsel as [? ?].
    by exists k, r.
  - intros (k & r & Hr & Hm & Hb & ->). exists (k, r). split; [done|].
    apply list_elem_of_filter. split; [by apply selected_b_true|].
    by apply elem_of_map_to_list.
Qed.

(** X7: [GET /] answers 400 for a month that is given (not empty) and not
    of the form dddd-dd, whatever the branch id is, and for a branch id that
    is given and starts with no integer; an empty parameter counts as absent.
    With parameters that pass these checks it answers 500 when its query
    fails or the branch id is no value of the column, and a list otherwise. *)
Theorem X7_get_validation env ses q w :
  (bad_month q ->
   GET env ses q w = Failed (mkResponse 400 (Message "Invalid month format. Use YYYY-MM")))
  /\ (~ bad_month q -> bad_branch q ->
      GET env ses q w = Failed (mkResponse 400 (Message "Invalid branch ID")))
  /\ (~ bad_month q -> ~ bad_branch q ->
      fault env = Some 0%nat \/ branch_out_of_range q ->
      status_of (GET env ses q w) = 500)
  /\ (~ bad_month q -> ~ bad_branch q ->
      fault env ≠ Some 0%nat -> ~ branch_out_of_range q ->
      exists l, GET env ses q w = Json l)
  /\ (q_month q = Some ""%string -> ~ bad_month q)
  /\ (q_branchId q = Some ""%string -> ~ bad_branch q).
Proof.
  split; [apply GET_bad_month|]. split; [apply GET_bad_branch|].
  split; [|split; [|split]].
  - intros Hm Hb Hf. rewrite GET_rows by done. case_decide; [done|].
    destruct Hf as [Hf|Hr]; [done|]. apply branch_fits_false in Hr. by rewrite Hr.
  - intros Hm Hb Hf Hr. rewrite GET_rows by done. case_decide; [done|].
    destruct (branch_fits q) eqn:Hfit; [eauto|].
    exfalso. by apply Hr, branch_fits_false.
  - intros Hq (m & Hm & _). by rewrite Hq in Hm.
  - intros Hq (m & Hm & _). by rewrite Hq in Hm.
Qed.

Lemma X7_witness :
  GET (env_may None) utc_session (mkQuery (Some "May 2024"%string) (Some "x"%string)) world0
  = Failed (mkResponse 400 (Message "Invalid month format. Use YYYY-MM"))
  /\ GET (env_may None) utc_session (mkQuery (Some "2024-05"%string) (Some "x"%string)) world0
     = Failed (mkResponse 400 (Message "Invalid branch ID"))
  /\ status_of (GET (env_may None) utc_session
                  (mkQuery (Some "2024-05"%string) (Some "2147483648"%string)) world0) = 500
  /\ exists l, GET (env_may None) utc_session
                 (mkQuery (Some "2024-05"%string) (Some (nbsp "2"))) world0 = Json l.
Proof.
  split; [|split; [|split]].
  - apply (proj1 (X7_get_validation (env_may None) utc_session
                    (mkQuery (Some "May 2024"%string) (Some "x"%string)) world0)).
    exists "May 2024"%string. split; reflexivity.
  - apply (proj1 (proj2 (X7_get_validation (env_may None) utc_session
                           (mkQuery (Some "2024-05"%string) (Some "x"%string)) world0))).
    + intros (m & [= <-] & Hm). discriminate Hm.
    + exists "x"%string. split; reflexivity.
  - apply (proj1 (proj2 (proj2 (X7_get_validation (env_may None) utc_session
                                  (mkQuery (Some "2024-05"%string)
                                           (Some "2147483648"%string)) world0)))).
    + intros (m & [= <-] & Hm). discriminate Hm.
    + intros (b & [= <-] & Hb). discriminate Hb.
    + right. exists "2147483648"%string, 2147483648. repeat split; reflexivity.
  - apply (proj1 (proj2 (proj2 (proj2 (X7_get_validation (env_may None) utc_session
                                         (mkQuery (Some "2024-05"%string)
                                                  (Some (nbsp "2"))) world0))))).
    + intros (m & [= <-] & Hm). discriminate Hm.
    + intros (b & [= <-] & Hb). discriminate Hb.
    + discriminate.
    + intros (b & n & [= <-] & [= <-] & Hn). discriminate Hn.
Defined.

(** X8: the list of [GET /] holds exactly the history rows that pass the
    filters of the query, each once: an entry is in the list when and only
    when it is the entry of a stored row of the asked year and month (when a
    month is asked) and of the asked branch (when a branch is asked). *)
Theorem X8_get_lists_exactly env ses q w l :
  rearranges (ORDER_BY_name ses) ->
  GET env ses q w = Json l ->
  (forall c, c ∈ l <->
             exists k r, history_at w k = Some r
                         /\ in_month ses q r /\ in_branch q r
                         /\ c = entry w k r)
  /\ NoDup (Listed.historyId <$> l).
Proof.
  intros Hord HG. split; [by eapply listed_iff|].
  rewrite (GET_listing _ _ _ _ _ Hord HG).
  rewrite <- list_fmap_compose.
  assert (forall l' : list (Z * History.row),
             (Listed.historyId ∘ uncurry (entry w)) <$> l' = l'.*1) as ->.
  { intros l'. induction l' as [|[k r] l' IH]; [done|]. cbn [fmap list_fmap] in *. by rewrite IH. }
  eapply sublist_NoDup; [apply (NoDup_fst_map_to_list (student_membership_history (db w)))|].
  apply fmap_sublist, sublist_filter.
Qed.

Lemma X8_witness :
  exists l,
    GET (env_may None) utc_session (mkQuery (Some "2024-05"%string) (Some "2"%string)) world0 = Json l
    /\ NoDup (Listed.historyId <$> l)
    /\ Listed.historyId <$> l = [2].
Proof.
  eexists. split; [vm_compute; reflexivity|].
  split; [|reflexivity].
  eapply (X8_get_lists_exactly (env_may None) utc_session
            (mkQuery (Some "2024-05"%string) (Some "2"%string)) world0).
  - apply sort_by_rearranges.
  - vm_compute. reflexivity.
Defined.

(** X9: a month of the right form that is no month of the calendar (00, 13
    and above) is no error for [GET /]: the answer is the empty list. *)
Theorem X9_get_impossible_month env ses q w l m mo :
  rearranges (ORDER_BY_name ses) ->
  calendar_months ses w ->
  truthy_str (q_month q) = Some m ->
  numeric_in (substring 5 2 m) = Some mo ->
  ~ 1 <= mo <= 12 ->
  GET env ses q w = Json l ->
  l = [].
Proof.
  intros Hord Hmonths Hm Hmo Hout HG.
  destruct l as [|c l]; [done|]. exfalso.
  destruct (proj1 (listed_iff _ _ _ _ _ Hord HG c)) as (k & r & Hr & Hin & _);
    [by left|].
  destruct (Hin m Hm) as (d & y & mo' & Hd & _ & Hmo' & _ & He).
  assert (mo' = mo) as -> by congruence.
  specialize (Hmonths k r d Hr Hd). lia.
Qed.

Lemma world0_calendar_months : calendar_months utc_session world0.
Proof.
  intros k r d Hr Hd. unfold history_at, world0 in Hr. cbn [db student_membership_history] in Hr.
  apply lookup_insert_Some in Hr as [[<- <-]|[_ Hr]].
  { injection Hd as <-. vm_compute. split; discriminate. }
  apply lookup_insert_Some in Hr as [[<- <-]|[_ Hr]].
  { injection Hd as <-. vm_compute. split; discriminate. }
  by rewrite lookup_empty in Hr.
Defined.

Lemma X9_witness :
  exists l,
    GET (env_may None) utc_session (mkQuery (Some "2024-13"%string) None) world0 = Json l
    /\ l = [].
Proof.
  eexists. split; [vm_compute; reflexivity|].
  apply (X9_get_impossible_month (env_may None) utc_session
           (mkQuery (Some "2024-13"%string) None) world0 _ "2024-13" 13).
  - apply sort_by_rearranges.
  - apply world0_calendar_months.
  - reflexivity.
  - reflexivity.
  - lia.
  - vm_compute. reflexivity.
Defined.

(** X10: after a DELETE answered 200, [GET /] with the same query lists what
    it listed before without the entry of the deleted row: no other entry is
    lost or changed. *)
Theorem X10_get_after_delete env p w k env1 env2 ses q l l' :
  rearranges (ORDER_BY_name ses) ->
  status (DELETE env p w).1 = 200 ->
  parseInt p = Some k ->
  GET env1 ses q w = Json l ->
  GET env2 ses q (DELETE env p w).2 = Json l' ->
  forall c, c ∈ l' <-> c ∈ l /\ Listed.historyId c ≠ k.
Proof.
  intros Hord Hd Hp HG HG' c.
  destruct (DELETE_200 _ _ _ Hd) as (k' & Hp' & HE & _).
  assert (k' = k) as -> by congruence. rewrite HE in HG'.
  rewrite (listed_iff _ _ _ _ _ Hord HG c), (listed_iff _ _ _ _ _ Hord HG' c).
  unfold history_at. cbn [db with_history student_membership_history].
  split.
  - intros (j & r & Hr & Hm & Hb & ->). apply lookup_delete_Some in Hr as [Hjk Hr].
    split; [by exists j, r|]. cbn. congruence.
  - intros [(j & r & Hr & Hm & Hb & ->) Hne]. cbn in Hne.
    exists j, r. split; [apply lookup_delete_Some; split; [congruence|done]|].
    done.
Qed.

Lemma X10_witness :
  exists l l',
    GET (env_may None) utc_session (mkQuery None None) world0 = Json l
    /\ GET (env_may None) utc_session (mkQuery None None)
           (DELETE (env_may None) "2" world0).2 = Json l'
    /\ forall c, c ∈ l' <-> c ∈ l /\ Listed.historyId c ≠ 2.
Proof.
  eexists. eexists. split; [vm_compute; reflexivity|]. split; [vm_compute; reflexivity|].
  apply (X10_get_after_delete (env_may None) "2" world0 2 (env_may None) (env_may None)
           utc_session (mkQuery None None)).
  - apply sort_by_rearranges.
  - vm_compute. reflexivity.
  - reflexivity.
  - vm_compute. reflexivity.
  - vm_compute. reflexivity.
Defined.

(** X11: what an accepted same-month PUT answers is what [GET /] then lists
    for that row: the id (when it is not 0), student, name, branch, the six
    amounts, the remark and the date agree, and the title of the shift and
    the name of the branch agree up to an empty text, which PUT answers as
    null. *)
Theorem X11_get_after_put env req w a k h env2 ses l :
  accepted env req w ->
  pays env req w a k h ->
  same_month_of env h ->
  k ≠ 0 ->
  rearranges (ORDER_BY_name ses) ->
  GET env2 ses (mkQuery None None) (PUT env req w).2 = Json l ->
  exists c e,
    body (PUT env req w).1 = PaymentUpdated "Payment updated successfully" c
    /\ e ∈ l
    /\ Collection.historyId c = JNum (inject_Z (Listed.historyId e))
    /\ Listed.historyId e = k
    /\ Collection.studentId c = Listed.studentId e
    /\ Collection.name c = Listed.name e
    /\ Collection.totalFee c = Listed.totalFee e
    /\ Collection.amountPaid c = Listed.amountPaid e
    /\ Collection.dueAmount c = Listed.dueAmount e
    /\ Collection.cash c = Listed.cash e
    /\ Collection.online c = Listed.online e
    /\ Collection.securityMoney c = Listed.securityMoney e
    /\ Collection.remark c = Listed.remark e
    /\ Collection.createdAt c = Listed.createdAt e
    /\ Collection.branchId c = Listed.branchId e
    /\ Collection.shiftTitle c = truthy_str (Listed.shiftTitle e)
    /\ Collection.branchName c = truthy_str (Listed.branchName e).
Proof.
  intros Hacc (Ha & Hk & Hh) Hm Hk0 Hord HG.
  destruct (accepted_same_month _ _ _ _ _ _ Hacc Ha Hk Hh Hm)
    as (sid & s & Hsid & Hs & Hpos & Hmeth & Hdue & HE).
  rewrite HE in *. cbn [fst snd] in *.
  set (h' := History.set_payment (new_cash req a h) (new_online req a h)
               (new_cash req a h + new_online req a h)%Q (new_due req a h) h) in *.
  set (w' := mkWorld _ _) in *.
  eexists. exists (entry w' k h').
  split; [reflexivity|].
  split.
  { apply (listed_iff _ _ _ _ _ Hord HG). exists k, h'.
    split; [|split; [|split]]; [|by intros m [=]|by intros b [=]|done].
    unfold history_at in *. subst w'.
    cbn [db same_month_db student_membership_history].
    by rewrite lookup_alter_eq, Hh. }
  unfold collection_of, Updated.of_joined, entry, listed_of, Joined.of_history.
  cbn [Collection.historyId Collection.studentId Collection.name Collection.totalFee
       Collection.amountPaid Collection.dueAmount Collection.cash Collection.online
       Collection.securityMoney Collection.remark Collection.createdAt Collection.branchId
       Collection.shiftTitle Collection.branchName
       Updated.history_id Updated.id Updated.student_id Updated.name Updated.shift_title
       Updated.total_fee Updated.amount_paid Updated.due_amount Updated.cash Updated.online
       Updated.security_money Updated.remark Updated.created_at Updated.changed_at
       Updated.branch_id Updated.branch_name
       Listed.historyId Listed.studentId Listed.name Listed.totalFee
       Listed.amountPaid Listed.dueAmount Listed.cash Listed.online
       Listed.securityMoney Listed.remark Listed.createdAt Listed.branchId
       Listed.shiftTitle Listed.branchName
       Joined.history_id Joined.student_id Joined.name Joined.shift_title
       Joined.total_fee Joined.amount_paid Joined.due_amount Joined.cash Joined.online
       Joined.security_money Joined.remark Joined.created_at Joined.branch_id
       Joined.branch_name].
  split; [by destruct k|].
  repeat split.
  destruct (History.changed_at h'); reflexivity.
Qed.

Lemma X11_witness :
  exists l c e,
    GET (env_may None) utc_session (mkQuery None None)
        (PUT (env_may None) (pay "2" 30 "online") world0).2 = Json l
    /\ body (PUT (env_may None) (pay "2" 30 "online") world0).1
       = PaymentUpdated "Payment updated successfully" c
    /\ e ∈ l
    /\ Collection.dueAmount c = Listed.dueAmount e.
Proof.
  assert (exists l, GET (env_may None) utc_session (mkQuery None None)
                        (PUT (env_may None) (pay "2" 30 "online") world0).2 = Json l)
    as [l Hl] by (eexists; vm_compute; reflexivity).
  destruct (X11_get_after_put (env_may None) (pay "2" 30 "online") world0 30 2
              (history_row 7 100 0 100 0 0 may_2024) (env_may None) utc_session l)
    as (c & e & Hb & He & _ & _ & _ & _ & _ & _ & Hd & _).
  - vm_compute. reflexivity.
  - repeat split; vm_compute; reflexivity.
  - vm_compute. reflexivity.
  - done.
  - apply sort_by_rearranges.
  - exact Hl.
  - exists l, c, e. by repeat split.
Defined.

(** ** The report of previous-month dues *)

Lemma fold_left_total (rows : list (Z * History.row * option string)) : forall acc,
  (fold_left (fun acc r => acc + parseFloat_or_0 (History.amount_paid r.1.2)) rows acc
   == acc + sum_amounts (record_of <$> rows))%Q.
Proof.
  induction rows as [|r rows IH]; intros acc; cbn [fold_left fmap list_fmap sum_amounts foldr].
  - ring.
  - rewrite IH. fold (sum_amounts (record_of <$> rows)).
    cbn [record_of PrevDue.amount]. ring.
Qed.

Lemma GETP_no_month env ses q w :
  no_month q ->
  GET_previous_due_paid env ses q w
  = Failed (mkResponse 400 (Message "Invalid month format. Use YYYY-MM")).
Proof.
  intros Hno. unfold GET_previous_due_paid, previous_due_paid_try.
  destruct (truthy_str (q_month q)) as [m|] eqn:Em; [|reflexivity].
  by rewrite (Hno m Em).
Qed.

Lemma records_fmap w (l : list (Z * History.row)) :
  record_of <$> ((fun kr : Z * History.row =>
                    (kr, History.branch_id kr.2 ≫= fun b => mjoin (branches (db w) !! b)))
                 <$> l)
  = uncurry (due_record w) <$> l.
Proof.
  induction l as [|[k r] l IH]; [done|]. cbn [fmap list_fmap] in *. by rewrite IH.
Qed.

Lemma GETP_json env ses q w rep :
  GET_previous_due_paid env ses q w = Json rep ->
  exists m,
    truthy_str (q_month q) = Some m
    /\ test_YYYY_MM m = true
    /\ ~ bad_branch q
    /\ fault env ≠ Some 0%nat
    /\ PrevDue.month rep = m
    /\ (PrevDue.totalPreviousDuePaid rep == sum_amounts (PrevDue.records rep))%Q
    /\ PrevDue.records rep
       = uncurry (due_record w) <$>
           ORDER_BY_changed_at_DESC ses
             (filter (fun kr => due_selected_b ses q m kr.2 = true)
                (map_to_list (student_membership_history (db w)))).
Proof.
  unfold GET_previous_due_paid, previous_due_paid_try.
  destruct (truthy_str (q_month q)) as [m|] eqn:Em; [|discriminate].
  destruct (test_YYYY_MM m) eqn:Ht; [|discriminate]. cbn [negb].
  rewrite bind_query. cbn [connect issued]. case_decide as Hf; [discriminate|].
  unfold select_previous_due_paid.
  destruct (truthy_str (q_branchId q)) as [b|] eqn:Eb.
  - destruct (parseInt b) as [n|] eqn:Ep; [|discriminate].
    destruct (int4 n); [|discriminate].
    cbn [tick connect view world txn default id db mret Handler_ret].
    intros [= <-]. exists m. split; [done|]. split; [done|].
    split; [intros (b' & Hb' & Hp'); congruence|]. split; [done|].
    cbn [PrevDue.month PrevDue.totalPreviousDuePaid PrevDue.records].
    split; [done|]. split.
    { rewrite fold_left_total. ring. }
    rewrite records_fmap. do 2 f_equal. apply list_filter_iff. intros [k r]. cbn [snd].
    unfold due_selected_b. by rewrite Eb, Ep.
  - cbn [tick connect view world txn default id db mret Handler_ret].
    intros [= <-]. exists m. split; [done|]. split; [done|].
    split; [intros (b' & Hb' & Hp'); congruence|]. split; [done|].
    cbn [PrevDue.month PrevDue.totalPreviousDuePaid PrevDue.records].
    split; [done|]. split.
    { rewrite fold_left_total. ring. }
    rewrite records_fmap. do 2 f_equal. apply list_filter_iff. intros [k r]. cbn [snd].
    unfold due_selected_b. by rewrite Eb.
Qed.

Lemma GETP_ok env ses q w m :
  truthy_str (q_month q) = Some m ->
  test_YYYY_MM m = true ->
  ~ bad_branch q ->
  ~ branch_out_of_range q ->
  fault env ≠ Some 0%nat ->
  exists rep, GET_previous_due_paid env ses q w = Json rep.
Proof.
  intros Em Ht Hb Hr Hf. unfold GET_previous_due_paid, previous_due_paid_try.
  rewrite Em, Ht. cbn [negb]. rewrite bind_query. cbn [connect issued].
  case_decide; [done|]. unfold select_previous_due_paid.
  destruct (truthy_str (q_branchId q)) as [b|] eqn:Eb.
  - destruct (parseInt b) as [n|] eqn:Ep; [|exfalso; apply Hb; by exists b].
    destruct (int4 n) eqn:Hn; [|exfalso; apply Hr; by exists b, n].
    eexists. reflexivity.
  - eexists. reflexivity.
Qed.

Lemma GETP_500 env ses q w m :
  truthy_str (q_month q) = Some m ->
  test_YYYY_MM m = true ->
  bad_branch q \/ branch_out_of_range q \/ fault env = Some 0%nat ->
  GET_previous_due_paid env ses q w
  = Failed (mkResponse 500 (ServerError "Server error fetching previous-due-paid summary")).
Proof.
  intros Em Ht Hbad. unfold GET_previous_due_paid, previous_due_paid_try.
  rewrite Em, Ht. cbn [negb]. rewrite bind_query. cbn [connect issued].
  case_decide; [done|]. unfold select_previous_due_paid.
  destruct Hbad as [(b & Eb & Ep)|[(b & n & Eb & Ep & Hn)|]]; [| |done].
  - by rewrite Eb, Ep.
  - by rewrite Eb, Ep, Hn.
Qed.

(** X12: [GET /previous-due-paid] needs its month: it answers 400 exactly
    when the month is missing, empty or not of the form dddd-dd. The handler
    does not check the branch id: one that starts with no integer, or reads
    as a number that is no value of the column, is answered 500, as is a
    failing query; otherwise a report is answered. *)
Theorem X12_previous_due_paid_validation env ses q w :
  (status_of (GET_previous_due_paid env ses q w) = 400 <-> no_month q)
  /\ (~ no_month q ->
      bad_branch q \/ branch_out_of_range q \/ fault env = Some 0%nat ->
      status_of (GET_previous_due_paid env ses q w) = 500)
  /\ (~ no_month q -> ~ bad_branch q -> ~ branch_out_of_range q ->
      fault env ≠ Some 0%nat ->
      exists rep, GET_previous_due_paid env ses q w = Json rep).
Proof.
  assert (no_month q \/ exists m, truthy_str (q_month q) = Some m /\ test_YYYY_MM m = true)
    as [Hno|(m & Em & Ht)].
  { unfold no_month. destruct (truthy_str (q_month q)) as [m|]; [|by left].
    destruct (test_YYYY_MM m) eqn:Ht; [right; eauto|left]. by intros m' [= <-]. }
  - split; [|split]; [|done|done]. by rewrite GETP_no_month.
  - assert (~ no_month q) as Hyes.
    { intros Hno. specialize (Hno m Em). congruence. }
    split; [|split].
    + split; [|done]. intros H400. exfalso.
      destruct (decide (fault env = Some 0%nat)) as [Hf|Hf].
      { rewrite (GETP_500 _ _ _ _ m) in H400 by auto. discriminate. }
      destruct (truthy_str (q_branchId q)) as [b|] eqn:Eb.
      * destruct (parseInt b) as [n|] eqn:Ep.
        -- destruct (int4 n) eqn:Hn.
           ++ destruct (GETP_ok env ses q w m) as [rep Hrep]; try done.
              { intros (b' & Hb' & Hp'). congruence. }
              { intros (b' & n' & Hb' & Hp' & Hn'). congruence. }
              rewrite Hrep in H400. discriminate.
           ++ rewrite (GETP_500 _ _ _ _ m) in H400; [discriminate|done|done|].
              right. left. by exists b, n.
        -- rewrite (GETP_500 _ _ _ _ m) in H400; [discriminate|done|done|].
           left. by exists b.
      * destruct (GETP_ok env ses q w m) as [rep Hrep]; try done.
        { intros (b' & Hb' & Hp'). congruence. }
        { intros (b' & n' & Hb' & Hp' & Hn'). congruence. }
        rewrite Hrep in H400. discriminate.
    + intros _ Hbad. by rewrite (GETP_500 _ _ _ _ m).
    + intros _ Hb Hr Hf. by eapply GETP_ok.
Qed.

Lemma X12_witness :
  status_of (GET_previous_due_paid (env_may None) utc_session (mkQuery None (Some "2"%string))
               world0) = 400
  /\ status_of (GET_previous_due_paid (env_may None) utc_session
                  (mkQuery (Some "2024-05"%string) (Some "x"%string)) world0) = 500
  /\ exists rep, GET_previous_due_paid (env_may None) utc_session
                   (mkQuery (Some "2024-05"%string) (Some (nbsp "2"))) world0 = Json rep.
Proof.
  split; [|split].
  - apply (proj2 (proj1 (X12_previous_due_paid_validation (env_may None) utc_session
                           (mkQuery None (Some "2"%string)) world0))).
    intros m [=].
  - apply (proj1 (proj2 (X12_previous_due_paid_validation (env_may None) utc_session
                           (mkQuery (Some "2024-05"%string) (Some "x"%string)) world0))).
    + intros Hno. specialize (Hno "2024-05"%string eq_refl). discriminate Hno.
    + left. exists "x"%string. split; reflexivity.
  - apply (proj2 (proj2 (X12_previous_due_paid_validation (env_may None) utc_session
                           (mkQuery (Some "2024-05"%string) (Some (nbsp "2"))) world0))).
    + intros Hno. specialize (Hno "2024-05"%string eq_refl). discriminate Hno.
    + intros (b & [= <-] & Hb). discriminate Hb.
    + intros (b & n & [= <-] & [= <-] & Hn). discriminate Hn.
    + discriminate.
Defined.

(** X13: in the report of [GET /previous-due-paid] the total is the sum of
    the amounts of the records, and the month is the one asked for. *)
Theorem X13_report_total env ses q w rep :
  GET_previous_due_paid env ses q w = Json rep ->
  (PrevDue.totalPreviousDuePaid rep == sum_amounts (PrevDue.records rep))%Q
  /\ q_month q = Some (PrevDue.month rep).
Proof.
  intros HG. destruct (GETP_json _ _ _ _ _ HG) as (m & Em & _ & _ & _ & Hm & Ht & _).
  split; [exact Ht|]. rewrite Hm. unfold truthy_str in Em.
  destruct (q_month q) as [[|]|]; congruence.
Qed.

(** X14: the records of [GET /previous-due-paid] are exactly the stored rows
    flagged [prev_due_paid] whose [changed_at] is, for the session, in the
    asked month (and of the asked branch, when one is asked), each once. *)
Theorem X14_report_records env ses q w rep :
  rearranges (ORDER_BY_changed_at_DESC ses) ->
  GET_previous_due_paid env ses q w = Json rep ->
  (forall c, c ∈ PrevDue.records rep <->
             exists k r, history_at w k = Some r
                         /\ due_paid_in ses (PrevDue.month rep) r
                         /\ in_branch q r
                         /\ c = due_record w k r)
  /\ NoDup (PrevDue.historyId <$> PrevDue.records rep).
Proof.
  intros Hord HG. destruct (GETP_json _ _ _ _ _ HG) as (m & Em & _ & _ & _ & <- & _ & ->).
  cbn [snd] in *.
  assert (forall r, due_selected_b ses q (PrevDue.month rep) r = true
                    <-> due_paid_in ses (PrevDue.month rep) r /\ in_branch q r) as Hsel.
  { intros r. unfold due_selected_b, due_paid_in, in_branch.
    rewrite !andb_true_iff, !bool_decide_eq_true.
    destruct (truthy_str (q_branchId q)) as [b|].
    - rewrite eq_param_true. split.
      + intros [[? ?] (n & ? & ?)]. split; [done|]. intros b' [= <-]. eauto.
      + intros [[? ?] Hbr]. split; [done|]. destruct (Hbr b eq_refl) as (n & ? & ?). eauto.
    - split; [intros [[? ?] _]; split; [done|]; by intros b [=]|by intros [[? ?] _]]. }
  split.
  - intros c. rewrite list_elem_of_fmap. split.
    + intros ([k r] & -> & Hin). rewrite Hord in Hin.
      apply list_elem_of_filter in Hin as [Hs Hin].
      apply elem_of_map_to_list in Hin. apply Hsel in Hs as [? ?]. by exists k, r.
    + intros (k & r & Hr & Hd & Hb & ->). exists (k, r). split; [done|].
      rewrite Hord. apply list_elem_of_filter. split; [by apply Hsel|].
      by apply elem_of_map_to_list.
  - rewrite <- list_fmap_compose.
    assert (forall l' : list (Z * History.row),
               (PrevDue.historyId ∘ uncurry (due_record w)) <$> l' = l'.*1) as ->.
    { intros l'. induction l' as [|[k r] l' IH]; [done|].
      cbn [fmap list_fmap] in *. by rewrite IH. }
    rewrite Hord.
    eapply sublist_NoDup;
      [apply (NoDup_fst_map_to_list (student_membership_history (db w)))|].
    apply fmap_sublist, sublist_filter.
Qed.

Lemma X13_witness :
  exists rep,
    GET_previous_due_paid (env_may None) utc_session (mkQuery (Some "2024-05"%string) None)
      (PUT (env_may None) (pay "1" 50 "cash") world0).2 = Json rep
    /\ (PrevDue.totalPreviousDuePaid rep == sum_amounts (PrevDue.records rep))%Q
    /\ (PrevDue.totalPreviousDuePaid rep == 50)%Q.
Proof.
  eexists. split; [vm_compute; reflexivity|].
  split; [|vm_compute; reflexivity].
  eapply (X13_report_total (env_may None) utc_session (mkQuery (Some "2024-05"%string) None)
            (PUT (env_may None) (pay "1" 50 "cash") world0).2).
  vm_compute. reflexivity.
Defined.

Lemma X14_witness :
  exists rep,
    GET_previous_due_paid (env_may None) utc_session (mkQuery (Some "2024-05"%string) None)
      (PUT (env_may None) (pay "1" 50 "cash") world0).2 = Json rep
    /\ NoDup (PrevDue.historyId <$> PrevDue.records rep)
    /\ PrevDue.historyId <$> PrevDue.records rep = [3].
Proof.
  eexists. split; [vm_compute; reflexivity|].
  split; [|vm_compute; reflexivity].
  eapply (X14_report_records (env_may None) utc_session (mkQuery (Some "2024-05"%string) None)
            (PUT (env_may None) (pay "1" 50 "cash") world0).2).
  - apply sort_by_rearranges.
  - vm_compute. reflexivity.
Defined.

Lemma sum_amounts_perm l1 l2 : l1 ≡ₚ l2 -> (sum_amounts l1 == sum_amounts l2)%Q.
Proof.
  induction 1 as [|x l1 l2 _ IH|x y l|l1 l2 l3 _ IH1 _ IH2]; cbn [sum_amounts foldr].
  - reflexivity.
  - fold (sum_amounts l1). fold (sum_amounts l2). by rewrite IH.
  - ring.
  - by rewrite IH1.
Qed.

Lemma alter_as_insert {A} (f : A -> A) (m : gmap Z A) k x :
  m !! k = Some x -> alter f k m = <[k := f x]> (delete k m).
Proof.
  intros Hk. apply map_eq. intros j. destruct (decide (j = k)) as [->|Hne].
  - by rewrite lookup_alter_eq, Hk, lookup_insert_eq.
  - by rewrite lookup_alter_ne, lookup_insert_ne, lookup_delete_ne.
Qed.

Lemma due_selected_set_due ses q m d h :
  due_selected_b ses q m (History.set_due d h) = due_selected_b ses q m h.
Proof. reflexivity. Qed.

(** X15: a previous-month payment shows up in the report of the month it
    is made in: when NOW() of the INSERT is, for the session, in the asked
    month and the targeted row passes the branch filter, the report after an
    accepted previous-month payment of [a] has the records it had before and
    the record of the inserted row, with amount [a], and its total is the
    former total plus [a]. The source month of the new record is null when
    the targeted row has no [changed_at]; otherwise, for the years 0 to 9999,
    it is a text of the form dddd-dd that reads as the UTC year and the
    number of the UTC month of that [changed_at]. *)
Theorem X15_report_after_payment env req w a k h ses q env1 env2 rep rep' :
  rearranges (ORDER_BY_changed_at_DESC ses) ->
  accepted env req w ->
  pays env req w a k h ->
  previous_month_of env h ->
  GET_previous_due_paid env1 ses q w = Json rep ->
  GET_previous_due_paid env2 ses q (PUT env req w).2 = Json rep' ->
  TO_CHAR_YYYY_MM ses (sql_now env) = PrevDue.month rep ->
  in_branch q h ->
  exists c,
    PrevDue.records rep' ≡ₚ c :: PrevDue.records rep
    /\ PrevDue.historyId c = history_id_seq w
    /\ PrevDue.amount c = a
    /\ (History.changed_at h = None -> PrevDue.sourceMonth c = None)
    /\ (forall d,
          History.changed_at h = Some d ->
          0 <= getUTCFullYear d <= 9999 ->
          0 <= getUTCMonth d <= 11 ->
          exists s,
            PrevDue.sourceMonth c = Some s
            /\ test_YYYY_MM s = true
            /\ numeric_in (substring 0 4 s) = Some (getUTCFullYear d)
            /\ numeric_in (substring 5 2 s) = Some (getUTCMonth d + 1))
    /\ PrevDue.createdAt c = Some (sql_now env)
    /\ (PrevDue.totalPreviousDuePaid rep' == PrevDue.totalPreviousDuePaid rep + a)%Q.
Proof.
  intros Hord Hacc (Ha & Hk & Hh) Hm HG HG' Hnow Hbr.
  destruct (accepted_previous_month _ _ _ _ _ _ Hacc Ha Hk Hh Hm)
    as (sid & s & Hsid & Hs & Hpos & Hmeth & Hdue & Hfresh & HE).
  rewrite HE in HG'. cbn [snd] in HG'.
  set (new := prev_due_row h a (inc_cash req a) (inc_online req a)
                (toISOString_slice_0_7 <$> History.changed_at h) (sql_now env)) in *.
  set (w' := mkWorld _ _) in *.
  destruct (GETP_json _ _ _ _ _ HG) as (m & Em & _ & _ & _ & Hmonth & Ht & Hrec).
  destruct (GETP_json _ _ _ _ _ HG') as (m' & Em' & _ & _ & _ & _ & Ht' & Hrec').
  assert (m' = m) as -> by congruence.
  exists (due_record w' (history_id_seq w) new).
  assert (PrevDue.records rep'
          ≡ₚ due_record w' (history_id_seq w) new :: PrevDue.records rep) as Hperm.
  { rewrite Hrec', Hrec, !Hord. unfold history_at in *. unfold w'.
    cbn [db previous_month_db student_membership_history].
    rewrite map_to_list_insert by (by apply lookup_alter_None).
    rewrite (alter_as_insert _ _ _ _ Hh).
    rewrite map_to_list_insert by apply lookup_delete_eq.
    rewrite <- (map_to_list_delete _ _ _ Hh).
    rewrite !filter_cons. cbn [snd]. fold new.
    assert (due_selected_b ses q m new = true) as ->.
    { unfold due_selected_b. subst new.
      cbn [prev_due_row History.changed_at History.prev_due_paid History.branch_id
           fmap option_fmap option_map].
      rewrite Hnow, Hmonth. rewrite !bool_decide_eq_true_2 by done. cbn [andb].
      destruct (truthy_str (q_branchId q)) as [b|] eqn:Eb; [|done].
      destruct (Hbr b Eb) as (n & -> & ->). cbn. apply Z.eqb_refl. }
    rewrite due_selected_set_due.
    rewrite decide_True by done. cbn [fmap list_fmap]. apply Permutation_skip.
    destruct (decide (due_selected_b ses q m h = true)); cbn [fmap list_fmap];
      [apply Permutation_skip|]; apply Permutation_refl. }
  split; [exact Hperm|].
  split; [reflexivity|]. split; [reflexivity|].
  split; [intros Hnone; subst new; cbn; by rewrite Hnone|].
  split.
  { intros d Hd Hy Hmo. subst new. cbn. rewrite Hd. eexists. split; [reflexivity|].
    by apply toISOString_slice_0_7_reads. }
  split; [reflexivity|].
  rewrite Ht', Ht, (sum_amounts_perm _ _ Hperm). cbn [sum_amounts foldr].
  fold (sum_amounts (PrevDue.records rep)). cbn. ring.
Qed.

Lemma X15_witness :
  exists rep rep',
    GET_previous_due_paid (env_may None) utc_session (mkQuery (Some "2024-05"%string) None)
      world0 = Json rep
    /\ GET_previous_due_paid (env_may None) utc_session (mkQuery (Some "2024-05"%string) None)
         (PUT (env_may None) (pay "1" 50 "cash") world0).2 = Json rep'
    /\ (PrevDue.totalPreviousDuePaid rep' == PrevDue.totalPreviousDuePaid rep + 50)%Q
    /\ exists c s,
        c ∈ PrevDue.records rep'
        /\ PrevDue.sourceMonth c = Some s
        /\ numeric_in (substring 0 4 s) = Some 2024
        /\ numeric_in (substring 5 2 s) = Some 3.
Proof.
  assert (exists rep, GET_previous_due_paid (env_may None) utc_session
                        (mkQuery (Some "2024-05"%string) None) world0 = Json rep)
    as [rep Hrep] by (eexists; vm_compute; reflexivity).
  assert (exists rep', GET_previous_due_paid (env_may None) utc_session
                         (mkQuery (Some "2024-05"%string) None)
                         (PUT (env_may None) (pay "1" 50 "cash") world0).2 = Json rep')
    as [rep' Hrep'] by (eexists; vm_compute; reflexivity).
  exists rep, rep'. split; [exact Hrep|]. split; [exact Hrep'|].
  destruct (GETP_json _ _ _ _ _ Hrep) as (m & Em & _ & _ & _ & Hmonth & _).
  injection Em as <-.
  destruct (X15_report_after_payment (env_may None) (pay "1" 50 "cash") world0 50 1
              (history_row 7 100 0 100 0 0 march_2024) utc_session
              (mkQuery (Some "2024-05"%string) None) (env_may None) (env_may None) rep rep')
    as (c & Hperm & _ & _ & _ & Hsrc & _ & Htot).
  - apply sort_by_rearranges.
  - vm_compute. reflexivity.
  - repeat split; vm_compute; reflexivity.
  - vm_compute. reflexivity.
  - exact Hrep.
  - exact Hrep'.
  - rewrite Hmonth. reflexivity.
  - intros b [=].
  - split; [exact Htot|].
    destruct (Hsrc march_2024 eq_refl) as (s & Hs & _ & Hy & Hmo);
      [vm_compute; split; discriminate|vm_compute; split; discriminate|].
    exists c, s. split; [rewrite Hperm; apply list_elem_of_here|].
    split; [exact Hs|]. split; [exact Hy|exact Hmo].
Defined.

(** X16: a same-month payment is no previous-month due: after an accepted
    same-month payment on a row that is not flagged [prev_due_paid], the
    report has the records it had before and the same total. *)
Theorem X16_report_ignores_same_month env req w a k h ses q env1 env2 rep rep' :
  rearranges (ORDER_BY_changed_at_DESC ses) ->
  accepted env req w ->
  pays env req w a k h ->
  same_month_of env h ->
  History.prev_due_paid h ≠ Some true ->
  GET_previous_due_paid env1 ses q w = Json rep ->
  GET_previous_due_paid env2 ses q (PUT env req w).2 = Json rep' ->
  PrevDue.records rep' ≡ₚ PrevDue.records rep
  /\ (PrevDue.totalPreviousDuePaid rep' == PrevDue.totalPreviousDuePaid rep)%Q.
Proof.
  intros Hord Hacc (Ha & Hk & Hh) Hm Hflag HG HG'.
  destruct (accepted_same_month _ _ _ _ _ _ Hacc Ha Hk Hh Hm)
    as (sid & s & Hsid & Hs & Hpos & Hmeth & Hdue & HE).
  rewrite HE in HG'. cbn [snd] in HG'.
  set (w' := mkWorld _ _) in *.
  destruct (GETP_json _ _ _ _ _ HG) as (m & Em & _ & _ & _ & Hmonth & Ht & Hrec).
  destruct (GETP_json _ _ _ _ _ HG') as (m' & Em' & _ & _ & _ & _ & Ht' & Hrec').
  assert (m' = m) as -> by congruence.
  assert (PrevDue.records rep' ≡ₚ PrevDue.records rep) as Hperm.
  { rewrite Hrec', Hrec, !Hord. unfold history_at in *. unfold w'.
    cbn [db same_month_db student_membership_history].
    rewrite (alter_as_insert _ _ _ _ Hh).
    rewrite map_to_list_insert by apply lookup_delete_eq.
    rewrite <- (map_to_list_delete _ _ _ Hh).
    rewrite !filter_cons. cbn [snd].
    assert (forall r, History.prev_due_paid r = History.prev_due_paid h ->
                      due_selected_b ses q m r = false) as Hout.
    { intros r Hr. unfold due_selected_b. rewrite Hr.
      rewrite (bool_decide_eq_false_2 (History.prev_due_paid h = Some true)) by done.
      by rewrite andb_false_r. }
    rewrite !decide_False by (rewrite Hout; done). reflexivity. }
  split; [exact Hperm|].
  by rewrite Ht', Ht, (sum_amounts_perm _ _ Hperm).
Qed.

Lemma X16_witness :
  exists rep rep',
    GET_previous_due_paid (env_may None) utc_session (mkQuery (Some "2024-05"%string) None)
      world0 = Json rep
    /\ GET_previous_due_paid (env_may None) utc_session (mkQuery (Some "2024-05"%string) None)
         (PUT (env_may None) (pay "2" 30 "cash") world0).2 = Json rep'
    /\ (PrevDue.totalPreviousDuePaid rep' == PrevDue.totalPreviousDuePaid rep)%Q.
Proof.
  assert (exists rep, GET_previous_due_paid (env_may None) utc_session
                        (mkQuery (Some "2024-05"%string) None) world0 = Json rep)
    as [rep Hrep] by (eexists; vm_compute; reflexivity).
  assert (exists rep', GET_previous_due_paid (env_may None) utc_session
                         (mkQuery (Some "2024-05"%string) None)
                         (PUT (env_may None) (pay "2" 30 "cash") world0).2 = Json rep')
    as [rep' Hrep'] by (eexists; vm_compute; reflexivity).
  exists rep, rep'. split; [exact Hrep|]. split; [exact Hrep'|].
  apply (X16_report_ignores_same_month (env_may None) (pay "2" 30 "cash") world0 30 2
           (history_row 7 100 0 100 0 0 may_2024) utc_session
           (mkQuery (Some "2024-05"%string) None) (env_may None) (env_may None) rep rep').
  - apply sort_by_rearranges.
  - vm_compute. reflexivity.
  - repeat split; vm_compute; reflexivity.
  - vm_compute. reflexivity.
  - discriminate.
  - exact Hrep.
  - exact Hrep'.
Defined.

(** ** The pages of the table *)

Lemma ceil_div_covers n d : (0 < d -> n <= Math_ceil_div n d * d)%nat.
Proof.
  intros Hd. unfold Math_ceil_div.
  pose proof (Nat.div_mod_eq (n + d - 1) d) as Hq.
  pose proof (Nat.mod_upper_bound (n + d - 1) d) as Hr. nia.
Qed.

Lemma ceil_div_tight n d : (0 < d -> 0 < n -> (Math_ceil_div n d - 1) * d < n)%nat.
Proof.
  intros Hd Hn. unfold Math_ceil_div.
  pose proof (Nat.div_mod_eq (n + d - 1) d) as Hq.
  pose proof (Nat.mod_upper_bound (n + d - 1) d) as Hr.
  assert (1 <= (n + d - 1) / d)%nat by (apply Nat.div_le_lower_bound; lia).
  nia.
Qed.

Lemma page_as_take_drop {A} (l : list A) n p :
  (1 <= p)%nat -> currentCollections l n p = take n (drop ((p - 1) * n) l).
Proof.
  intros Hp. unfold currentCollections, slice. f_equal; [nia|f_equal; nia].
Qed.

Lemma pages_up_to {A} (l : list A) n t :
  concat ((fun p => currentCollections l n p) <$> seq 1 t) = take (t * n) l.
Proof.
  induction t as [|t IH]; [by rewrite take_0|].
  rewrite seq_S, fmap_app, concat_app, IH. cbn [fmap list_fmap concat].
  rewrite app_nil_r, page_as_take_drop by lia.
  replace (1 + t - 1)%nat with t by lia.
  rewrite take_take_drop. f_equal. lia.
Qed.

(** X17: the pages of the table partition the filtered list: for a positive
    page size, the pages 1 to [totalPages], one after the other, are the
    filtered list, so every item is on exactly one page, in order. *)
Theorem X17_pages_partition {A} (filteredCollections : list A) itemsPerPage :
  (0 < itemsPerPage)%nat ->
  concat ((fun currentPage => currentCollections filteredCollections itemsPerPage currentPage)
          <$> seq 1 (totalPages filteredCollections itemsPerPage))
  = filteredCollections.
Proof.
  intros Hn. rewrite pages_up_to. apply take_ge.
  by apply ceil_div_covers.
Qed.

Lemma X17_witness :
  concat ((fun p => currentCollections [1; 2; 3; 4; 5; 6; 7] 3%nat p)
          <$> seq 1 (totalPages [1; 2; 3; 4; 5; 6; 7] 3%nat))
  = [1; 2; 3; 4; 5; 6; 7].
Proof. apply (X17_pages_partition [1; 2; 3; 4; 5; 6; 7] 3%nat). lia. Defined.

(** X18: for a positive page size, every page from 1 to [totalPages] shows
    at least one item and at most a page size of them, every page after
    [totalPages] is empty, and an empty list has no page. *)
Theorem X18_page_sizes {A} (filteredCollections : list A) itemsPerPage currentPage :
  (0 < itemsPerPage)%nat ->
  (1 <= currentPage)%nat ->
  ((currentPage <= totalPages filteredCollections itemsPerPage ->
    1 <= length (currentCollections filteredCollections itemsPerPage currentPage)
      <= itemsPerPage)
   /\ (totalPages filteredCollections itemsPerPage < currentPage ->
       currentCollections filteredCollections itemsPerPage currentPage = [])
   /\ (totalPages filteredCollections itemsPerPage = 0 <-> filteredCollections = []))%nat.
Proof.
  intros Hn Hp. rewrite page_as_take_drop by done. unfold totalPages.
  pose proof (ceil_div_covers (length filteredCollections) itemsPerPage Hn) as Hcov.
  split; [|split].
  - intros Hle. rewrite length_take, length_drop.
    destruct (decide (length filteredCollections = 0)%nat) as [H0|H0].
    { rewrite H0 in Hle. unfold Math_ceil_div in Hle.
      rewrite Nat.div_small in Hle by lia. lia. }
    pose proof (ceil_div_tight (length filteredCollections) itemsPerPage Hn) as Ht.
    assert ((currentPage - 1) * itemsPerPage
            <= (Math_ceil_div (length filteredCollections) itemsPerPage - 1) * itemsPerPage)%nat
      by (apply Nat.mul_le_mono_r; lia).
    lia.
  - intros Hgt. rewrite drop_ge; [by rewrite take_nil|].
    assert (Math_ceil_div (length filteredCollections) itemsPerPage * itemsPerPage
            <= (currentPage - 1) * itemsPerPage)%nat
      by (apply Nat.mul_le_mono_r; lia).
    lia.
  - split.
    + intros H0. rewrite H0 in Hcov. destruct filteredCollections; [done|]. simpl in Hcov. lia.
    + intros ->. unfold Math_ceil_div. cbn [length]. apply Nat.div_small. lia.
Qed.

Lemma X18_witness :
  (1 <= length (currentCollections [1; 2; 3; 4; 5; 6; 7] 3%nat 3%nat) <= 3)%nat.
Proof.
  apply (X18_page_sizes [1; 2; 3; 4; 5; 6; 7] 3%nat 3%nat); [lia|lia|].
  vm_compute. lia.
Defined.

(** ** DELETE: its errors, and what it does not undo *)

Lemma DELETE_missing env p w k :
  parseInt p = Some k ->
  int4 k = true ->
  history_at w k = None ->
  fault env ≠ Some 0%nat ->
  DELETE env p w = (mkResponse 404 (Message "Collection record not found"), w).
Proof.
  intros Hp Hint Hk Hf. unfold DELETE, delete_try, history_at in *. rewrite Hp.
  rewrite bind_query. rewrite decide_False by exact Hf.
  unfold select_history_id. rewrite Hint.
  cbn [tick connect view world txn issued default id db].
  rewrite Hk. cbn [fmap option_fmap option_map].
  destruct w. reflexivity.
Qed.

(** X19: the error answers of DELETE, none of which changes anything: an id
    that starts with no integer is answered 400 before any query is made; a
    failing first query, and an integer that is no value of the id column,
    are answered 500; a value of the column that no row has is answered 404
    when the first query succeeds, the second query never being made; and a
    failing second query (the DELETE itself) is answered 500 with the row
    still there. *)
Theorem X19_delete_errors env p w :
  (parseInt p = None ->
   DELETE env p w = (mkResponse 400 (Message "Invalid history ID"), w))
  /\ (is_Some (parseInt p) -> fault env = Some 0%nat ->
      DELETE env p w
      = (mkResponse 500 (ServerError "Server error deleting collection record"), w))
  /\ (forall k, parseInt p = Some k -> int4 k = false ->
      DELETE env p w
      = (mkResponse 500 (ServerError "Server error deleting collection record"), w))
  /\ (forall k, parseInt p = Some k -> int4 k = true -> history_at w k = None ->
      fault env ≠ Some 0%nat ->
      DELETE env p w = (mkResponse 404 (Message "Collection record not found"), w))
  /\ (forall k, parseInt p = Some k -> int4 k = true -> is_Some (history_at w k) ->
      fault env = Some 1%nat ->
      DELETE env p w
      = (mkResponse 500 (ServerError "Server error deleting collection record"), w)).
Proof.
  split; [|split; [|split; [|split]]].
  - intros Hp. unfold DELETE, delete_try. rewrite Hp. destruct w. reflexivity.
  - intros [k Hp] Hf. unfold DELETE, delete_try. rewrite Hp.
    rewrite bind_query. rewrite decide_True by exact Hf. destruct w. reflexivity.
  - intros k Hp Hint. unfold DELETE, delete_try. rewrite Hp.
    rewrite bind_query. case_decide; [destruct w; reflexivity|].
    unfold select_history_id. rewrite Hint. destruct w. reflexivity.
  - intros k. apply DELETE_missing.
  - intros k Hp Hint [h Hh] Hf. unfold DELETE, delete_try, history_at in *. rewrite Hp.
    rewrite bind_query. rewrite decide_False by (rewrite Hf; discriminate).
    unfold select_history_id. rewrite Hint.
    cbn [tick connect view world txn issued default id db].
    rewrite Hh. cbn [fmap option_fmap option_map].
    rewrite bind_query. rewrite decide_True by exact Hf. destruct w. reflexivity.
Qed.

Lemma X19_witness :
  DELETE (env_may (Some 0%nat)) "abc" world0
  = (mkResponse 400 (Message "Invalid history ID"), world0)
  /\ DELETE (env_may None) (nbsp "-2147483649") world0
     = (mkResponse 500 (ServerError "Server error deleting collection record"), world0)
  /\ DELETE (env_may (Some 1%nat)) "9" world0
     = (mkResponse 404 (Message "Collection record not found"), world0)
  /\ DELETE (env_may (Some 1%nat)) "2" world0
     = (mkResponse 500 (ServerError "Server error deleting collection record"), world0).
Proof.
  split; [|split; [|split]].
  - apply (proj1 (X19_delete_errors (env_may (Some 0%nat)) "abc" world0)). reflexivity.
  - apply (proj1 (proj2 (proj2 (X19_delete_errors (env_may None) (nbsp "-2147483649")
                                  world0))) (-2147483649)); reflexivity.
  - apply (proj1 (proj2 (proj2 (proj2 (X19_delete_errors (env_may (Some 1%nat)) "9"
                                         world0)))) 9).
    + reflexivity.
    + reflexivity.
    + vm_compute. reflexivity.
    + discriminate.
  - apply (proj2 (proj2 (proj2 (proj2 (X19_delete_errors (env_may (Some 1%nat)) "2"
                                         world0)))) 2).
    + reflexivity.
    + reflexivity.
    + vm_compute. eauto.
    + reflexivity.
Defined.

(** X20: a second DELETE of the same id finds nothing: after a DELETE
    answered 200, the same DELETE again is answered 404 and changes nothing,
    when its first query does not fail. *)
Theorem X20_delete_twice env p w env2 :
  status (DELETE env p w).1 = 200 ->
  fault env2 ≠ Some 0%nat ->
  DELETE env2 p (DELETE env p w).2
  = (mkResponse 404 (Message "Collection record not found"), (DELETE env p w).2).
Proof.
  intros H200 Hf. destruct (DELETE_200 _ _ _ H200) as (k & Hp & Hw & Hint).
  apply (DELETE_missing _ _ _ k Hp Hint); [|exact Hf].
  rewrite Hw. unfold history_at. cbn [db with_history student_membership_history].
  destruct (db w). apply lookup_delete_eq.
Qed.

Lemma X20_witness :
  DELETE (env_may None) "2" (DELETE (env_may None) "2" world0).2
  = (mkResponse 404 (Message "Collection record not found"),
     (DELETE (env_may None) "2" world0).2).
Proof.
  apply (X20_delete_twice (env_may None) "2" world0 (env_may None)).
  - vm_compute. reflexivity.
  - discriminate.
Defined.

(** X21: deleting the record of a payment does not undo the payment: after
    an accepted previous-month payment of [a], a DELETE of the inserted row
    is answered 200 (when no query fails) and removes that row only: the
    targeted row keeps its due lowered by [a], every other history row is as
    before the payment, the student snapshots stay as the payment left them,
    and the id of the deleted row is not given out again. *)
Theorem X21_delete_keeps_payment env req w a k h env2 p :
  accepted env req w ->
  pays env req w a k h ->
  previous_month_of env h ->
  fault env2 = None ->
  parseInt p = Some (history_id_seq w) ->
  let w1 := (PUT env req w).2 in
  let w2 := (DELETE env2 p w1).2 in
  status (DELETE env2 p w1).1 = 200
  /\ history_at w2 (history_id_seq w) = None
  /\ (exists h', history_at w2 k = Some h'
                 /\ (parseFloat_or_0 (History.due_amount h')
                     == parseFloat_or_0 (History.due_amount h) - a)%Q
                 /\ same_but_due h h')
  /\ (forall j, j ≠ k -> history_at w2 j = history_at w j)
  /\ students (db w2) = students (db w1)
  /\ history_id_seq w2 = history_id_seq w + 1.
Proof.
  intros Hacc (Ha & Hk & Hh) Hm Hf Hp.
  pose proof (accepted_previous_month_fits _ _ _ _ _ _ Hacc Ha Hk Hh Hm) as Hint.
  destruct (accepted_previous_month _ _ _ _ _ _ Hacc Ha Hk Hh Hm)
    as (sid & s & Hsid & Hs & _ & _ & _ & Hfree & HE).
  cbv zeta. rewrite HE. cbn [snd].
  set (w1 := mkWorld _ _).
  assert (k ≠ history_id_seq w) as Hne by (intros ->; congruence).
  assert (is_Some (history_at w1 (history_id_seq w))) as Hin.
  { unfold history_at, w1. cbn [db previous_month_db student_membership_history].
    rewrite lookup_insert_eq. eauto. }
  assert (status (DELETE env2 p w1).1 = 200) as H200.
  { unfold DELETE, delete_try. rewrite Hp.
    rewrite bind_query. rewrite decide_False by (rewrite Hf; discriminate).
    unfold select_history_id. rewrite Hint.
    cbn [tick connect view world txn issued default id].
    destruct Hin as [x Hx]. unfold history_at in Hx. rewrite Hx.
    cbn [fmap option_fmap option_map].
    rewrite bind_query. rewrite decide_False by (rewrite Hf; discriminate).
    unfold delete_history. rewrite Hint. reflexivity. }
  split; [exact H200|].
  destruct (DELETE_200 _ _ _ H200) as (k' & Hp' & Hw & _).
  assert (k' = history_id_seq w) as -> by congruence.
  rewrite Hw. unfold history_at, w1 in *.
  cbn [db previous_month_db with_history student_membership_history students
       history_id_seq].
  split; [apply lookup_delete_eq|].
  split.
  { exists (History.set_due (parseFloat_or_0 (History.due_amount h) - a)%Q h).
    split; [|split].
    - rewrite lookup_delete_ne by congruence.
      rewrite lookup_insert_ne by congruence.
      rewrite lookup_alter_eq, Hh. reflexivity.
    - reflexivity.
    - apply same_but_due_set. }
  split; [|split; reflexivity].
  intros j Hj.
  destruct (decide (j = history_id_seq w)) as [->|Hjn].
  - rewrite lookup_delete_eq. symmetry. exact Hfree.
  - rewrite lookup_delete_ne by congruence.
    rewrite lookup_insert_ne by congruence.
    rewrite lookup_alter_ne by congruence. reflexivity.
Qed.

Lemma X21_witness :
  status (DELETE (env_may None) "3" (PUT (env_may None) (pay "1" 40 "cash") world0).2).1 = 200
  /\ history_at (DELETE (env_may None) "3"
                   (PUT (env_may None) (pay "1" 40 "cash") world0).2).2 3 = None.
Proof.
  destruct (X21_delete_keeps_payment (env_may None) (pay "1" 40 "cash") world0 40 1
              (history_row 7 100 0 100 0 0 march_2024) (env_may None) "3")
    as (H200 & Hgone & _).
  - vm_compute. reflexivity.
  - repeat split; vm_compute; reflexivity.
  - vm_compute. reflexivity.
  - reflexivity.
  - reflexivity.
  - split; [exact H200|exact Hgone].
Defined.
